(** * Multi-PDF RAG client: a shallow embedding of the React front end

    The development follows the JavaScript sources:
    - [Js]             the fragment of the language the handlers rely on
                       (UTF-16 strings, dynamic values, exceptions, [trim]);
    - [Web] and [Api]  [fetch] and the service module [services/api.js];
    - [App]            the state and handlers of [App.jsx];
    - [DuplicateModal], [PDFUpload], [QuestionAnswer]  the components;
    - [Core]           the ingestion core, which is not part of the
                       JavaScript sources and is modelled from its
                       specification. *)

From Stdlib Require Import String Ascii DecimalString.
From Stdlib Require Import ZArith NArith List Bool Lia.
Import ListNotations.

Set Implicit Arguments.
Set Warnings "-register-all,-abstract-large-number".

(* ================================================================== *)
(** * The JavaScript fragment *)
(* ================================================================== *)

Module Js.

Local Open Scope N_scope.

(** A JavaScript string is a sequence of UTF-16 code units. *)
Definition jsstring := list N.

(** ASCII literals of the sources. *)
Definition lit (s : string) : jsstring :=
  map N_of_ascii (list_ascii_of_string s).

Fixpoint str_eqb (s t : jsstring) : bool :=
  match s, t with
  | [], [] => true
  | c :: s', d :: t' => N.eqb c d && str_eqb s' t'
  | _, _ => false
  end.

(** A number. The program does no arithmetic on the numbers it is given:
    it prints them, serialises them and tests them. A finite number is
    therefore given by its decimal text, the string that Number::toString
    prints for it and that identifies it (['45'], ['0.5'], ['-3'],
    ['1e+21']; both zeros are ['0']). *)
Inductive number : Type :=
| Finite (decimal : jsstring)
| NaN
| Infinity (negative : bool).

(** Number::toString *)
Definition number_text (n : number) : jsstring :=
  match n with
  | Finite decimal => decimal
  | NaN => lit "NaN"
  | Infinity false => lit "Infinity"
  | Infinity true => lit "-Infinity"
  end.

(** The values a handler can meet: what [JSON.parse] produces, plus
    [undefined], the result of reading a property that is not there, and
    the numbers [JSON.parse] does not produce. *)
Inductive value : Type :=
| VUndefined
| VNull
| VBool (b : bool)
| VNum (n : number)
| VStr (s : jsstring)
| VArr (items : list value)
| VObj (fields : list (jsstring * value)).

(** [v === 'literal'] *)
Definition is_str (v : value) (s : jsstring) : bool :=
  match v with
  | VStr t => str_eqb t s
  | _ => false
  end.

(** ToBoolean *)
Definition truthy (v : value) : bool :=
  match v with
  | VUndefined | VNull => false
  | VBool b => b
  | VNum (Finite decimal) => negb (str_eqb decimal (lit "0"))
  | VNum NaN => false
  | VNum (Infinity _) => true
  | VStr s => match s with [] => false | _ => true end
  | VArr _ | VObj _ => true
  end.

Definition nullish (v : value) : bool :=
  match v with
  | VUndefined | VNull => true
  | _ => false
  end.

(** Own-property lookup in an object literal; the first binding of a key
    is the effective one. *)
Fixpoint lookup (k : jsstring) (fields : list (jsstring * value)) : value :=
  match fields with
  | [] => VUndefined
  | (k', v) :: rest => if str_eqb k k' then v else lookup k rest
  end.

(** [v.k] for a value that is neither [null] nor [undefined], and for the
    property names the sources read ([status], [filename], [chunks],
    [message], [answer], [sources]): none of them is defined on a
    prototype, so only objects can answer. *)
Definition prop (v : value) (k : jsstring) : value :=
  match v with
  | VObj fields => lookup k fields
  | _ => VUndefined
  end.

(** Whether an object has an own property [k]. *)
Fixpoint has_own (k : jsstring) (fields : list (jsstring * value)) : bool :=
  match fields with
  | [] => false
  | (k', _) :: rest => (str_eqb k k' || has_own k rest)%bool
  end.

(** The text of a loop counter: Number::toString of a count of array
    elements. An array has fewer than 2^32 elements, so the count prints
    as its decimal digits. *)
Definition count_text (n : nat) : jsstring :=
  lit (NilZero.string_of_uint (Nat.to_uint n)).

Fixpoint join (sep : jsstring) (parts : list jsstring) : jsstring :=
  match parts with
  | [] => []
  | [p] => p
  | p :: rest => p ++ sep ++ join sep rest
  end.

(** ** Exceptions *)

Record JsError : Type := mkError { err_name : jsstring; err_message : jsstring }.

(** [new Error(message)] *)
Definition Error (message : jsstring) : JsError :=
  mkError (lit "Error") message.

(** TypeErrors raised by the engine itself; the message texts are V8's. *)
Definition TypeError_null_property (v : value) (k : jsstring) : JsError :=
  mkError (lit "TypeError")
          (lit "Cannot read properties of "
           ++ (match v with VNull => lit "null" | _ => lit "undefined" end)
           ++ lit " (reading '" ++ k ++ lit "')").

Definition TypeError_not_iterable (name : jsstring) : JsError :=
  mkError (lit "TypeError") (name ++ lit " is not iterable").

Definition TypeError_not_primitive : JsError :=
  mkError (lit "TypeError") (lit "Cannot convert object to primitive value").

Inductive Outcome (A : Type) : Type :=
| Returned (a : A)
| Thrown (e : JsError).
Arguments Thrown {A} e.

(** ToString, as applied by template literals. It throws on an object
    with an own property ['toString']: a parsed object holds no function,
    so neither that property nor [valueOf] yields a primitive. Every other
    object prints through [Object.prototype.toString], an array through
    [join], which prints [null] and [undefined] elements as nothing. *)
Fixpoint ToString (v : value) : Outcome jsstring :=
  match v with
  | VUndefined => Returned (lit "undefined")
  | VNull => Returned (lit "null")
  | VBool true => Returned (lit "true")
  | VBool false => Returned (lit "false")
  | VNum n => Returned (number_text n)
  | VStr s => Returned s
  | VArr items =>
      match (fix elements (l : list value) : Outcome (list jsstring) :=
               match l with
               | [] => Returned []
               | x :: rest =>
                   match (if nullish x then Returned [] else ToString x) with
                   | Thrown e => Thrown e
                   | Returned piece =>
                       match elements rest with
                       | Thrown e => Thrown e
                       | Returned pieces => Returned (piece :: pieces)
                       end
                   end
               end) items with
      | Thrown e => Thrown e
      | Returned pieces => Returned (join (lit ",") pieces)
      end
  | VObj fields =>
      if has_own (lit "toString") fields
      then Thrown TypeError_not_primitive
      else Returned (lit "[object Object]")
  end.

(** What [JSON.stringify] writes, as the value its text denotes:
    [NaN] and the infinities are written [null], an [undefined] property
    is left out, an [undefined] element is written [null]. The result is
    [undefined] exactly for [undefined]. *)
Fixpoint serialised (v : value) : value :=
  match v with
  | VNum NaN | VNum (Infinity _) => VNull
  | VArr items =>
      VArr (map (fun x => match serialised x with
                          | VUndefined => VNull
                          | written => written
                          end) items)
  | VObj fields =>
      VObj (flat_map (fun field =>
                        match field with
                        | (k, x) => match serialised x with
                                    | VUndefined => []
                                    | written => [(k, written)]
                                    end
                        end) fields)
  | _ => v
  end.

(** ** String.prototype.trim *)

(** WhiteSpace and LineTerminator code units of ECMAScript. *)
Definition in_range (lo hi c : N) : bool := (N.leb lo c && N.leb c hi)%bool.

Definition is_space (c : N) : bool :=
  (in_range 9 13 c           (* TAB, LF, VT, FF, CR *)
   || N.eqb c 32             (* SPACE *)
   || N.eqb c 160            (* NO-BREAK SPACE *)
   || N.eqb c 5760           (* U+1680 *)
   || in_range 8192 8202 c   (* U+2000 .. U+200A *)
   || in_range 8232 8233 c   (* U+2028, U+2029 *)
   || N.eqb c 8239           (* U+202F *)
   || N.eqb c 8287           (* U+205F *)
   || N.eqb c 12288          (* U+3000 *)
   || N.eqb c 65279)%bool.   (* U+FEFF *)

(** A string of white space only. *)
Definition blank (s : jsstring) : Prop := Forall (fun c => is_space c = true) s.

Fixpoint trimStart (s : jsstring) : jsstring :=
  match s with
  | [] => []
  | c :: rest => if is_space c then trimStart rest else s
  end.

Definition trimEnd (s : jsstring) : jsstring := rev (trimStart (rev s)).

Definition trim (s : jsstring) : jsstring := trimEnd (trimStart s).

(** ** The state monad of the handlers *)

(** A computation over a state [S] that returns or throws. An [async]
    function is such a computation: [await] is sequencing, a rejected
    promise is a throw. *)
Definition M (S A : Type) : Type := S -> Outcome A * S.

Definition ret {S A} (a : A) : M S A := fun s => (Returned a, s).

Definition throw {S A} (e : JsError) : M S A := fun s => (Thrown e, s).

Definition bind {S A B} (m : M S A) (k : A -> M S B) : M S B :=
  fun s =>
    match m s with
    | (Returned a, s') => k a s'
    | (Thrown e, s') => (Thrown e, s')
    end.

Definition gets {S A} (f : S -> A) : M S A := fun s => (Returned (f s), s).

Definition modify {S} (f : S -> S) : M S unit := fun s => (Returned tt, f s).

(** [try { body } catch (error) { handler error }] *)
Definition try_catch {S A} (body : M S A) (handler : JsError -> M S A) : M S A :=
  fun s =>
    match body s with
    | (Returned a, s') => (Returned a, s')
    | (Thrown e, s') => handler e s'
    end.

(** [try { body } finally { cleanup }]: the cleanup always runs; the
    outcome is the body's unless the cleanup itself throws. *)
Definition try_finally {S A} (body : M S A) (cleanup : M S unit) : M S A :=
  fun s =>
    match body s with
    | (r, s') =>
        match cleanup s' with
        | (Returned _, s'') => (r, s'')
        | (Thrown e, s'') => (Thrown e, s'')
        end
    end.

(** Run a computation and reify its outcome (a promise that is inspected
    rather than awaited). *)
Definition attempt {S A} (m : M S A) : M S (Outcome A) :=
  fun s => match m s with (r, s') => (Returned r, s') end.

(** Calling an [async] function without awaiting it: its effects happen,
    its outcome is dropped and nothing is thrown at the caller. *)
Definition detached {S A} (m : M S A) : M S unit :=
  fun s => match m s with (_, s') => (Returned tt, s') end.

(** A substitution [${v}] of a template literal. *)
Definition to_string {S} (v : value) : M S jsstring :=
  match ToString v with
  | Returned text => ret text
  | Thrown e => throw e
  end.

(** [v.k], which throws on [null] and [undefined]. *)
Definition get_prop {S} (v : value) (k : jsstring) : M S value :=
  if nullish v then throw (TypeError_null_property v k) else ret (prop v k).

Definition is_high_surrogate (c : N) : bool := in_range 55296 56319 c.
Definition is_low_surrogate (c : N) : bool := in_range 56320 57343 c.

(** The string iterator yields code points: a surrogate pair is one
    element. *)
Fixpoint code_points (s : jsstring) : list jsstring :=
  match s with
  | [] => []
  | c :: rest =>
      match rest with
      | d :: rest' =>
          if (is_high_surrogate c && is_low_surrogate d)%bool
          then [c; d] :: code_points rest'
          else [c] :: code_points rest
      | [] => [[c]]
      end
  end.

(** The elements [for (const x of v)] visits, or the TypeError of a value
    that is not iterable. *)
Definition iterate {S} (name : jsstring) (v : value) : M S (list value) :=
  match v with
  | VArr items => ret items
  | VStr s => ret (map VStr (code_points s))
  | _ => throw (TypeError_not_iterable name)
  end.

(** The loop itself, threading the loop-carried locals [acc]. *)
Fixpoint for_of {S A B} (body : A -> B -> M S B) (items : list A) (acc : B) : M S B :=
  match items with
  | [] => ret acc
  | x :: rest => bind (body x acc) (for_of body rest)
  end.

End Js.

Export Js.

Declare Scope js_scope.
Delimit Scope js_scope with js.
Notation "x <- m ;; k" := (bind m (fun x => k))
  (at level 61, m at next level, right associativity) : js_scope.
Notation "m ;;; k" := (bind m (fun _ => k))
  (at level 61, right associativity) : js_scope.
Open Scope js_scope.

(* ================================================================== *)
(** * The network: [fetch], [FormData], [Response] *)
(* ================================================================== *)

Module Web.

(** A [File] of the browser: name, MIME type and content. *)
Record File : Type := mkFile {
  name : jsstring;
  type : jsstring;
  content : list Byte.byte
}.

(** An entry value of a [FormData]. *)
Inductive FormValue : Type :=
| FormFile (f : File)
| FormString (s : jsstring).

(** [formData.get(k)]: the first entry under [k]. *)
Fixpoint form_get (k : jsstring) (entries : list (jsstring * FormValue)) : option FormValue :=
  match entries with
  | [] => None
  | (k', v) :: rest => if str_eqb k k' then Some v else form_get k rest
  end.

Inductive Body : Type :=
| NoBody
| FormBody (entries : list (jsstring * FormValue))
| JsonBody (v : value).   (* a JSON text, given by the value it denotes *)

Record Request : Type := mkRequest {
  url : jsstring;
  method : jsstring;
  headers : list (jsstring * jsstring);
  body : Body
}.

(** What [response.json()] settles to. *)
Inductive JsonResult : Type :=
| Parsed (v : value)
| Unparseable (e : JsError).

Record Response : Type := mkResponse {
  ok : bool;
  statusText : jsstring;
  json : JsonResult
}.

(** What [fetch] settles to: a response, or a rejection when no response
    could be obtained (the server is not running, the connection drops). *)
Inductive FetchResult : Type :=
| Responded (r : Response)
| NetworkFailure (e : JsError).

(** The environment of the page. [network n req] is what the [n]-th
    request ever issued settles to when it is [req]; [sent] logs the
    requests issued so far, oldest first. [clock k] is the [k]-th reading
    of [Date.now()]. *)
Record World : Type := mkWorld {
  network : nat -> Request -> FetchResult;
  sent : list Request;
  clock : nat -> Z;
  clock_reads : nat
}.

Definition log_request (req : Request) (w : World) : World :=
  mkWorld (network w) (sent w ++ [req]) (clock w) (clock_reads w).

Definition fetch (req : Request) : M World Response :=
  fun w =>
    match network w (length (sent w)) req with
    | Responded r => (Returned r, log_request req w)
    | NetworkFailure e => (Thrown e, log_request req w)
    end.

(** [fetch(url)] without an init object is a GET without body. *)
Definition fetch_get (u : jsstring) : M World Response :=
  fetch (mkRequest u (lit "GET") [] NoBody).

Definition response_json (r : Response) : M World value :=
  match json r with
  | Parsed v => ret v
  | Unparseable e => throw e
  end.

Definition Date_now : M World Z :=
  fun w =>
    (Returned (clock w (clock_reads w)),
     mkWorld (network w) (sent w) (clock w) (S (clock_reads w))).

End Web.

Export Web.

(* ================================================================== *)
(** * services/api.js *)
(* ================================================================== *)

Module Api.

Definition API_BASE_URL : jsstring := lit "http://localhost:8000".

Definition uploadPDFs (files : list File) : M World value :=
  let formData := map (fun file => (lit "files", FormFile file)) files in
  response <- fetch (mkRequest (API_BASE_URL ++ lit "/upload-pdfs")
                               (lit "POST") [] (FormBody formData)) ;;
  if negb (ok response)
  then throw (Error (lit "Upload failed: " ++ statusText response))
  else response_json response.

Definition handleDuplicate (file : File) (action : jsstring) : M World value :=
  let formData := [(lit "file", FormFile file); (lit "action", FormString action)] in
  response <- fetch (mkRequest (API_BASE_URL ++ lit "/handle-duplicate")
                               (lit "POST") [] (FormBody formData)) ;;
  if negb (ok response)
  then throw (Error (lit "Failed to handle duplicate: " ++ statusText response))
  else response_json response.

(** The default parameter [topK = 5]: it applies when the argument is
    absent ([None]) and when it is [undefined]. *)
Definition topK_or_default (topK : option value) : value :=
  match topK with
  | None | Some VUndefined => VNum (Finite (lit "5"))
  | Some given => given
  end.

(** [askQuestion(question, topK = 5)] *)
Definition askQuestion (question : jsstring) (topK : option value) : M World value :=
  let topK := topK_or_default topK in
  response <- fetch (mkRequest (API_BASE_URL ++ lit "/ask")
                               (lit "POST")
                               [(lit "Content-Type", lit "application/json")]
                               (JsonBody (serialised
                                            (VObj [(lit "question", VStr question);
                                                   (lit "top_k", topK)])))) ;;
  if negb (ok response)
  then throw (Error (lit "Failed to get answer: " ++ statusText response))
  else response_json response.

Definition getDocuments : M World value :=
  response <- fetch_get (API_BASE_URL ++ lit "/documents") ;;
  if negb (ok response)
  then throw (Error (lit "Failed to get documents: " ++ statusText response))
  else response_json response.

(** The URL is a template literal: it is built, and may throw, before
    [fetch] is called. *)
Definition deleteDocument (docId : value) : M World value :=
  id <- to_string docId ;;
  response <- fetch (mkRequest (API_BASE_URL ++ lit "/documents/" ++ id)
                               (lit "DELETE") [] NoBody) ;;
  if negb (ok response)
  then throw (Error (lit "Failed to delete document: " ++ statusText response))
  else response_json response.

Definition getStats : M World value :=
  response <- fetch_get (API_BASE_URL ++ lit "/stats") ;;
  if negb (ok response)
  then throw (Error (lit "Failed to get stats: " ++ statusText response))
  else response_json response.

Definition healthCheck : M World value :=
  response <- fetch_get (API_BASE_URL ++ lit "/health") ;;
  if negb (ok response)
  then throw (Error (lit "Backend is not healthy: " ++ statusText response))
  else response_json response.

(** The seven exported functions as one family of calls. *)
Inductive Call : Type :=
| UploadPDFs (files : list File)
| HandleDuplicate (file : File) (action : jsstring)
| AskQuestion (question : jsstring) (topK : option value)
| GetDocuments
| DeleteDocument (docId : value)
| GetStats
| HealthCheck.

Definition run (c : Call) : M World value :=
  match c with
  | UploadPDFs files => uploadPDFs files
  | HandleDuplicate file action => handleDuplicate file action
  | AskQuestion question topK => askQuestion question topK
  | GetDocuments => getDocuments
  | DeleteDocument docId => deleteDocument docId
  | GetStats => getStats
  | HealthCheck => healthCheck
  end.

(** The text of a value that has one. *)
Definition text (v : value) : jsstring :=
  match ToString v with
  | Returned s => s
  | Thrown _ => []
  end.

(** The error with which a call stops before it reaches [fetch]:
    [deleteDocument] does when its [docId] has no text. *)
Definition stops_early (c : Call) : option JsError :=
  match c with
  | DeleteDocument docId =>
      match ToString docId with
      | Returned _ => None
      | Thrown e => Some e
      end
  | _ => None
  end.

(** The request each function passes to [fetch], when it reaches it. *)
Definition request_of (c : Call) : Request :=
  match c with
  | UploadPDFs files =>
      mkRequest (API_BASE_URL ++ lit "/upload-pdfs") (lit "POST") []
                (FormBody (map (fun file => (lit "files", FormFile file)) files))
  | HandleDuplicate file action =>
      mkRequest (API_BASE_URL ++ lit "/handle-duplicate") (lit "POST") []
                (FormBody [(lit "file", FormFile file);
                           (lit "action", FormString action)])
  | AskQuestion question topK =>
      mkRequest (API_BASE_URL ++ lit "/ask") (lit "POST")
                [(lit "Content-Type", lit "application/json")]
                (JsonBody (serialised
                             (VObj [(lit "question", VStr question);
                                    (lit "top_k", topK_or_default topK)])))
  | GetDocuments =>
      mkRequest (API_BASE_URL ++ lit "/documents") (lit "GET") [] NoBody
  | DeleteDocument docId =>
      mkRequest (API_BASE_URL ++ lit "/documents/" ++ text docId) (lit "DELETE") [] NoBody
  | GetStats =>
      mkRequest (API_BASE_URL ++ lit "/stats") (lit "GET") [] NoBody
  | HealthCheck =>
      mkRequest (API_BASE_URL ++ lit "/health") (lit "GET") [] NoBody
  end.

(** The text each function puts before [response.statusText] in the
    [Error] it throws. *)
Definition failure_prefix (c : Call) : jsstring :=
  match c with
  | UploadPDFs _ => lit "Upload failed: "
  | HandleDuplicate _ _ => lit "Failed to handle duplicate: "
  | AskQuestion _ _ => lit "Failed to get answer: "
  | GetDocuments => lit "Failed to get documents: "
  | DeleteDocument _ => lit "Failed to delete document: "
  | GetStats => lit "Failed to get stats: "
  | HealthCheck => lit "Backend is not healthy: "
  end.

(** What a call settles to, given what its [fetch] settles to. *)
Definition settle (c : Call) (r : FetchResult) : Outcome value :=
  match r with
  | NetworkFailure e => Thrown e
  | Responded resp =>
      if ok resp
      then match json resp with
           | Parsed v => Returned v
           | Unparseable e => Thrown e
           end
      else Thrown (Error (failure_prefix c ++ statusText resp))
  end.

(** What the next request of a world settles to, if it is the one of [c]. *)
Definition next (c : Call) (w : World) : Outcome value :=
  settle c (network w (length (sent w)) (request_of c)).

End Api.

(* ================================================================== *)
(** * App.jsx *)
(* ================================================================== *)

Module App.

(** The sources hold two versions of the component. They differ in
    display state only (a health log, two panel toggles); the state cells
    and handlers modelled here are the same in both. *)

(** What the [pendingFile] state can hold: its initial [null], a [File],
    or the [undefined] that [Array.prototype.find] returns when nothing
    matches. *)
Inductive FileRef : Type :=
| FNull
| FUndefined
| FSome (f : File).

(** [!pendingFile] *)
Definition no_file (r : FileRef) : bool :=
  match r with
  | FSome _ => false
  | _ => true
  end.

Record Toast : Type := mkToast {
  toast_id : Z;
  toast_message : value;
  toast_type : jsstring
}.

(** The [useState] cells of the component. *)
Record AppState : Type := mkApp {
  documents : value;
  stats : value;
  isUploading : bool;
  isAsking : bool;
  isDeleting : bool;
  answer : value;
  sources : value;
  backendConnected : bool;
  duplicateInfo : value;
  pendingFile : FileRef;
  toasts : list Toast
}.

Definition initial : AppState :=
  mkApp (VArr []) VNull false false false (VStr []) (VArr []) false VNull FNull [].

(** The component together with its environment. *)
Record Machine : Type := mkMachine {
  app : AppState;
  world : World
}.

Definition in_world {A} (m : M World A) : M Machine A :=
  fun s =>
    match m (world s) with
    | (r, w') => (r, mkMachine (app s) w')
    end.

Definition update (f : AppState -> AppState) : M Machine unit :=
  modify (fun s => mkMachine (f (app s)) (world s)).

Definition setDocuments (v : value) : M Machine unit :=
  update (fun a => mkApp v (stats a) (isUploading a) (isAsking a) (isDeleting a)
                         (answer a) (sources a) (backendConnected a)
                         (duplicateInfo a) (pendingFile a) (toasts a)).

Definition setStats (v : value) : M Machine unit :=
  update (fun a => mkApp (documents a) v (isUploading a) (isAsking a) (isDeleting a)
                         (answer a) (sources a) (backendConnected a)
                         (duplicateInfo a) (pendingFile a) (toasts a)).

Definition setIsUploading (b : bool) : M Machine unit :=
  update (fun a => mkApp (documents a) (stats a) b (isAsking a) (isDeleting a)
                         (answer a) (sources a) (backendConnected a)
                         (duplicateInfo a) (pendingFile a) (toasts a)).

Definition setIsAsking (b : bool) : M Machine unit :=
  update (fun a => mkApp (documents a) (stats a) (isUploading a) b (isDeleting a)
                         (answer a) (sources a) (backendConnected a)
                         (duplicateInfo a) (pendingFile a) (toasts a)).

Definition setAnswer (v : value) : M Machine unit :=
  update (fun a => mkApp (documents a) (stats a) (isUploading a) (isAsking a) (isDeleting a)
                         v (sources a) (backendConnected a)
                         (duplicateInfo a) (pendingFile a) (toasts a)).

Definition setSources (v : value) : M Machine unit :=
  update (fun a => mkApp (documents a) (stats a) (isUploading a) (isAsking a) (isDeleting a)
                         (answer a) v (backendConnected a)
                         (duplicateInfo a) (pendingFile a) (toasts a)).

Definition setDuplicateInfo (v : value) : M Machine unit :=
  update (fun a => mkApp (documents a) (stats a) (isUploading a) (isAsking a) (isDeleting a)
                         (answer a) (sources a) (backendConnected a)
                         v (pendingFile a) (toasts a)).

Definition setPendingFile (r : FileRef) : M Machine unit :=
  update (fun a => mkApp (documents a) (stats a) (isUploading a) (isAsking a) (isDeleting a)
                         (answer a) (sources a) (backendConnected a)
                         (duplicateInfo a) r (toasts a)).

(** [setToasts(f)], the functional form of the setter. *)
Definition setToasts (f : list Toast -> list Toast) : M Machine unit :=
  update (fun a => mkApp (documents a) (stats a) (isUploading a) (isAsking a) (isDeleting a)
                         (answer a) (sources a) (backendConnected a)
                         (duplicateInfo a) (pendingFile a) (f (toasts a))).

Definition addToast (message : value) (type : jsstring) : M Machine unit :=
  id <- in_world Date_now ;;
  setToasts (fun prev => prev ++ [mkToast id message type]).

Definition removeToast (id : Z) : M Machine unit :=
  setToasts (fun prev => filter (fun t => negb (Z.eqb (toast_id t) id)) prev).

(** [Promise.all([api.getDocuments(), api.getStats()])]: both requests are
    issued, in this order, and the result is destructured only when both
    have succeeded. The [catch] branch only writes to the console, which
    is not part of the state. *)
Definition refreshData : M Machine unit :=
  docs <- attempt (in_world Api.getDocuments) ;;
  statsData <- attempt (in_world Api.getStats) ;;
  match docs, statsData with
  | Returned docs, Returned statsData =>
      setDocuments docs ;;; setStats statsData
  | _, _ => ret tt
  end.

(** [files.find(f => f.name === result.filename)] *)
Definition find_file (files : list File) (filename : value) : FileRef :=
  match find (fun f => is_str filename (name f)) files with
  | Some f => FSome f
  | None => FUndefined
  end.

(** The body of the [for (const result of results)] loop of
    [handleUpload]; the pair is [(successCount, duplicateCount)]. *)
Definition handleUpload_result (files : list File) (result : value)
    (counts : nat * nat) : M Machine (nat * nat) :=
  let '(successCount, duplicateCount) := counts in
  status <- get_prop result (lit "status") ;;
  if is_str status (lit "success") then
    filename <- to_string (prop result (lit "filename")) ;;
    chunks <- to_string (prop result (lit "chunks")) ;;
    addToast (VStr (lit "Uploaded: " ++ filename ++ lit " (" ++ chunks ++ lit " chunks)"))
             (lit "success") ;;;
    ret (S successCount, duplicateCount)
  else if is_str status (lit "duplicate") then
    setDuplicateInfo result ;;;
    setPendingFile (find_file files (prop result (lit "filename"))) ;;;
    ret (successCount, S duplicateCount)
  else if is_str status (lit "error") then
    filename <- to_string (prop result (lit "filename")) ;;
    message <- to_string (prop result (lit "message")) ;;
    addToast (VStr (lit "Error: " ++ filename ++ lit " - " ++ message))
             (lit "error") ;;;
    ret (successCount, duplicateCount)
  else
    ret (successCount, duplicateCount).

Definition handleUpload (files : list File) : M Machine unit :=
  setIsUploading true ;;;
  try_finally
    (try_catch
       (results <- in_world (Api.uploadPDFs files) ;;
        items <- iterate (lit "results") results ;;
        counts <- for_of (handleUpload_result files) items (0, 0) ;;
        let '(successCount, duplicateCount) := counts in
        (if 0 <? successCount then refreshData else ret tt) ;;;
        (if duplicateCount =? 0
         then addToast (VStr (lit "Upload complete: "
                              ++ count_text successCount
                              ++ lit " files processed"))
                       (lit "success")
         else ret tt))
       (fun error =>
          addToast (VStr (lit "Upload failed: " ++ err_message error)) (lit "error")))
    (setIsUploading false).

(** The [try] block of [handleDuplicateAction]. *)
Definition handleDuplicateAction_try (file : File) (action : jsstring) : M Machine unit :=
  result <- in_world (Api.handleDuplicate file action) ;;
  status <- get_prop result (lit "status") ;;
  if is_str status (lit "success") then
    addToast (prop result (lit "message")) (lit "success") ;;;
    refreshData
  else if is_str status (lit "cancelled") then
    addToast (VStr (lit "Upload cancelled")) (lit "info")
  else
    addToast (prop result (lit "message")) (lit "error").

Definition handleDuplicateAction (action : jsstring) : M Machine unit :=
  pending <- gets (fun s => pendingFile (app s)) ;;
  match pending with
  | FNull | FUndefined => ret tt
  | FSome file =>
      setIsUploading true ;;;
      try_finally
        (try_catch
           (handleDuplicateAction_try file action)
           (fun error =>
              addToast (VStr (lit "Error: " ++ err_message error)) (lit "error")))
        (setDuplicateInfo VNull ;;;
         setPendingFile FNull ;;;
         setIsUploading false)
  end.

Definition handleAsk (question : jsstring) : M Machine unit :=
  setIsAsking true ;;;
  setAnswer (VStr []) ;;;
  setSources (VArr []) ;;;
  try_finally
    (try_catch
       (result <- in_world (Api.askQuestion question None) ;;
        answer <- get_prop result (lit "answer") ;;
        setAnswer answer ;;;
        sources <- get_prop result (lit "sources") ;;
        setSources sources)
       (fun error =>
          addToast (VStr (lit "Error: " ++ err_message error)) (lit "error")))
    (setIsAsking false).

Definition setIsDeleting (b : bool) : M Machine unit :=
  update (fun a => mkApp (documents a) (stats a) (isUploading a) (isAsking a) b
                         (answer a) (sources a) (backendConnected a)
                         (duplicateInfo a) (pendingFile a) (toasts a)).

Definition setBackendConnected (b : bool) : M Machine unit :=
  update (fun a => mkApp (documents a) (stats a) (isUploading a) (isAsking a) (isDeleting a)
                         (answer a) (sources a) b
                         (duplicateInfo a) (pendingFile a) (toasts a)).

(** The double quote, which the confirmation message contains. *)
Definition dquote : jsstring := [34%N].

(** [handleDelete(docId, filename)]; [confirm] is [window.confirm], the
    user's answer to the message shown. The message is a template literal
    evaluated before the [try] block. *)
Definition handleDelete (confirm : jsstring -> bool) (docId filename : value)
    : M Machine unit :=
  name <- to_string filename ;;
  if negb (confirm (lit "Are you sure you want to delete " ++ dquote
                    ++ name ++ dquote ++ lit "?"))
  then ret tt
  else
    setIsDeleting true ;;;
    try_finally
      (try_catch
         (in_world (Api.deleteDocument docId) ;;;
          name <- to_string filename ;;
          addToast (VStr (lit "Deleted: " ++ name)) (lit "success") ;;;
          refreshData)
         (fun error =>
            addToast (VStr (lit "Error deleting: " ++ err_message error)) (lit "error")))
      (setIsDeleting false).

(** [await Promise.all([api.getDocuments(), api.getStats()])]: both
    requests are issued, in this order; the await throws when one of them
    has failed. *)
Definition getDocuments_and_getStats : M Machine (value * value) :=
  docs <- attempt (in_world Api.getDocuments) ;;
  statsData <- attempt (in_world Api.getStats) ;;
  match docs, statsData with
  | Returned docs, Returned statsData => ret (docs, statsData)
  | Thrown e, _ => throw e
  | _, Thrown e => throw e
  end.

(** [initializeApp], the effect run when the component mounts (the version
    without the health log). Its [catch] block does not look at the
    error. *)
Definition initializeApp : M Machine unit :=
  try_catch
    (in_world Api.healthCheck ;;;
     setBackendConnected true ;;;
     loaded <- getDocuments_and_getStats ;;
     setDocuments (fst loaded) ;;;
     setStats (snd loaded) ;;;
     addToast (VStr (lit "Connected to RAG backend")) (lit "success"))
    (fun _ =>
       setBackendConnected false ;;;
       addToast (VStr (lit "Cannot connect to backend. Make sure the server is running."))
                (lit "error")).

(** ** Vocabulary of the statements *)

(** The state after [addToast]: one more toast, one more clock reading. *)
Definition pushToast (t : Toast) (a : AppState) : AppState :=
  mkApp (documents a) (stats a) (isUploading a) (isAsking a) (isDeleting a)
        (answer a) (sources a) (backendConnected a)
        (duplicateInfo a) (pendingFile a) (toasts a ++ [t]).

Definition tick (w : World) : World :=
  mkWorld (network w) (sent w) (clock w) (S (clock_reads w)).

Definition toasted (message : value) (type : jsstring) (m : Machine) : Machine :=
  mkMachine (pushToast (mkToast (clock (world m) (clock_reads (world m))) message type)
                       (app m))
            (tick (world m)).

(** The state after a duplicate has been stored. *)
Definition storeDuplicate (info : value) (file : FileRef) (a : AppState) : AppState :=
  mkApp (documents a) (stats a) (isUploading a) (isAsking a) (isDeleting a)
        (answer a) (sources a) (backendConnected a)
        info file (toasts a).

(** The pending-duplicate slot. *)
Definition slot (m : Machine) : value * FileRef :=
  (duplicateInfo (app m), pendingFile (app m)).

Definition is_duplicate (result : value) : bool :=
  is_str (prop result (lit "status")) (lit "duplicate").

Fixpoint last_duplicate (results : list value) : option value :=
  match results with
  | [] => None
  | r :: rest =>
      match last_duplicate rest with
      | Some d => Some d
      | None => if is_duplicate r then Some r else None
      end
  end.

(** The [try] block of [handleUpload] from the point where the upload
    has answered [results]. *)
Definition handleUpload_results (files : list File) (results : value) : M Machine unit :=
  items <- iterate (lit "results") results ;;
  counts <- for_of (handleUpload_result files) items (0, 0) ;;
  let '(successCount, duplicateCount) := counts in
  (if 0 <? successCount then refreshData else ret tt) ;;;
  (if duplicateCount =? 0
   then addToast (VStr (lit "Upload complete: "
                        ++ count_text successCount
                        ++ lit " files processed"))
                 (lit "success")
   else ret tt).

(** The state in which that block starts: [isUploading] set, the upload
    request logged. *)
Definition uploading (files : list File) (m : Machine) : Machine :=
  mkMachine
    (mkApp (documents (app m)) (stats (app m)) true (isAsking (app m))
           (isDeleting (app m)) (answer (app m)) (sources (app m))
           (backendConnected (app m)) (duplicateInfo (app m))
           (pendingFile (app m)) (toasts (app m)))
    (log_request (Api.request_of (Api.UploadPDFs files)) (world m)).

(** The [try] block of [handleDuplicateAction] from the point where the
    request has answered [result]. *)
Definition handleDuplicateAction_result (result : value) : M Machine unit :=
  status <- get_prop result (lit "status") ;;
  if is_str status (lit "success") then
    addToast (prop result (lit "message")) (lit "success") ;;;
    refreshData
  else if is_str status (lit "cancelled") then
    addToast (VStr (lit "Upload cancelled")) (lit "info")
  else
    addToast (prop result (lit "message")) (lit "error").

(** What a toast shows: its message and type. *)
Definition toast_view (t : Toast) : value * jsstring :=
  (toast_message t, toast_type t).

Definition has_status (status : string) (result : value) : bool :=
  is_str (prop result (lit "status")) (lit status).

(** Whether a value has a text, that is, whether [ToString] returns. *)
Definition printable (v : value) : bool :=
  match ToString v with
  | Returned _ => true
  | Thrown _ => false
  end.

(** Whether the loop of [handleUpload] gets past a result: it does not
    when the result is [null], whose [status] cannot be read, nor when a
    value that goes into the result's toast has no text. *)
Definition passes (result : value) : bool :=
  if nullish result then false
  else if has_status "success" result then
    (printable (prop result (lit "filename")) && printable (prop result (lit "chunks")))%bool
  else if has_status "duplicate" result then true
  else if has_status "error" result then
    (printable (prop result (lit "filename")) && printable (prop result (lit "message")))%bool
  else true.

(** The error with which the loop stops at a result it does not get
    past. *)
Definition stop_error (result : value) : JsError :=
  if nullish result then TypeError_null_property result (lit "status")
  else TypeError_not_primitive.

(** The results the loop gets past: it stops at a [null] element, whose
    [status] cannot be read, and at a result for which a toast text cannot
    be built. *)
Fixpoint visited (results : list value) : list value :=
  match results with
  | [] => []
  | r :: rest => if passes r then r :: visited rest else []
  end.

(** The result at which the loop stops, if there is one: the first it
    does not get past. *)
Fixpoint stopped (results : list value) : option value :=
  match results with
  | [] => None
  | r :: rest => if passes r then stopped rest else Some r
  end.

(** The toast one result of an upload gives rise to, if any, when the
    loop gets past it. *)
Definition result_toasts (result : value) : list (value * jsstring) :=
  if has_status "success" result then
    [(VStr (lit "Uploaded: " ++ Api.text (prop result (lit "filename"))
            ++ lit " (" ++ Api.text (prop result (lit "chunks")) ++ lit " chunks)"),
      lit "success")]
  else if has_status "error" result then
    [(VStr (lit "Error: " ++ Api.text (prop result (lit "filename"))
            ++ lit " - " ++ Api.text (prop result (lit "message"))),
      lit "error")]
  else [].

Definition count_status (status : string) (results : list value) : nat :=
  length (filter (has_status status) results).

(** The cells other than [documents] and [stats]. *)
Definition withData (docs statsData : value) (a : AppState) : AppState :=
  mkApp docs statsData (isUploading a) (isAsking a) (isDeleting a)
        (answer a) (sources a) (backendConnected a)
        (duplicateInfo a) (pendingFile a) (toasts a).

(** A computation that only ever adds to the log of requests. *)
Definition appends {A} (c : M Machine A) : Prop :=
  forall m, exists later,
    sent (world (snd (c m))) = sent (world m) ++ later
    /\ network (world (snd (c m))) = network (world m).

(** Two worlds that differ at most in the number of clock readings. *)
Definition same_network (w w' : World) : Prop :=
  network w' = network w /\ sent w' = sent w /\ clock w' = clock w.

End App.

(* ================================================================== *)
(** * DOM events *)
(* ================================================================== *)

Module Dom.

Record Event : Type := mkEvent {
  ev_type : jsstring;
  key : jsstring;
  shiftKey : bool;
  dataTransfer_files : list File;      (* e.dataTransfer.files *)
  target_files : list File;            (* e.target.files *)
  defaultPrevented : bool;
  propagationStopped : bool
}.

Definition preventDefault (e : Event) : Event :=
  mkEvent (ev_type e) (key e) (shiftKey e) (dataTransfer_files e) (target_files e)
          true (propagationStopped e).

Definition stopPropagation (e : Event) : Event :=
  mkEvent (ev_type e) (key e) (shiftKey e) (dataTransfer_files e) (target_files e)
          (defaultPrevented e) true.

(** A component keeps its own state [C] next to its parent's state [S];
    a callback prop runs on the parent's. *)
Definition in_parent {C S A} (m : M S A) : M (C * S) A :=
  fun cs =>
    match m (snd cs) with
    | (r, s') => (r, (fst cs, s'))
    end.

Definition in_self {C S} (f : C -> C) : M (C * S) unit :=
  modify (fun cs => (f (fst cs), snd cs)).

(** A callback that only records the argument of each call. *)
Definition recorder {A} (a : A) : M (list A) unit :=
  modify (fun calls => calls ++ [a]).

End Dom.

Export Dom.

(* ================================================================== *)
(** * components/DuplicateModal.jsx *)
(* ================================================================== *)

Module DuplicateModal.

(** A rendered [<button>]; [onClick] is the string its handler
    [() => onAction('...')] passes to [onAction]. *)
Record Button : Type := mkButton {
  className : jsstring;
  onClick : jsstring;
  disabled : bool;
  label : jsstring
}.

Record Modal : Type := mkModal {
  filename : value;
  existing_filename : option value;
  modal_actions : list Button;
  modal_loading : bool
}.

(** The render function; [None] is [return null]. *)
Definition DuplicateModal (duplicateInfo : value) (isLoading : bool) : option Modal :=
  if negb (truthy duplicateInfo) then None
  else
    Some (mkModal
            (prop duplicateInfo (lit "filename"))
            (if truthy (prop duplicateInfo (lit "existing_filename"))
             then Some (prop duplicateInfo (lit "existing_filename"))
             else None)
            [ mkButton (lit "btn btn-secondary") (lit "use_existing") isLoading
                       (lit "Use Existing");
              mkButton (lit "btn btn-warning") (lit "replace") isLoading
                       (lit "Replace");
              mkButton (lit "btn btn-danger") (lit "cancel") isLoading
                       (lit "Cancel") ]
            isLoading).

(** A click on a rendered button: a disabled button dispatches nothing;
    otherwise the handler calls [onAction], an [async] function whose
    promise React drops. *)
Definition click {S} (onAction : jsstring -> M S unit) (b : Button) : M S unit :=
  if disabled b then ret tt else detached (onAction (onClick b)).

End DuplicateModal.

(* ================================================================== *)
(** * components/PDFUpload.jsx *)
(* ================================================================== *)

Module PDFUpload.

(** The hidden [<input type="file">] behind [fileInputRef]. *)
Record InputElement : Type := mkInput { input_value : jsstring }.

Record State : Type := mkState {
  dragActive : bool;
  selectedFiles : list File;
  fileInputRef : option InputElement     (* fileInputRef.current *)
}.

Definition setDragActive (b : bool) (st : State) : State :=
  mkState b (selectedFiles st) (fileInputRef st).

(** [setSelectedFiles(f)], the functional form of the setter. *)
Definition setSelectedFiles (f : list File -> list File) (st : State) : State :=
  mkState (dragActive st) (f (selectedFiles st)) (fileInputRef st).

Definition handleDrag (e : Event) (st : State) : Event * State :=
  let e := stopPropagation (preventDefault e) in
  if (str_eqb (ev_type e) (lit "dragenter") || str_eqb (ev_type e) (lit "dragover"))%bool
  then (e, setDragActive true st)
  else if str_eqb (ev_type e) (lit "dragleave")
  then (e, setDragActive false st)
  else (e, st).

Definition is_pdf (file : File) : bool :=
  str_eqb (type file) (lit "application/pdf").

Definition handleDrop (e : Event) (st : State) : Event * State :=
  let e := stopPropagation (preventDefault e) in
  let st := setDragActive false st in
  let files := filter is_pdf (dataTransfer_files e) in
  if 0 <? length files
  then (e, setSelectedFiles (fun prev => prev ++ files) st)
  else (e, st).

Definition handleFileChange (e : Event) (st : State) : Event * State :=
  let files := target_files e in
  (e, setSelectedFiles (fun prev => prev ++ files) st).

(** [prev.filter((_, i) => i !== index)] *)
Fixpoint remove_at {A} (index : nat) (l : list A) : list A :=
  match l, index with
  | [], _ => []
  | _ :: rest, 0 => rest
  | x :: rest, S i => x :: remove_at i rest
  end.

Definition removeFile (index : nat) (st : State) : State :=
  setSelectedFiles (remove_at index) st.

Definition clearFiles (st : State) : State :=
  let st := setSelectedFiles (fun _ => []) st in
  match fileInputRef st with
  | Some _ => mkState (dragActive st) (selectedFiles st) (Some (mkInput []))
  | None => st
  end.

(** [onUpload] is the parent's [async] handler; it is awaited, so its
    rejection leaves [handleUpload] before [clearFiles]. *)
Definition handleUpload {S} (onUpload : list File -> M S unit) : M (State * S) unit :=
  selected <- gets (fun cs => selectedFiles (fst cs)) ;;
  if length selected =? 0 then ret tt
  else
    in_parent (onUpload selected) ;;;
    in_self clearFiles.

(** The user actions that can change the selection. *)
Inductive Action : Type :=
| Drag (e : Event)
| Drop (e : Event)
| Change (e : Event)
| Remove (index : nat)
| Clear.

Definition step (a : Action) (st : State) : State :=
  match a with
  | Drag e => snd (handleDrag e st)
  | Drop e => snd (handleDrop e st)
  | Change e => snd (handleFileChange e st)
  | Remove index => removeFile index st
  | Clear => clearFiles st
  end.

Definition all_pdf (st : State) : Prop :=
  Forall (fun file => type file = lit "application/pdf") (selectedFiles st).

End PDFUpload.

(* ================================================================== *)
(** * components/QuestionAnswer.jsx *)
(* ================================================================== *)

Module QuestionAnswer.

Record State : Type := mkState { question : jsstring }.

(** [question.trim() && !isLoading] *)
Definition may_ask (question : jsstring) (isLoading : bool) : bool :=
  (truthy (VStr (trim question)) && negb isLoading)%bool.

(** [onAsk] is the parent's [async] handler; it is not awaited. *)
Definition handleSubmit {S} (onAsk : jsstring -> M S unit) (isLoading : bool)
    (e : Event) : M (State * S) Event :=
  let e := preventDefault e in
  question <- gets (fun cs => question (fst cs)) ;;
  (if may_ask question isLoading
   then in_parent (detached (onAsk (trim question)))
   else ret tt) ;;;
  ret e.

Definition handleKeyDown {S} (onAsk : jsstring -> M S unit) (isLoading : bool)
    (e : Event) : M (State * S) Event :=
  if (str_eqb (key e) (lit "Enter") && negb (shiftKey e))%bool
  then handleSubmit onAsk isLoading (preventDefault e)
  else ret e.

(** The submit button's [disabled] attribute. *)
Definition ask_disabled (st : State) (isLoading : bool) : bool :=
  (negb (truthy (VStr (trim (question st)))) || isLoading)%bool.

(** [s.split('\n')]: the pieces between line feeds; there is always at
    least one. *)
Fixpoint split_lines (s : jsstring) : list jsstring :=
  match s with
  | [] => [[]]
  | c :: rest =>
      if N.eqb c 10 then [] :: split_lines rest
      else match split_lines rest with
           | line :: lines => (c :: line) :: lines
           | [] => [[c]]
           end
  end.

Definition TypeError_not_a_function (what : jsstring) : JsError :=
  mkError (lit "TypeError") (what ++ lit " is not a function").

(** The guard of the answer section: [answer && !isLoading]. *)
Definition answer_shown (answer : value) (isLoading : bool) : bool :=
  (truthy answer && negb isLoading)%bool.

(** The expression
    [answer.split('\n').map((paragraph, index) => paragraph.trim() && <p>...)]
    of that section: the [<p>] elements it yields, one per piece of the
    answer whose [trim()] is not empty, each showing the piece as it is.
    Only a string has [split]. *)
Definition answer_paragraphs (answer : value) : Outcome (list jsstring) :=
  match answer with
  | VStr s =>
      Returned (filter (fun paragraph => truthy (VStr (trim paragraph)))
                       (split_lines s))
  | VUndefined | VNull => Thrown (TypeError_null_property answer (lit "split"))
  | _ => Thrown (TypeError_not_a_function (lit "answer.split"))
  end.

End QuestionAnswer.

(* ================================================================== *)
(** * The ingestion core *)
(* ================================================================== *)

(** The server side (document registry, chunk store, vector index and the
    ingestion pipeline) is not among the JavaScript sources. *)

Module Core.

Section Pipeline.

(** Collaborators and configuration: the cryptographic digest of the raw
    bytes, the chunker of a page's text (window size and overlap are
    configuration) and the embedding model, which may fail. *)
Variable digest : Type.
Variable content_hash : list Byte.byte -> digest.
Variable digest_eqb : digest -> digest -> bool.
Variable vector : Type.
Variable chunk_page : string -> list string.
Variable embed : list string -> option (list vector).

(** Modelled from the spec: the Document record of the data model; the
    registry implementation is missing. *)
Record Document : Type := mkDocument {
  doc_id : nat;
  filename : string;
  content_hash_of : digest;
  upload_timestamp : Z;
  num_pages : nat;
  num_chunks : nat
}.

(** Modelled from the spec: the Chunk record of the data model; the
    chunk store implementation is missing. *)
Record Chunk : Type := mkChunk {
  chunk_id : nat;
  text : string;
  source_doc_id : nat;
  page_number : nat
}.

(** Modelled from the spec: the three stores owned by one context
    object; the implementation is missing. The registry lists documents
    in insertion order; ids are never reused. *)
Record Stores : Type := mkStores {
  chunk_store : list Chunk;
  vector_index : list (nat * vector);
  registry : list Document;
  next_chunk_id : nat;
  next_doc_id : nat
}.

(** Modelled from the spec: [DocumentRegistry.find_by_hash], missing
    from the sources. *)
Definition find_by_hash (h : digest) (reg : list Document) : option Document :=
  find (fun d => digest_eqb (content_hash_of d) h) reg.

(** Modelled from the spec: the per-file result of the ingestion
    pipeline, missing from the sources. *)
Inductive IngestResult : Type :=
| Success (name : string) (chunks pages : nat) (empty : bool)
| Duplicate (existing : Document)
| IngestionFailed.

(** Modelled from the spec: the chunks of the extracted pages, each
    with its page number; the pipeline is missing from the sources. *)
Definition chunk_pages (pages : list (nat * string)) : list (nat * string) :=
  flat_map (fun page => map (fun c => (fst page, c)) (chunk_page (snd page))) pages.

(** Modelled from the spec: the ingestion pipeline of section 4.4,
    missing from the sources. Step 1 is the duplicate short-circuit;
    an embedding failure aborts before any store is touched; otherwise
    chunks, vectors and the registry entry are committed together. *)
Definition ingest (st : Stores) (name : string) (bytes : list Byte.byte)
    (pages : list (nat * string)) (now : Z) : IngestResult * Stores :=
  let h := content_hash bytes in
  match find_by_hash h (registry st) with
  | Some existing => (Duplicate existing, st)
  | None =>
      let texts := chunk_pages pages in
      match embed (map snd texts) with
      | None => (IngestionFailed, st)
      | Some vectors =>
          let ids := seq (next_chunk_id st) (length texts) in
          let chunks :=
            map (fun it => mkChunk (fst it) (snd (snd it)) (next_doc_id st) (fst (snd it)))
                (combine ids texts) in
          let doc := mkDocument (next_doc_id st) name h now
                                (length pages) (length texts) in
          (Success name (length texts) (length pages) (length texts =? 0),
           mkStores (chunk_store st ++ chunks)
                    (vector_index st ++ combine ids vectors)
                    (registry st ++ [doc])
                    (next_chunk_id st + length texts)
                    (S (next_doc_id st)))
      end
  end.

End Pipeline.

End Core.

(* ================================================================== *)
(** * Concrete inputs *)
(* ================================================================== *)

Module Examples.

(** A world whose every request settles to [r], with a clock that counts
    its own readings. *)
Definition world_of (r : FetchResult) : World :=
  mkWorld (fun _ _ => r) [] (fun k => Z.of_nat k) 0.

(** The server is not running: [fetch] rejects. *)
Definition failed_to_fetch : JsError :=
  mkError (lit "TypeError") (lit "Failed to fetch").

Definition server_down : World := world_of (NetworkFailure failed_to_fetch).

(** A 200 response whose body is not JSON: [response.json()] rejects. *)
Definition not_json : JsError :=
  mkError (lit "SyntaxError") (lit "Unexpected token '<'").

Definition html_page : Response := mkResponse true (lit "OK") (Unparseable not_json).

Definition garbled : World := world_of (Responded html_page).

Definition replying (v : value) : World :=
  world_of (Responded (mkResponse true (lit "OK") (Parsed v))).

Definition a_pdf : File := mkFile (lit "a.pdf") (lit "application/pdf") [].
Definition b_pdf : File := mkFile (lit "b.pdf") (lit "application/pdf") [].
Definition notes_txt : File := mkFile (lit "notes.txt") (lit "text/plain") [].

(** A duplicate result, as the upload endpoint reports it for [filename]. *)
Definition duplicate_of (filename : jsstring) : value :=
  VObj [(lit "status", VStr (lit "duplicate"));
        (lit "filename", VStr filename);
        (lit "message", VStr (lit "Document already exists"))].

(** The application after the upload of [a.pdf] was answered with a
    duplicate result that names the file differently: the modal is shown,
    but no file matches the result. *)
Definition unmatched_duplicate : App.Machine :=
  snd (App.handleUpload [a_pdf]
         (App.mkMachine App.initial (replying (VArr [duplicate_of (lit "A.pdf")])))).


(** A resolution result of the given status. *)
Definition resolution (status : string) : value :=
  VObj [(lit "status", VStr (lit status)); (lit "message", VStr (lit "done"))].

(** The application holding a pending duplicate of [a.pdf], in a world
    whose every request settles to [r]. *)
Definition pending (r : FetchResult) : App.Machine :=
  App.mkMachine
    (App.storeDuplicate (duplicate_of (lit "a.pdf")) (App.FSome a_pdf) App.initial)
    (world_of r).

(** A batch in which [a.pdf] was ingested and [b.pdf] was rejected. *)
Definition ingested_a : value :=
  VObj [(lit "status", VStr (lit "success"));
        (lit "filename", VStr (lit "a.pdf"));
        (lit "chunks", VNum (Finite (lit "3")))].

Definition rejected_b : value :=
  VObj [(lit "status", VStr (lit "error"));
        (lit "filename", VStr (lit "b.pdf"));
        (lit "message", VStr (lit "No text"))].

Definition mixed_batch : list value := [ingested_a; rejected_b].

(** A ['success'] result whose [filename] is a JSON object with a
    property ['toString']: the template literal of its toast throws. *)
Definition boxed_name : value :=
  VObj [(lit "status", VStr (lit "success"));
        (lit "filename", VObj [(lit "toString", VStr (lit "a.pdf"))]);
        (lit "chunks", VNum (Finite (lit "3")))].

(** An idealised digest for the ingestion core: the bytes themselves. *)
Fixpoint bytes_eqb (a b : list Byte.byte) : bool :=
  match a, b with
  | [], [] => true
  | x :: a', y :: b' => Byte.eqb x y && bytes_eqb a' b'
  | _, _ => false
  end.

(** A chunker that keeps a page whole and an embedding model that always
    answers. *)
Definition whole_page (text : string) : list string := [text].

Definition unit_vectors (texts : list string) : option (list (list Z)) :=
  Some (map (fun _ => [1%Z]) texts).

Definition empty_stores : Core.Stores (list Byte.byte) (list Z) :=
  Core.mkStores [] [] [] 0 0.

Definition ingest_example :=
  Core.ingest (fun bytes => bytes) bytes_eqb whole_page unit_vectors.

Definition pdf_bytes : list Byte.byte := [Byte.x25; Byte.x50; Byte.x44; Byte.x46].

Definition one_page : list (nat * string) := [(1, "retrieval augmented generation"%string)].

(** The stores after [A.pdf] has been ingested. *)
Definition after_first_upload : Core.Stores (list Byte.byte) (list Z) :=
  snd (ingest_example empty_stores "A.pdf"%string pdf_bytes one_page 0%Z).

End Examples.

(* ================================================================== *)
(** * Facts about the JavaScript fragment *)
(* ================================================================== *)

Module JsFacts.

Lemma str_eqb_refl (s : jsstring) : str_eqb s s = true.
Proof.
  induction s as [|c s IH]; simpl; [reflexivity|].
  now rewrite N.eqb_refl, IH.
Qed.

Lemma str_eqb_eq (s t : jsstring) : str_eqb s t = true <-> s = t.
Proof.
  split.
  - revert t; induction s as [|c s IH]; intros [|d t] H; simpl in H;
      try discriminate; [reflexivity|].
    apply andb_true_iff in H as [Hc Hs].
    apply N.eqb_eq in Hc. apply IH in Hs. now subst.
  - intros ->. apply str_eqb_refl.
Qed.

Lemma is_str_eq (v : value) (s : jsstring) : is_str v s = true <-> v = VStr s.
Proof.
  destruct v; simpl; split; intros H; try discriminate.
  - apply str_eqb_eq in H. now subst.
  - injection H as ->. apply str_eqb_refl.
Qed.

Lemma trimStart_split (s : jsstring) :
  exists pre, s = pre ++ trimStart s /\ blank pre.
Proof.
  induction s as [|c s [pre [Hs Hpre]]]; simpl.
  - exists []. split; [reflexivity|constructor].
  - destruct (is_space c) eqn:Hc.
    + exists (c :: pre). split; [simpl; congruence|now constructor].
    + exists []. split; [reflexivity|constructor].
Qed.

Lemma trimStart_head (s : jsstring) c rest :
  trimStart s = c :: rest -> is_space c = false.
Proof.
  induction s as [|d s IH]; simpl; [discriminate|].
  destruct (is_space d) eqn:Hd; [exact IH|].
  intros H. injection H as <- _. exact Hd.
Qed.

Lemma trimStart_blank (s : jsstring) : blank s -> trimStart s = [].
Proof.
  induction 1 as [|c s Hc _ IH]; simpl; [reflexivity|].
  now rewrite Hc.
Qed.

Lemma trimStart_snoc (s : jsstring) c :
  is_space c = false -> trimStart (s ++ [c]) = trimStart s ++ [c].
Proof.
  intros Hc. induction s as [|d s IH]; simpl.
  - now rewrite Hc.
  - destruct (is_space d); [exact IH|reflexivity].
Qed.

Lemma trimEnd_cons (s : jsstring) c :
  is_space c = false -> trimEnd (c :: s) = c :: trimEnd s.
Proof.
  intros Hc. unfold trimEnd. simpl.
  rewrite trimStart_snoc by exact Hc.
  now rewrite rev_app_distr.
Qed.

Lemma trimEnd_split (s : jsstring) :
  exists post, s = trimEnd s ++ post /\ blank post.
Proof.
  destruct (trimStart_split (rev s)) as [pre [Hs Hpre]].
  exists (rev pre). split.
  - unfold trimEnd. rewrite <- rev_app_distr, <- Hs. symmetry. apply rev_involutive.
  - apply Forall_rev. exact Hpre.
Qed.

Lemma trimEnd_last (s : jsstring) init c :
  trimEnd s = init ++ [c] -> is_space c = false.
Proof.
  unfold trimEnd. intros H.
  apply (f_equal (@rev N)) in H.
  rewrite rev_involutive, rev_app_distr in H. simpl in H.
  eapply trimStart_head. exact H.
Qed.

(** [trim] removes a blank prefix and a blank suffix, and what is left
    neither starts nor ends with white space. *)
Lemma trim_split (s : jsstring) :
  exists pre post, s = pre ++ trim s ++ post /\ blank pre /\ blank post.
Proof.
  destruct (trimStart_split s) as [pre [Hs Hpre]].
  destruct (trimEnd_split (trimStart s)) as [post [Ht Hpost]].
  exists pre, post. unfold trim. rewrite <- Ht. auto.
Qed.

Lemma trim_first (s : jsstring) c rest :
  trim s = c :: rest -> is_space c = false.
Proof.
  unfold trim. destruct (trimStart s) as [|d t] eqn:Ht.
  - discriminate.
  - pose proof (trimStart_head _ Ht) as Hd.
    rewrite trimEnd_cons by exact Hd.
    intros H. injection H as <- _. exact Hd.
Qed.

Lemma trim_last (s : jsstring) init c :
  trim s = init ++ [c] -> is_space c = false.
Proof. apply trimEnd_last. Qed.

Lemma trim_blank (s : jsstring) : blank s -> trim s = [].
Proof.
  intros H. unfold trim. now rewrite (trimStart_blank H).
Qed.

Lemma trim_empty_blank (s : jsstring) : trim s = [] -> blank s.
Proof.
  intros H. destruct (trim_split s) as [pre [post [Hs [Hpre Hpost]]]].
  rewrite H in Hs. simpl in Hs. rewrite Hs.
  apply Forall_app. split; assumption.
Qed.

Lemma truthy_str (s : jsstring) : truthy (VStr s) = true <-> s <> [].
Proof.
  destruct s; simpl; split; intros H; try congruence; discriminate.
Qed.

(** The only error [ToString] throws on these values. *)
Lemma ToString_thrown (v : value) (e : JsError) :
  ToString v = Thrown e -> e = TypeError_not_primitive.
Proof.
  revert v e. fix IH 1. intros [| |[]|n|s|items|fields] e; simpl; try discriminate.
  - assert (Helements :
      forall e',
        (fix elements (l : list value) : Outcome (list jsstring) :=
           match l with
           | [] => Returned []
           | x :: rest =>
               match (if nullish x then Returned [] else ToString x) with
               | Thrown e => Thrown e
               | Returned piece =>
                   match elements rest with
                   | Thrown e => Thrown e
                   | Returned pieces => Returned (piece :: pieces)
                   end
               end
           end) items = Thrown e' ->
        e' = TypeError_not_primitive).
    { induction items as [|x rest IHrest]; intros e'; [discriminate|].
      destruct (nullish x).
      - match goal with
        | |- context [match ?inner with Thrown _ => _ | Returned _ => _ end] =>
            destruct inner as [ps|e''] eqn:Hinner
        end; [discriminate|].
        intros H. injection H as <-. exact (IHrest _ eq_refl).
      - destruct (ToString x) as [piece|e''] eqn:Hx.
        + match goal with
          | |- context [match ?inner with Thrown _ => _ | Returned _ => _ end] =>
              destruct inner as [ps|e3] eqn:Hinner
          end; [discriminate|].
          intros H. injection H as <-. exact (IHrest _ eq_refl).
        + intros H. injection H as <-. exact (IH x e'' Hx). }
    match goal with
    | |- match ?inner with Thrown _ => _ | Returned _ => _ end = _ -> _ =>
        destruct inner as [ps|e'] eqn:Hinner
    end; [discriminate|].
    intros H. injection H as <-. exact (Helements _ eq_refl).
  - destruct (has_own (lit "toString") fields); [|discriminate].
    intros H. now injection H as <-.
Qed.

End JsFacts.

(* ================================================================== *)
(** * services/api.js: one request per call *)
(* ================================================================== *)

Module ApiFacts.

Import Api.

(** What a call settles to, given what its single [fetch] settles to. *)
Lemma run_unfold (c : Call) (w : World) :
  stops_early c = None ->
  run c w =
  (match network w (length (sent w)) (request_of c) with
   | NetworkFailure e => Thrown e
   | Responded r =>
       if ok r
       then match json r with
            | Parsed v => Returned v
            | Unparseable e => Thrown e
            end
       else Thrown (Error (failure_prefix c ++ statusText r))
   end,
   log_request (request_of c) w).
Proof.
  destruct c; cbn -[lit List.app serialised]; intros Hearly;
    unfold uploadPDFs, handleDuplicate, askQuestion, getDocuments,
           deleteDocument, getStats, healthCheck, to_string, text, bind, fetch_get, fetch;
    try (destruct (ToString docId) as [id|e0]; [clear Hearly|discriminate Hearly]);
    cbn -[lit List.app serialised];
    match goal with
    | |- context [network w ?n ?req] => destruct (network w n req) as [r|e]
    end; try reflexivity;
    destruct r as [o st j]; destruct o; cbn -[lit List.app serialised];
    try reflexivity; destruct j; reflexivity.
Qed.

(** A call that stops early sends nothing. *)
Lemma run_stops_early (c : Call) (w : World) (e : JsError) :
  stops_early c = Some e -> run c w = (Thrown e, w).
Proof.
  destruct c; cbn; try discriminate.
  unfold deleteDocument, to_string, bind.
  destruct (ToString docId); [discriminate|].
  intros H. injection H as ->. reflexivity.
Qed.

(** The object that [askQuestion] serialises holds a string and a value
    that is not [undefined]; its two properties are written. *)
Lemma serialised_ask (question : jsstring) (topK : option value) :
  serialised (VObj [(lit "question", VStr question);
                    (lit "top_k", topK_or_default topK)])
  = VObj [(lit "question", VStr question);
          (lit "top_k", serialised (topK_or_default topK))].
Proof.
  assert (Hdefined : topK_or_default topK <> VUndefined).
  { destruct topK as [[]|]; discriminate. }
  assert (Hwritten : serialised (topK_or_default topK) <> VUndefined).
  { destruct (topK_or_default topK) as [| | |[]| | |]; try discriminate.
    now destruct Hdefined. }
  cbn -[lit topK_or_default].
  destruct (serialised (topK_or_default topK)) eqn:E; try reflexivity.
  now destruct Hwritten.
Qed.

(** C5, as amended: [askQuestion] sends one POST to [/ask] whose JSON
    body holds exactly the question given and a [top_k]. The [top_k] is 5
    when the second argument is absent, and also when it is [undefined];
    otherwise it is the value given as [JSON.stringify] writes it: the
    number given when that number is finite (and likewise a string, a
    boolean or [null]), but [null] when the number given is [NaN] or an
    infinity. *)
Theorem askQuestion_sends_top_k (question : jsstring) (topK : option value) (w : World) :
  exists top_k,
    sent (snd (askQuestion question topK w)) =
      sent w ++ [mkRequest (lit "http://localhost:8000/ask") (lit "POST")
                           [(lit "Content-Type", lit "application/json")]
                           (JsonBody (VObj [(lit "question", VStr question);
                                            (lit "top_k", top_k)]))]
    /\ (topK = None \/ topK = Some VUndefined -> top_k = VNum (Finite (lit "5")))
    /\ (forall given, topK = Some given -> given <> VUndefined ->
        top_k = serialised given)
    /\ (forall decimal, topK = Some (VNum (Finite decimal)) ->
        top_k = VNum (Finite decimal))
    /\ (forall s, topK = Some (VStr s) -> top_k = VStr s)
    /\ (forall b, topK = Some (VBool b) -> top_k = VBool b)
    /\ (topK = Some VNull -> top_k = VNull)
    /\ (topK = Some (VNum NaN) \/ (exists negative, topK = Some (VNum (Infinity negative))) ->
        top_k = VNull).
Proof.
  exists (serialised (topK_or_default topK)).
  refine (conj _ (conj _ (conj _ (conj _ (conj _ (conj _ (conj _ _))))))).
  - change (askQuestion question topK) with (run (AskQuestion question topK)).
    rewrite run_unfold by reflexivity. cbn [snd log_request sent request_of].
    rewrite serialised_ask. reflexivity.
  - intros [->| ->]; reflexivity.
  - intros given -> Hgiven. destruct given; try reflexivity. now destruct Hgiven.
  - intros decimal ->. reflexivity.
  - intros s ->. reflexivity.
  - intros b ->. reflexivity.
  - intros ->. reflexivity.
  - intros [->|[negative ->]]; reflexivity.
Qed.

(** The default, and a number that JSON cannot write. *)
Lemma askQuestion_sends_top_k_witness :
  sent (snd (askQuestion (lit "why?") None Examples.server_down)) =
    [mkRequest (lit "http://localhost:8000/ask") (lit "POST")
               [(lit "Content-Type", lit "application/json")]
               (JsonBody (VObj [(lit "question", VStr (lit "why?"));
                                (lit "top_k", VNum (Finite (lit "5")))]))]
  /\ sent (snd (askQuestion (lit "why?") (Some (VNum NaN)) Examples.server_down)) =
       [mkRequest (lit "http://localhost:8000/ask") (lit "POST")
                  [(lit "Content-Type", lit "application/json")]
                  (JsonBody (VObj [(lit "question", VStr (lit "why?"));
                                   (lit "top_k", VNull)]))].
Proof.
  split.
  - destruct (askQuestion_sends_top_k (lit "why?") None Examples.server_down)
      as [top_k [Hsent [Hdefault _]]].
    rewrite Hsent, Hdefault by now left. reflexivity.
  - destruct (askQuestion_sends_top_k (lit "why?") (Some (VNum NaN)) Examples.server_down)
      as [top_k [Hsent [_ [_ [_ [_ [_ [_ Hnull]]]]]]]].
    rewrite Hsent, Hnull by now left. reflexivity.
Defined.

(** C5, as stated, fails: an explicit [topK] need not arrive as given.
    [askQuestion(question, NaN)] sends [top_k: null]. *)
Lemma askQuestion_explicit_topK_can_change :
  ~ (forall (question : jsstring) (n : number) (w : World),
        sent (snd (askQuestion question (Some (VNum n)) w)) =
          sent w ++ [mkRequest (lit "http://localhost:8000/ask") (lit "POST")
                               [(lit "Content-Type", lit "application/json")]
                               (JsonBody (VObj [(lit "question", VStr question);
                                                (lit "top_k", VNum n)]))]).
Proof.
  intros H.
  specialize (H (lit "why?") NaN Examples.server_down).
  discriminate H.
Qed.

(** C6, as amended: each of the seven functions of the service module
    issues at most one request per invocation and nothing else (no
    retry). [deleteDocument] throws before it issues any when its [docId]
    has no text to put into the URL; every other invocation issues exactly
    one. When [fetch] rejects, the rejection is what the function throws;
    when a response arrives that is not ok, it throws an [Error] whose
    message is the function's prefix followed by the status text; when the
    response is ok, it settles as [response.json()] does: the parsed body,
    or the parse error of a body that is not JSON. *)
Theorem api_call_settles_after_one_request (c : Call) (w : World) :
  (forall e, stops_early c = Some e <->
             exists docId, c = DeleteDocument docId /\ ToString docId = Thrown e)
  /\ (forall docId id,
        c = DeleteDocument docId -> ToString docId = Returned id ->
        request_of c = mkRequest (lit "http://localhost:8000/documents/" ++ id)
                                 (lit "DELETE") [] NoBody)
  /\ match stops_early c with
     | Some e => run c w = (Thrown e, w)
     | None =>
         snd (run c w) = log_request (request_of c) w
         /\ sent (snd (run c w)) = sent w ++ [request_of c]
         /\ fst (run c w) =
              match network w (length (sent w)) (request_of c) with
              | NetworkFailure e => Thrown e
              | Responded r =>
                  if ok r
                  then match json r with
                       | Parsed v => Returned v
                       | Unparseable e => Thrown e
                       end
                  else Thrown (Error (failure_prefix c ++ statusText r))
              end
     end.
Proof.
  refine (conj _ (conj _ _)).
  - intros e. split.
    + destruct c; try discriminate. cbn.
      destruct (ToString docId) as [id|e'] eqn:Hid; [discriminate|].
      intros H. injection H as ->. now exists docId.
    + intros [docId [-> Hid]]. cbn. now rewrite Hid.
  - intros docId id -> Hid. unfold request_of, text. now rewrite Hid.
  - destruct (stops_early c) as [e|] eqn:Hearly.
    + now apply run_stops_early.
    + rewrite run_unfold by exact Hearly. repeat split; reflexivity.
Qed.

(** C6, as stated, fails: a call can throw although the response it got
    is ok. Here the health check receives a 200 response whose body is
    not JSON. *)
Lemma throws_iff_not_ok_fails :
  ~ (forall (c : Call) (w : World) (r : Response),
        network w (length (sent w)) (request_of c) = Responded r ->
        ((exists e, fst (run c w) = Thrown e) <-> ok r = false)).
Proof.
  intros H.
  specialize (H HealthCheck Examples.garbled Examples.html_page eq_refl).
  destruct H as [H _].
  assert (Hthrown : exists e, fst (run HealthCheck Examples.garbled) = Thrown e)
    by (exists Examples.not_json; reflexivity).
  specialize (H Hthrown). discriminate H.
Qed.

End ApiFacts.

(* ================================================================== *)
(** * QuestionAnswer: what reaches [onAsk] *)
(* ================================================================== *)

Module QuestionAnswerFacts.

Import QuestionAnswer JsFacts.

Lemma may_ask_iff (q : jsstring) (isLoading : bool) :
  may_ask q isLoading = true <-> trim q <> [] /\ isLoading = false.
Proof.
  unfold may_ask. rewrite andb_true_iff, truthy_str, negb_true_iff. reflexivity.
Qed.

Lemma handleSubmit_run S (onAsk : jsstring -> M S unit) isLoading e st (s : S) :
  handleSubmit onAsk isLoading e (st, s) =
  (Returned (preventDefault e),
   (st, if may_ask (question st) isLoading
        then snd (onAsk (trim (question st)) s)
        else s)).
Proof.
  unfold handleSubmit, bind, gets, in_parent, detached, ret. simpl.
  destruct (may_ask (question st) isLoading); simpl; [|reflexivity].
  destruct (onAsk (trim (question st)) s). reflexivity.
Qed.

(** C8: a submit (by the form or by the Enter key) calls [onAsk] exactly
    when the trimmed question is not empty and no ask is in flight, and
    then once, with the trimmed question: the question without its blank
    prefix and suffix, which neither starts nor ends with white space.
    With an empty or blank question, or while loading, nothing is called. *)
Theorem handleSubmit_asks_trimmed_question
    (S : Type) (onAsk : jsstring -> M S unit) (isLoading : bool) (e : Event)
    (st : State) (s : S) :
  let q := question st in
  handleSubmit onAsk isLoading e (st, s) =
    (Returned (preventDefault e),
     (st, if may_ask q isLoading then snd (onAsk (trim q) s) else s))
  /\ snd (handleKeyDown onAsk isLoading e (st, s)) =
       (st, if (str_eqb (key e) (lit "Enter") && negb (shiftKey e)
                && may_ask q isLoading)%bool
            then snd (onAsk (trim q) s) else s)
  /\ (may_ask q isLoading = true <-> trim q <> [] /\ isLoading = false)
  /\ (exists pre post, q = pre ++ trim q ++ post /\ blank pre /\ blank post)
  /\ (forall c rest, trim q = c :: rest -> is_space c = false)
  /\ (forall init c, trim q = init ++ [c] -> is_space c = false)
  /\ (q = [] \/ blank q -> may_ask q isLoading = false).
Proof.
  intros q.
  refine (conj _ (conj _ (conj _ (conj _ (conj _ (conj _ _)))))).
  - apply handleSubmit_run.
  - unfold handleKeyDown.
    destruct (str_eqb (key e) (lit "Enter") && negb (shiftKey e))%bool; simpl.
    + rewrite handleSubmit_run. reflexivity.
    + reflexivity.
  - apply may_ask_iff.
  - apply trim_split.
  - apply trim_first.
  - apply trim_last.
  - intros Hq. unfold may_ask.
    assert (Hblank : blank q) by (destruct Hq as [->|Hq]; [constructor|exact Hq]).
    now rewrite (trim_blank Hblank).
Qed.

(** A padded question is asked trimmed; a blank one is not asked. *)
Lemma handleSubmit_asks_trimmed_question_witness :
  snd (snd (handleSubmit (@recorder jsstring) false
              (mkEvent (lit "submit") [] false [] [] false false)
              (mkState (lit "  what is RAG? "), [])))
    = [lit "what is RAG?"]
  /\ may_ask (lit "   ") false = false.
Proof.
  split.
  - rewrite (proj1 (handleSubmit_asks_trimmed_question (@recorder jsstring) false
                      (mkEvent (lit "submit") [] false [] [] false false)
                      (mkState (lit "  what is RAG? ")) [])).
    reflexivity.
  - apply (proj2 (proj2 (proj2 (proj2 (proj2 (proj2
             (handleSubmit_asks_trimmed_question (@recorder jsstring) false
                (mkEvent (lit "submit") [] false [] [] false false)
                (mkState (lit "   ")) []))))))).
    right. repeat constructor.
Defined.

End QuestionAnswerFacts.

(* ================================================================== *)
(** * PDFUpload: the selection *)
(* ================================================================== *)

Module PDFUploadFacts.

Import PDFUpload JsFacts.

Lemma is_pdf_iff (file : File) :
  is_pdf file = true <-> type file = lit "application/pdf".
Proof. apply str_eqb_eq. Qed.

Lemma handleDrop_selection (e : Event) (st : State) :
  selectedFiles (snd (handleDrop e st)) =
  selectedFiles st ++ filter is_pdf (dataTransfer_files e).
Proof.
  unfold handleDrop. simpl.
  destruct (filter is_pdf (dataTransfer_files e)) as [|f fs]; simpl.
  - now rewrite app_nil_r.
  - reflexivity.
Qed.

Lemma remove_at_incl {A} (index : nat) (l : list A) : incl (remove_at index l) l.
Proof.
  revert index; induction l as [|x l IH]; intros [|i]; simpl.
  - apply incl_refl.
  - apply incl_refl.
  - apply incl_tl, incl_refl.
  - intros y [<-|Hy]; [now left|right; now apply (IH i)].
Qed.

(** Every action but a change of the file input keeps an all-PDF
    selection all-PDF. *)
Lemma step_keeps_all_pdf (a : Action) (st : State) :
  (forall e, a <> Change e) -> all_pdf st -> all_pdf (step a st).
Proof.
  unfold all_pdf. intros Ha Hst. destruct a as [e|e|e|i|]; simpl.
  - unfold handleDrag. simpl.
    repeat match goal with |- context [if ?b then _ else _] => destruct b end;
      exact Hst.
  - rewrite handleDrop_selection. apply Forall_app. split; [exact Hst|].
    apply Forall_forall. intros f Hf. apply filter_In in Hf as [_ Hf].
    now apply is_pdf_iff.
  - now destruct (Ha e).
  - apply Forall_forall. intros f Hf.
    apply (remove_at_incl i) in Hf.
    revert f Hf. now apply Forall_forall.
  - unfold clearFiles. simpl. destruct (fileInputRef st); constructor.
Qed.

(** C9: a drop appends to the selection exactly the dropped files whose
    type is ['application/pdf'], in their order; a change of the file
    input appends all the chosen files, whatever their type. So a
    selection of PDFs can stop being one only through the file input,
    and it does so as soon as a chosen file is not a PDF. *)
Theorem drop_filters_by_type_dialog_does_not (e : Event) (st : State) :
  selectedFiles (snd (handleDrop e st)) =
    selectedFiles st ++ filter is_pdf (dataTransfer_files e)
  /\ (forall file, In file (filter is_pdf (dataTransfer_files e)) <->
                   In file (dataTransfer_files e) /\ type file = lit "application/pdf")
  /\ selectedFiles (snd (handleFileChange e st)) = selectedFiles st ++ target_files e
  /\ (forall a, all_pdf st -> ~ all_pdf (step a st) -> exists e', a = Change e')
  /\ (forall file, In file (target_files e) -> type file <> lit "application/pdf" ->
                   ~ all_pdf (step (Change e) st)).
Proof.
  refine (conj _ (conj _ (conj _ (conj _ _)))).
  - apply handleDrop_selection.
  - intros file. rewrite filter_In, is_pdf_iff. reflexivity.
  - reflexivity.
  - intros a Hst Hafter.
    destruct a as [e'|e'|e'|i|]; try (now exists e');
      exfalso; apply Hafter; apply step_keeps_all_pdf;
      try exact Hst; intros e'' He''; discriminate He''.
  - intros file Hin Htype Hall. unfold all_pdf in Hall. simpl in Hall.
    apply Forall_app in Hall as [_ Hall].
    rewrite Forall_forall in Hall. now apply Htype, Hall.
Qed.

(** Dropping a PDF and a text file selects the PDF only; choosing the
    same two files in the dialog selects both. *)
Lemma drop_filters_by_type_dialog_does_not_witness :
  selectedFiles (snd (handleDrop
      (mkEvent (lit "drop") [] false [Examples.a_pdf; Examples.notes_txt] [] false false)
      (mkState true [Examples.b_pdf] None)))
    = [Examples.b_pdf; Examples.a_pdf]
  /\ ~ all_pdf (step (Change
      (mkEvent (lit "change") [] false [] [Examples.a_pdf; Examples.notes_txt] false false))
      (mkState false [Examples.b_pdf] None)).
Proof.
  split.
  - rewrite (proj1 (drop_filters_by_type_dialog_does_not
                      (mkEvent (lit "drop") [] false
                               [Examples.a_pdf; Examples.notes_txt] [] false false)
                      (mkState true [Examples.b_pdf] None))).
    reflexivity.
  - apply (proj2 (proj2 (proj2 (proj2 (drop_filters_by_type_dialog_does_not
                      (mkEvent (lit "change") [] false []
                               [Examples.a_pdf; Examples.notes_txt] false false)
                      (mkState false [Examples.b_pdf] None))))) Examples.notes_txt).
    + right. left. reflexivity.
    + discriminate.
Defined.

Lemma handleUpload_run S (onUpload : list File -> M S unit) st (s : S) :
  handleUpload onUpload (st, s) =
  match selectedFiles st with
  | [] => (Returned tt, (st, s))
  | _ :: _ =>
      match onUpload (selectedFiles st) s with
      | (Returned _, s') => (Returned tt, (clearFiles st, s'))
      | (Thrown e, s') => (Thrown e, (st, s'))
      end
  end.
Proof.
  unfold handleUpload, bind, gets, in_parent, in_self, modify, ret. simpl.
  destruct (selectedFiles st) as [|f fs]; simpl; [reflexivity|].
  destruct (onUpload (f :: fs) s) as [[[]|err] s']; reflexivity.
Qed.

(** C10: with an empty selection the upload action does nothing and does
    not call [onUpload]; otherwise it calls [onUpload] once, on the
    selection, and when that call resolves the selection is the empty list
    and the file input behind the ref, if attached, has the empty string
    as its value. *)
Theorem handleUpload_clears_selection
    (S : Type) (onUpload : list File -> M S unit) (st : State) (s : S) :
  (selectedFiles st = [] -> handleUpload onUpload (st, s) = (Returned tt, (st, s)))
  /\ (selectedFiles st <> [] ->
      forall s', onUpload (selectedFiles st) s = (Returned tt, s') ->
      exists st',
        handleUpload onUpload (st, s) = (Returned tt, (st', s'))
        /\ selectedFiles st' = []
        /\ (forall input, fileInputRef st = Some input ->
                          fileInputRef st' = Some (mkInput []))
        /\ (fileInputRef st = None -> fileInputRef st' = None)
        /\ dragActive st' = dragActive st).
Proof.
  split.
  - intros Hsel. rewrite handleUpload_run, Hsel. reflexivity.
  - intros Hsel s' Hcall. exists (clearFiles st).
    rewrite handleUpload_run, Hcall.
    destruct (selectedFiles st) as [|f fs]; [now destruct Hsel|].
    unfold clearFiles. simpl.
    destruct (fileInputRef st) as [input|] eqn:Href; simpl; rewrite ?Href;
      repeat split; intros; try discriminate; reflexivity.
Qed.

(** Uploading one selected file calls [onUpload] once and clears the
    selection and the input; uploading nothing calls nothing. *)
Lemma handleUpload_clears_selection_witness :
  handleUpload (@recorder (list File))
               (mkState false [Examples.a_pdf] (Some (mkInput (lit "C:\fakepath\a.pdf"))), [])
    = (Returned tt, (mkState false [] (Some (mkInput [])), [[Examples.a_pdf]]))
  /\ handleUpload (@recorder (list File)) (mkState false [] None, [])
    = (Returned tt, (mkState false [] None, [])).
Proof.
  split.
  - pose proof (proj2 (handleUpload_clears_selection (@recorder (list File))
                          (mkState false [Examples.a_pdf]
                                   (Some (mkInput (lit "C:\fakepath\a.pdf")))) []))
      as H.
    simpl in H.
    destruct (H ltac:(discriminate) [[Examples.a_pdf]] eq_refl)
      as [st' [Hrun [Hsel [Hinput [_ Hdrag]]]]].
    rewrite Hrun. destruct st' as [d sel ref]. simpl in *.
    rewrite Hsel, (Hinput _ eq_refl), Hdrag. reflexivity.
  - apply (proj1 (handleUpload_clears_selection (@recorder (list File))
                    (mkState false [] None) [])).
    reflexivity.
Defined.

End PDFUploadFacts.

(* ================================================================== *)
(** * DuplicateModal: the three actions *)
(* ================================================================== *)

Module DuplicateModalFacts.

Import DuplicateModal.

Lemma modal_buttons (duplicateInfo : value) (isLoading : bool) (modal : Modal) :
  DuplicateModal duplicateInfo isLoading = Some modal ->
  map onClick (modal_actions modal) = [lit "use_existing"; lit "replace"; lit "cancel"].
Proof.
  unfold DuplicateModal. destruct (truthy duplicateInfo); simpl; [|discriminate].
  intros H. injection H as <-. reflexivity.
Qed.

(** C2: a rendered modal has exactly three buttons, whose handlers pass
    ['use_existing'], ['replace'] and ['cancel'], in this order; a click
    either does nothing (the button is disabled) or calls [onAction] once
    with the string of the button clicked, one of these three; and
    [handleDuplicate] sends one request whose form carries the file and,
    under ['action'], the action string it was given, unchanged. *)
Theorem duplicate_actions_are_three
    (duplicateInfo : value) (isLoading : bool) (modal : Modal) :
  DuplicateModal duplicateInfo isLoading = Some modal ->
  map onClick (modal_actions modal) = [lit "use_existing"; lit "replace"; lit "cancel"]
  /\ (forall (S : Type) (onAction : jsstring -> M S unit) (b : Button) (s : S),
        In b (modal_actions modal) ->
        In (onClick b) [lit "use_existing"; lit "replace"; lit "cancel"]
        /\ click onAction b s =
             (Returned tt, if disabled b then s else snd (onAction (onClick b) s)))
  /\ (forall (file : File) (action : jsstring) (w : World),
        exists entries,
          sent (snd (Api.handleDuplicate file action w)) =
            sent w ++ [mkRequest (lit "http://localhost:8000/handle-duplicate")
                                 (lit "POST") [] (FormBody entries)]
          /\ entries = [(lit "file", FormFile file); (lit "action", FormString action)]
          /\ form_get (lit "action") entries = Some (FormString action)).
Proof.
  intros Hmodal. split; [exact (modal_buttons _ _ Hmodal)|split].
  - intros S onAction b s Hb. split.
    + rewrite <- (modal_buttons _ _ Hmodal). now apply in_map.
    + unfold click, detached, ret. destruct (disabled b); [reflexivity|].
      destruct (onAction (onClick b) s). reflexivity.
  - intros file action w. eexists. split; [|split; reflexivity].
    change (Api.handleDuplicate file action) with (Api.run (Api.HandleDuplicate file action)).
    rewrite ApiFacts.run_unfold by reflexivity. reflexivity.
Qed.

(** The modal shown for a duplicate of [a.pdf]: its third button passes
    ['cancel'] to [onAction]. *)
Lemma duplicate_actions_are_three_witness :
  exists modal,
    DuplicateModal (VObj [(lit "status", VStr (lit "duplicate"));
                          (lit "filename", VStr (lit "a.pdf"))]) false = Some modal
    /\ map onClick (modal_actions modal) = [lit "use_existing"; lit "replace"; lit "cancel"].
Proof.
  eexists. split.
  - reflexivity.
  - exact (proj1 (duplicate_actions_are_three
                    (VObj [(lit "status", VStr (lit "duplicate"));
                           (lit "filename", VStr (lit "a.pdf"))]) false eq_refl)).
Defined.

End DuplicateModalFacts.

(* ================================================================== *)
(** * App: uploads and the pending duplicate *)
(* ================================================================== *)

Module AppFacts.

Import App JsFacts.

Lemma addToast_run (message : value) (type : jsstring) (m : Machine) :
  addToast message type m = (Returned tt, toasted message type m).
Proof. reflexivity. Qed.

Lemma slot_toasted message type m : slot (toasted message type m) = slot m.
Proof. reflexivity. Qed.

(** [refreshData] never throws and writes [documents] and [stats] only. *)
Lemma refreshData_frame (m : Machine) :
  exists m',
    refreshData m = (Returned tt, m')
    /\ slot m' = slot m
    /\ isUploading (app m') = isUploading (app m)
    /\ toasts (app m') = toasts (app m)
    /\ exists later, sent (world m') = sent (world m) ++ later.
Proof.
  unfold refreshData, bind, attempt, in_world.
  destruct (Api.getDocuments (world m)) as [docs w1] eqn:H1.
  pose proof (ApiFacts.run_unfold Api.GetDocuments (world m) eq_refl) as E1.
  simpl Api.run in E1. rewrite H1 in E1.
  cbn [app world].
  destruct (Api.getStats w1) as [statsData w2] eqn:H2.
  pose proof (ApiFacts.run_unfold Api.GetStats w1 eq_refl) as E2.
  simpl Api.run in E2. rewrite H2 in E2.
  assert (Hsent : exists later, sent w2 = sent (world m) ++ later).
  { injection E1 as _ ->. injection E2 as _ ->.
    eexists. unfold log_request. cbn [sent]. rewrite <- app_assoc. reflexivity. }
  destruct docs as [docs|e1], statsData as [statsData|e2]; cbn;
    eexists; (split; [reflexivity|]); cbn; auto.
Qed.

Lemma is_str_false (v : value) (s : jsstring) : v <> VStr s -> is_str v s = false.
Proof.
  intros H. destruct (is_str v s) eqn:E; [|reflexivity].
  apply is_str_eq in E. contradiction.
Qed.

Lemma passes_not_nullish (result : value) : passes result = true -> nullish result = false.
Proof. unfold passes. now destruct (nullish result). Qed.

(** What one pass of the loop does, for a result it gets past. *)
Lemma handleUpload_result_run files result successCount duplicateCount m :
  passes result = true ->
  handleUpload_result files result (successCount, duplicateCount) m =
  if has_status "success" result then
    (Returned (S successCount, duplicateCount),
     toasted (VStr (lit "Uploaded: " ++ Api.text (prop result (lit "filename"))
                    ++ lit " (" ++ Api.text (prop result (lit "chunks"))
                    ++ lit " chunks)"))
             (lit "success") m)
  else if has_status "duplicate" result then
    (Returned (successCount, S duplicateCount),
     mkMachine (storeDuplicate result (find_file files (prop result (lit "filename")))
                               (app m))
               (world m))
  else if has_status "error" result then
    (Returned (successCount, duplicateCount),
     toasted (VStr (lit "Error: " ++ Api.text (prop result (lit "filename"))
                    ++ lit " - " ++ Api.text (prop result (lit "message"))))
             (lit "error") m)
  else (Returned (successCount, duplicateCount), m).
Proof.
  intros Hpass. pose proof (passes_not_nullish _ Hpass) as Hnull.
  unfold passes in Hpass. rewrite Hnull in Hpass.
  unfold handleUpload_result, get_prop, bind. rewrite Hnull.
  cbv beta iota zeta delta [ret].
  change (is_str (prop result (lit "status")) (lit "success"))
    with (has_status "success" result).
  change (is_str (prop result (lit "status")) (lit "duplicate"))
    with (has_status "duplicate" result).
  change (is_str (prop result (lit "status")) (lit "error"))
    with (has_status "error" result).
  unfold to_string, Api.text, printable in *.
  destruct (has_status "success" result).
  { destruct (ToString (prop result (lit "filename"))); [|discriminate].
    destruct (ToString (prop result (lit "chunks"))); [|discriminate].
    reflexivity. }
  destruct (has_status "duplicate" result); [reflexivity|].
  destruct (has_status "error" result); [|reflexivity].
  destruct (ToString (prop result (lit "filename"))); [|discriminate].
  destruct (ToString (prop result (lit "message"))); [|discriminate].
  reflexivity.
Qed.

(** What one pass of the loop does, for a result it does not get past:
    it throws, and the state is as it was. *)
Lemma handleUpload_result_stop files result counts m :
  passes result = false ->
  handleUpload_result files result counts m = (Thrown (stop_error result), m).
Proof.
  intros Hpass. destruct counts as [successCount duplicateCount].
  unfold passes in Hpass. unfold stop_error.
  unfold handleUpload_result, get_prop, bind.
  destruct (nullish result); [reflexivity|].
  cbv beta iota zeta delta [ret].
  change (is_str (prop result (lit "status")) (lit "success"))
    with (has_status "success" result).
  change (is_str (prop result (lit "status")) (lit "duplicate"))
    with (has_status "duplicate" result).
  change (is_str (prop result (lit "status")) (lit "error"))
    with (has_status "error" result).
  unfold to_string, printable in *.
  destruct (has_status "success" result).
  { destruct (ToString (prop result (lit "filename"))) as [filename|e] eqn:Hfilename.
    - destruct (ToString (prop result (lit "chunks"))) as [chunks|e] eqn:Hchunks;
        [discriminate|].
      now rewrite (ToString_thrown _ Hchunks).
    - now rewrite (ToString_thrown _ Hfilename). }
  destruct (has_status "duplicate" result); [discriminate|].
  destruct (has_status "error" result); [|discriminate].
  destruct (ToString (prop result (lit "filename"))) as [filename|e] eqn:Hfilename.
  - destruct (ToString (prop result (lit "message"))) as [message|e] eqn:Hmessage;
      [discriminate|].
    now rewrite (ToString_thrown _ Hmessage).
  - now rewrite (ToString_thrown _ Hfilename).
Qed.

Lemma handleUpload_result_slot files result counts m :
  passes result = true ->
  exists counts' m',
    handleUpload_result files result counts m = (Returned counts', m')
    /\ slot m' = (if is_duplicate result
                  then (result, find_file files (prop result (lit "filename")))
                  else slot m).
Proof.
  intros Hpass. destruct counts as [sc dc].
  rewrite handleUpload_result_run by exact Hpass. unfold is_duplicate.
  change (is_str (prop result (lit "status")) (lit "duplicate"))
    with (has_status "duplicate" result).
  destruct (has_status "success" result) eqn:Hs.
  - unfold has_status in *. apply is_str_eq in Hs. rewrite Hs. simpl. eauto.
  - destruct (has_status "duplicate" result).
    + eauto.
    + destruct (has_status "error" result); eauto.
Qed.

(** The loop invariant: after the loop, the slot holds the last duplicate
    visited, or what it held before when none was. *)
Lemma for_of_slot files items counts m :
  exists outcome m',
    for_of (handleUpload_result files) items counts m = (outcome, m')
    /\ slot m' = match last_duplicate (visited items) with
                 | Some d => (d, find_file files (prop d (lit "filename")))
                 | None => slot m
                 end.
Proof.
  revert counts m. induction items as [|r rest IH]; intros counts m.
  - do 2 eexists. split; reflexivity.
  - simpl. destruct (passes r) eqn:Hpass.
    + destruct (handleUpload_result_slot files r counts m Hpass)
        as [counts' [m1 [Hrun Hslot]]].
      unfold bind. rewrite Hrun.
      destruct (IH counts' m1) as [outcome [m' [Hrest Hslot']]].
      exists outcome, m'. split; [exact Hrest|].
      rewrite Hslot'. simpl.
      destruct (last_duplicate (visited rest)); [reflexivity|].
      rewrite Hslot. destruct (is_duplicate r); reflexivity.
    + unfold bind. rewrite handleUpload_result_stop by exact Hpass.
      do 2 eexists. split; reflexivity.
Qed.

Lemma handleUpload_slot files items statusText m :
  network (world m) (length (sent (world m))) (Api.request_of (Api.UploadPDFs files))
    = Responded (mkResponse true statusText (Parsed (VArr items))) ->
  slot (snd (handleUpload files m)) =
    match last_duplicate (visited items) with
    | Some d => (d, find_file files (prop d (lit "filename")))
    | None => slot m
    end.
Proof.
  intros Hnet.
  unfold handleUpload.
  unfold bind at 1. unfold setIsUploading at 1. unfold update, modify.
  unfold try_finally, try_catch.
  unfold bind at 1. unfold in_world at 1. cbn [app world].
  change (Api.uploadPDFs files) with (Api.run (Api.UploadPDFs files)).
  rewrite ApiFacts.run_unfold by reflexivity. rewrite Hnet. cbn [ok json].
  unfold bind at 1. cbn [iterate ret].
  unfold bind at 1.
  match goal with
  | |- context [for_of _ items ?c ?m0] =>
      destruct (for_of_slot files items c m0) as [outcome [m1 [Hloop Hslot]]];
      rewrite Hloop
  end.
  unfold slot at 2 in Hslot. cbn [app duplicateInfo pendingFile] in Hslot.
  fold (slot m) in Hslot. rewrite <- Hslot.
  destruct outcome as [[sc dc]|e].
  - unfold bind at 1.
    assert (Hrefresh : exists m2,
               (if 0 <? sc then refreshData else ret tt) m1 = (Returned tt, m2)
               /\ slot m2 = slot m1).
    { destruct (0 <? sc).
      - destruct (refreshData_frame m1) as [m2 [H1 [H2 _]]]. eauto.
      - unfold ret. eauto. }
    destruct Hrefresh as [m2 [Hrefresh Hslot2]]. rewrite Hrefresh.
    rewrite <- Hslot2.
    destruct (dc =? 0); reflexivity.
  - reflexivity.
Qed.

(** [files.find(f => f.name === filename)], by what it returns: the
    first file of that name, or [undefined] when no file has it. *)
Lemma find_file_spec (files : list File) (filename : value) :
  match find_file files filename with
  | FSome f =>
      exists earlier later,
        files = earlier ++ f :: later
        /\ filename = VStr (name f)
        /\ Forall (fun g => filename <> VStr (name g)) earlier
  | FUndefined => Forall (fun g => filename <> VStr (name g)) files
  | FNull => False
  end.
Proof.
  unfold find_file. induction files as [|g rest IH]; simpl.
  - constructor.
  - destruct (is_str filename (name g)) eqn:Hg.
    + apply is_str_eq in Hg. exists [], rest. repeat split; [exact Hg|constructor].
    + assert (Hne : filename <> VStr (name g)).
      { intros Heq. apply is_str_eq in Heq. congruence. }
      destruct (find (fun f => is_str filename (name f)) rest) as [f|].
      * destruct IH as [earlier [later [Hfiles [Hname Hearlier]]]].
        exists (g :: earlier), later. rewrite Hfiles.
        repeat split; [exact Hname|now constructor].
      * now constructor.
Qed.



Lemma visited_all (results : list value) :
  Forall (fun r => passes r = true) results -> visited results = results.
Proof.
  induction 1 as [|r rest Hr _ IH]; simpl; [reflexivity|].
  now rewrite Hr, IH.
Qed.



(** The application always asks with the default [top_k]: [handleAsk]
    issues the one request of [askQuestion(question)]. *)
Lemma handleAsk_request (question : jsstring) (m : Machine) :
  sent (world (snd (handleAsk question m))) =
  sent (world m) ++ [Api.request_of (Api.AskQuestion question None)].
Proof.
  unfold handleAsk, try_finally, try_catch, bind, in_world.
  cbn [setIsAsking setAnswer setSources update modify app world fst snd].
  change (Api.askQuestion question None) with (Api.run (Api.AskQuestion question None)).
  rewrite ApiFacts.run_unfold by reflexivity. cbn [app world].
  destruct (network (world m) (length (sent (world m)))
                    (Api.request_of (Api.AskQuestion question None))) as [r|e];
    [|reflexivity].
  destruct r as [o st j]. destruct o; [|reflexivity].
  destruct j as [v|e]; [|reflexivity].
  cbn [ok json]. unfold get_prop.
  destruct (nullish v); reflexivity.
Qed.

(** The [finally] block of [handleDuplicateAction] runs whatever the
    [try] and [catch] blocks did, and resets the three cells. *)
Lemma finally_resets {A} (body : M Machine A) (m : Machine) :
  let run := try_finally body
               (setDuplicateInfo VNull ;;; setPendingFile FNull ;;; setIsUploading false)
               m in
  fst run = fst (body m)
  /\ duplicateInfo (app (snd run)) = VNull
  /\ pendingFile (app (snd run)) = FNull
  /\ isUploading (app (snd run)) = false.
Proof.
  unfold try_finally. destruct (body m) as [r m1]. cbn. auto.
Qed.

(** A [catch] block that only adds a toast turns every outcome into a
    normal return. *)
Lemma catch_toast_returns (body : M Machine unit) (message : JsError -> value)
    (type : jsstring) (m : Machine) :
  fst (try_catch body (fun error => addToast (message error) type) m) = Returned tt.
Proof.
  unfold try_catch. destruct (body m) as [[[]|e] m1]; reflexivity.
Qed.

(** With a file pending, [handleDuplicateAction] ends with the duplicate
    forgotten and [isUploading] false. *)
Lemma handleDuplicateAction_pending_resets (action : jsstring) (m : Machine) (file : File) :
  pendingFile (app m) = FSome file ->
  duplicateInfo (app (snd (handleDuplicateAction action m))) = VNull
  /\ isUploading (app (snd (handleDuplicateAction action m))) = false.
Proof.
  intros Hfile.
  assert (Hrun : handleDuplicateAction action m =
            try_finally
              (try_catch
                 (handleDuplicateAction_try file action)
                 (fun error =>
                    addToast (VStr (lit "Error: " ++ err_message error)) (lit "error")))
              (setDuplicateInfo VNull ;;; setPendingFile FNull ;;; setIsUploading false)
              (snd (setIsUploading true m))).
  { unfold handleDuplicateAction. unfold bind at 1. unfold gets.
    rewrite Hfile. reflexivity. }
  rewrite Hrun.
  match goal with
  | |- context [try_finally ?body _ ?m0] =>
      destruct (finally_resets body m0) as [_ [Hinfo [_ Hup]]]
  end.
  split; assumption.
Qed.

(** C4, as amended: when a file is pending, [handleDuplicateAction]
    returns normally with [duplicateInfo] and [pendingFile] both [null]
    and [isUploading] false, for every action and whatever the request
    settles to (a result of any status, a failed response, a rejection).
    When no file is pending ([pendingFile] is [null] or [undefined]) it
    returns at once and changes nothing. *)
Theorem handleDuplicateAction_clears_pending (action : jsstring) (m : Machine) :
  (forall file, pendingFile (app m) = FSome file ->
     let run := handleDuplicateAction action m in
     fst run = Returned tt
     /\ duplicateInfo (app (snd run)) = VNull
     /\ pendingFile (app (snd run)) = FNull
     /\ isUploading (app (snd run)) = false)
  /\ (no_file (pendingFile (app m)) = true ->
      handleDuplicateAction action m = (Returned tt, m)).
Proof.
  split.
  - intros file Hfile run.
    assert (Hrun : run =
              try_finally
                (try_catch
                   (handleDuplicateAction_try file action)
                   (fun error =>
                      addToast (VStr (lit "Error: " ++ err_message error)) (lit "error")))
                (setDuplicateInfo VNull ;;; setPendingFile FNull ;;; setIsUploading false)
                (snd (setIsUploading true m))).
    { subst run. unfold handleDuplicateAction. unfold bind at 1. unfold gets.
      rewrite Hfile. reflexivity. }
    rewrite Hrun.
    match goal with
    | |- context [try_finally ?body _ ?m0] =>
        destruct (finally_resets body m0) as [Hfst Hrest];
        pose proof (catch_toast_returns
                      (handleDuplicateAction_try file action)
                      (fun error => VStr (lit "Error: " ++ err_message error))
                      (lit "error") m0) as Hcatch
    end.
    split; [|exact Hrest].
    etransitivity; [exact Hfst|exact Hcatch].
  - intros Hnone. unfold handleDuplicateAction, bind, gets.
    destruct (pendingFile (app m)); try discriminate; reflexivity.
Qed.

(** A pending duplicate of [a.pdf] is cleared when the resolution is
    cancelled, and as well when the server cannot be reached. *)
Lemma handleDuplicateAction_clears_pending_witness :
  (let run := handleDuplicateAction (lit "cancel")
                (Examples.pending (Responded (mkResponse true (lit "OK")
                                     (Parsed (Examples.resolution "cancelled"))))) in
   fst run = Returned tt
   /\ duplicateInfo (app (snd run)) = VNull
   /\ pendingFile (app (snd run)) = FNull
   /\ isUploading (app (snd run)) = false)
  /\ (let run := handleDuplicateAction (lit "replace")
                   (Examples.pending (NetworkFailure Examples.failed_to_fetch)) in
      fst run = Returned tt
      /\ duplicateInfo (app (snd run)) = VNull
      /\ pendingFile (app (snd run)) = FNull
      /\ isUploading (app (snd run)) = false).
Proof.
  split.
  - exact (proj1 (handleDuplicateAction_clears_pending (lit "cancel")
                    (Examples.pending (Responded (mkResponse true (lit "OK")
                                         (Parsed (Examples.resolution "cancelled"))))))
                 Examples.a_pdf eq_refl).
  - exact (proj1 (handleDuplicateAction_clears_pending (lit "replace")
                    (Examples.pending (NetworkFailure Examples.failed_to_fetch)))
                 Examples.a_pdf eq_refl).
Defined.

(** C4, as stated, fails: after an upload whose duplicate result matches
    no file by name, [pendingFile] is [undefined]; [handleDuplicateAction]
    then returns at its guard, and [duplicateInfo] stays set. *)
Lemma handleDuplicateAction_can_leave_duplicateInfo :
  ~ (forall (action : jsstring) (m : Machine),
        let m' := snd (handleDuplicateAction action m) in
        duplicateInfo (app m') = VNull
        /\ pendingFile (app m') = FNull
        /\ isUploading (app m') = false).
Proof.
  intros H.
  destruct (H (lit "cancel") Examples.unmatched_duplicate) as [Hinfo _].
  discriminate Hinfo.
Qed.

End AppFacts.

(* ================================================================== *)
(** * The ingestion core: duplicate uploads *)
(* ================================================================== *)

Module CoreFacts.

Import Core.

Section Idempotence.

Variable digest : Type.
Variable content_hash : list Byte.byte -> digest.
Variable digest_eqb : digest -> digest -> bool.
Variable vector : Type.
Variable chunk_page : string -> list string.
Variable embed : list string -> option (list vector).

(** The digest comparison recognises equal digests. *)
Hypothesis digest_eqb_refl : forall h, digest_eqb h h = true.

Lemma find_snoc {A} (f : A -> bool) (l : list A) (x : A) :
  find f l = None -> f x = true -> find f (l ++ [x]) = Some x.
Proof.
  intros Hl Hx. induction l as [|y l IH]; simpl in *.
  - now rewrite Hx.
  - destruct (f y); [discriminate|auto].
Qed.

Lemma ingest_duplicate (st : Stores digest vector) name bytes pages now existing :
  find_by_hash digest_eqb (content_hash bytes) (registry st) = Some existing ->
  Core.ingest content_hash digest_eqb chunk_page embed st name bytes pages now
    = (Duplicate existing, st).
Proof.
  intros H. unfold Core.ingest. now rewrite H.
Qed.

Lemma ingest_success (st st1 : Stores digest vector) name bytes pages now
      name' chunks npages empty :
  Core.ingest content_hash digest_eqb chunk_page embed st name bytes pages now
    = (Success digest name' chunks npages empty, st1) ->
  exists doc,
    registry st1 = registry st ++ [doc]
    /\ content_hash_of doc = content_hash bytes
    /\ find_by_hash digest_eqb (content_hash bytes) (registry st) = None.
Proof.
  unfold Core.ingest.
  destruct (find_by_hash digest_eqb (content_hash bytes) (registry st)) eqn:Hfind;
    [discriminate|].
  destruct (embed (map snd (chunk_pages chunk_page pages))); [|discriminate].
  intros H. injection H as _ _ _ _ <-. eexists. simpl. auto.
Qed.

(** C7: if the registry already holds a document with the content hash
    of the upload, ingestion does not run: the result is [duplicate],
    naming that document, and no store changes. Hence after a successful
    upload, a second upload of the same bytes (under any name, at any
    time) is answered [duplicate] with the entry the first upload
    registered, and the registry still has exactly the one entry the
    first upload added. *)
Theorem second_upload_is_duplicate
    (st : Stores digest vector) (bytes : list Byte.byte)
    (name1 name2 : string) (pages1 pages2 : list (nat * string)) (now1 now2 : Z) :
  (forall existing,
      find_by_hash digest_eqb (content_hash bytes) (registry st) = Some existing ->
      Core.ingest content_hash digest_eqb chunk_page embed st name2 bytes pages2 now2
        = (Duplicate existing, st))
  /\ (forall name chunks npages empty st1,
        Core.ingest content_hash digest_eqb chunk_page embed st name1 bytes pages1 now1
          = (Success digest name chunks npages empty, st1) ->
        exists doc,
          registry st1 = registry st ++ [doc]
          /\ content_hash_of doc = content_hash bytes
          /\ Core.ingest content_hash digest_eqb chunk_page embed
                         st1 name2 bytes pages2 now2
               = (Duplicate doc, st1)
          /\ registry (snd (Core.ingest content_hash digest_eqb chunk_page embed
                                        st1 name2 bytes pages2 now2))
               = registry st ++ [doc]).
Proof.
  split.
  - intros existing H. now apply ingest_duplicate.
  - intros name chunks npages empty st1 H1.
    destruct (ingest_success _ _ _ _ _ H1) as [doc [Hreg [Hhash Hnone]]].
    assert (Hfind : find_by_hash digest_eqb (content_hash bytes) (registry st1)
                    = Some doc).
    { rewrite Hreg. unfold find_by_hash. apply find_snoc; [exact Hnone|].
      rewrite Hhash. apply digest_eqb_refl. }
    exists doc. repeat split; try assumption.
    + now apply ingest_duplicate.
    + rewrite (ingest_duplicate _ _ _ _ _ Hfind). exact Hreg.
Qed.

End Idempotence.

Lemma bytes_eqb_refl (h : list Byte.byte) : Examples.bytes_eqb h h = true.
Proof.
  induction h as [|x h IH]; simpl; [reflexivity|].
  rewrite IH, andb_true_r. now apply Byte.byte_dec_lb.
Qed.

(** [A.pdf] is ingested into empty stores; the same bytes sent again as
    [copy.pdf] are answered [duplicate], and one document is registered. *)
Lemma second_upload_is_duplicate_witness :
  exists doc,
    registry Examples.after_first_upload = [doc]
    /\ Examples.ingest_example Examples.after_first_upload "copy.pdf"%string
         Examples.pdf_bytes Examples.one_page 1%Z
       = (Duplicate doc, Examples.after_first_upload).
Proof.
  destruct (proj2 (@second_upload_is_duplicate
                     (list Byte.byte) (fun b => b) Examples.bytes_eqb (list Z)
                     Examples.whole_page Examples.unit_vectors bytes_eqb_refl
                     Examples.empty_stores Examples.pdf_bytes
                     "A.pdf"%string "copy.pdf"%string
                     Examples.one_page Examples.one_page 0%Z 1%Z)
                  "A.pdf"%string 1 1 false Examples.after_first_upload eq_refl)
    as [doc [Hreg [_ [Hdup _]]]].
  exists doc. split; [exact Hreg|exact Hdup].
Defined.

End CoreFacts.

(* ================================================================== *)
(** * How the handlers use the network *)
(* ================================================================== *)

Module Runs.

Import App.

Lemma run_next (c : Api.Call) (w : World) :
  Api.stops_early c = None ->
  Api.run c w = (Api.next c w, log_request (Api.request_of c) w).
Proof. apply ApiFacts.run_unfold. Qed.

Lemma in_world_run (c : Api.Call) (m : Machine) :
  Api.stops_early c = None ->
  in_world (Api.run c) m =
  (Api.next c (world m), mkMachine (app m) (log_request (Api.request_of c) (world m))).
Proof. intros Hearly. unfold in_world. now rewrite run_next. Qed.

Lemma in_world_stops_early (c : Api.Call) (e : JsError) (m : Machine) :
  Api.stops_early c = Some e -> in_world (Api.run c) m = (Thrown e, m).
Proof.
  intros Hearly. unfold in_world. rewrite (ApiFacts.run_stops_early _ _ Hearly).
  now destruct m.
Qed.

(** [refreshData], exactly: two requests, and the two cells written
    together or not at all. *)
Lemma refreshData_run (m : Machine) :
  let w1 := log_request (Api.request_of Api.GetDocuments) (world m) in
  let w2 := log_request (Api.request_of Api.GetStats) w1 in
  refreshData m =
  (Returned tt,
   mkMachine (match Api.next Api.GetDocuments (world m), Api.next Api.GetStats w1 with
              | Returned docs, Returned statsData => withData docs statsData (app m)
              | _, _ => app m
              end)
             w2).
Proof.
  intros w1 w2. unfold refreshData, bind, attempt.
  change Api.getDocuments with (Api.run Api.GetDocuments).
  change Api.getStats with (Api.run Api.GetStats).
  rewrite in_world_run by reflexivity. cbn [app world].
  rewrite in_world_run by reflexivity. cbn [app world].
  fold w1. fold w2.
  destruct (Api.next Api.GetDocuments (world m)) as [docs|e1];
    destruct (Api.next Api.GetStats w1) as [statsData|e2]; reflexivity.
Qed.

Lemma appends_ret {A} (a : A) : appends (ret a).
Proof. intros m. exists []. now rewrite app_nil_r. Qed.

Lemma appends_throw {A} (e : JsError) : appends (@throw Machine A e).
Proof. intros m. exists []. now rewrite app_nil_r. Qed.

Lemma appends_update (f : AppState -> AppState) : appends (update f).
Proof. intros m. exists []. now rewrite app_nil_r. Qed.

Lemma appends_get_prop (v : value) (k : jsstring) : appends (get_prop v k).
Proof.
  intros m. exists []. unfold get_prop. destruct (nullish v); now rewrite app_nil_r.
Qed.

Lemma appends_to_string (v : value) : appends (to_string v).
Proof.
  intros m. exists []. unfold to_string. destruct (ToString v); now rewrite app_nil_r.
Qed.

Lemma appends_in_world (c : Api.Call) : appends (in_world (Api.run c)).
Proof.
  intros m. destruct (Api.stops_early c) as [e|] eqn:Hearly.
  - rewrite (in_world_stops_early _ _ Hearly). exists []. now rewrite app_nil_r.
  - rewrite in_world_run by exact Hearly. exists [Api.request_of c]. split; reflexivity.
Qed.

Lemma appends_addToast (message : value) (type : jsstring) : appends (addToast message type).
Proof. intros m. exists []. split; [now rewrite app_nil_r|reflexivity]. Qed.

Lemma appends_refreshData : appends refreshData.
Proof.
  intros m. rewrite refreshData_run.
  exists [Api.request_of Api.GetDocuments; Api.request_of Api.GetStats].
  cbn [snd world]. unfold log_request. cbn [sent network].
  now rewrite <- app_assoc.
Qed.

Lemma appends_bind {A B} (c : M Machine A) (k : A -> M Machine B) :
  appends c -> (forall a, appends (k a)) -> appends (bind c k).
Proof.
  intros Hc Hk m. unfold bind.
  destruct (Hc m) as [l1 [H1 N1]].
  destruct (c m) as [[a|e] m1]; cbn [snd] in *.
  - destruct (Hk a m1) as [l2 [H2 N2]]. exists (l1 ++ l2).
    rewrite H2, H1, N2, N1. now rewrite app_assoc.
  - exists l1. auto.
Qed.

Lemma appends_try_catch {A} (c : M Machine A) (h : JsError -> M Machine A) :
  appends c -> (forall e, appends (h e)) -> appends (try_catch c h).
Proof.
  intros Hc Hh m. unfold try_catch.
  destruct (Hc m) as [l1 [H1 N1]].
  destruct (c m) as [[a|e] m1]; cbn [snd] in *.
  - exists l1. auto.
  - destruct (Hh e m1) as [l2 [H2 N2]]. exists (l1 ++ l2).
    rewrite H2, H1, N2, N1. now rewrite app_assoc.
Qed.

Lemma appends_try_finally {A} (c : M Machine A) (f : M Machine unit) :
  appends c -> appends f -> appends (try_finally c f).
Proof.
  intros Hc Hf m. unfold try_finally.
  destruct (Hc m) as [l1 [H1 N1]].
  destruct (c m) as [r m1]; cbn [snd] in *.
  destruct (Hf m1) as [l2 [H2 N2]].
  destruct (f m1) as [[[]|e] m2]; cbn [snd] in *;
    exists (l1 ++ l2); rewrite H2, H1, N2, N1; now rewrite app_assoc.
Qed.

Lemma appends_for_of {A B} (body : A -> B -> M Machine B) (items : list A) :
  (forall x acc, appends (body x acc)) -> forall acc, appends (for_of body items acc).
Proof.
  intros Hbody. induction items as [|x rest IH]; intros acc; simpl.
  - apply appends_ret.
  - apply appends_bind; [apply Hbody|exact IH].
Qed.

End Runs.

(* ================================================================== *)
(** * App: what an upload shows and requests *)
(* ================================================================== *)

Module UploadFacts.

Import App JsFacts.

Lemma same_network_refl (w : World) : same_network w w.
Proof. repeat split. Qed.

Lemma same_network_trans (w1 w2 w3 : World) :
  same_network w1 w2 -> same_network w2 w3 -> same_network w1 w3.
Proof.
  intros [N1 [S1 C1]] [N2 [S2 C2]]. repeat split; congruence.
Qed.

Lemma has_status_exclusive (s t : string) (result : value) :
  lit s <> lit t -> has_status s result = true -> has_status t result = false.
Proof.
  unfold has_status. intros Hst Hs. apply is_str_eq in Hs. rewrite Hs. simpl.
  destruct (str_eqb (lit s) (lit t)) eqn:E; [|reflexivity].
  apply str_eqb_eq in E. contradiction.
Qed.

Lemma count_status_cons (s : string) (r : value) (rest : list value) :
  count_status s (r :: rest) =
  (if has_status s r then S (count_status s rest) else count_status s rest).
Proof. unfold count_status. simpl. now destruct (has_status s r). Qed.

(** One pass of the loop on a result it gets past: the counts, the
    toast, and what is left alone. *)
Lemma result_pass files (result : value) (sc dc : nat) (m : Machine) :
  passes result = true ->
  exists m',
    handleUpload_result files result (sc, dc) m =
      (Returned (if has_status "success" result then S sc else sc,
                 if has_status "duplicate" result then S dc else dc), m')
    /\ map toast_view (toasts (app m')) =
         map toast_view (toasts (app m)) ++ result_toasts result
    /\ same_network (world m) (world m')
    /\ isUploading (app m') = isUploading (app m).
Proof.
  intros Hpass. rewrite AppFacts.handleUpload_result_run by exact Hpass.
  unfold result_toasts.
  destruct (has_status "success" result) eqn:Hs.
  - rewrite (@has_status_exclusive "success" "duplicate" result) by (discriminate || exact Hs).
    eexists. split; [reflexivity|]. cbn -[lit List.app Api.text]. rewrite map_app.
    repeat split; reflexivity.
  - destruct (has_status "duplicate" result) eqn:Hd.
    + rewrite (@has_status_exclusive "duplicate" "error" result) by (discriminate || exact Hd).
      eexists. split; [reflexivity|]. cbn. rewrite app_nil_r.
      repeat split; reflexivity.
    + destruct (has_status "error" result).
      * eexists. split; [reflexivity|]. cbn -[lit List.app Api.text]. rewrite map_app.
        repeat split; reflexivity.
      * eexists. split; [reflexivity|]. rewrite app_nil_r.
        repeat split; reflexivity.
Qed.

(** The whole loop: it runs over the results it gets past, and throws at
    the first it does not. *)
Lemma loop_run files (items : list value) (sc dc : nat) (m : Machine) :
  exists m',
    for_of (handleUpload_result files) items (sc, dc) m =
      (match stopped items with
       | None => Returned (sc + count_status "success" items,
                           dc + count_status "duplicate" items)
       | Some r => Thrown (stop_error r)
       end, m')
    /\ map toast_view (toasts (app m')) =
         map toast_view (toasts (app m)) ++ flat_map result_toasts (visited items)
    /\ same_network (world m) (world m')
    /\ isUploading (app m') = isUploading (app m).
Proof.
  revert sc dc m. induction items as [|r rest IH]; intros sc dc m.
  - exists m. unfold count_status. cbn. rewrite !Nat.add_0_r, app_nil_r.
    repeat split; reflexivity.
  - cbn [for_of stopped visited]. unfold bind. destruct (passes r) eqn:Hr.
    + destruct (@result_pass files r sc dc m Hr) as [m1 [Hrun [Ht [Hn Hu]]]].
      rewrite Hrun.
      destruct (IH (if has_status "success" r then S sc else sc)
                   (if has_status "duplicate" r then S dc else dc) m1)
        as [m' [Hrun' [Ht' [Hn' Hu']]]].
      exists m'. rewrite Hrun', !count_status_cons. split.
      * f_equal. destruct (stopped rest); [reflexivity|]. f_equal.
        destruct (has_status "success" r), (has_status "duplicate" r);
          cbn [Nat.add]; rewrite ?Nat.add_succ_r; reflexivity.
      * split; [|split].
        -- rewrite Ht', Ht. cbn [flat_map]. now rewrite app_assoc.
        -- eapply same_network_trans; eassumption.
        -- congruence.
    + rewrite AppFacts.handleUpload_result_stop by exact Hr.
      exists m. cbn [flat_map]. rewrite app_nil_r.
      repeat split; reflexivity.
Qed.

Lemma stopped_all (items : list value) :
  Forall (fun r => passes r = true) items -> stopped items = None.
Proof.
  induction 1 as [|r rest Hr _ IH]; simpl; [reflexivity|].
  now rewrite Hr.
Qed.

Lemma stopped_at (before after : list value) (r : value) :
  Forall (fun x => passes x = true) before -> passes r = false ->
  stopped (before ++ r :: after) = Some r /\ visited (before ++ r :: after) = before.
Proof.
  intros Hbefore Hr. induction Hbefore as [|x before Hx _ [IH1 IH2]]; simpl.
  - now rewrite Hr.
  - rewrite Hx, IH1, IH2. split; reflexivity.
Qed.

(** The toast of a result the loop gets past, written out. *)
Lemma result_toasts_texts (r : value) :
  passes r = true ->
  (has_status "success" r = true ->
   exists filename chunks,
     ToString (prop r (lit "filename")) = Returned filename
     /\ ToString (prop r (lit "chunks")) = Returned chunks
     /\ result_toasts r =
          [(VStr (lit "Uploaded: " ++ filename ++ lit " (" ++ chunks
                  ++ lit " chunks)"), lit "success")])
  /\ (has_status "error" r = true ->
      exists filename message,
        ToString (prop r (lit "filename")) = Returned filename
        /\ ToString (prop r (lit "message")) = Returned message
        /\ result_toasts r =
             [(VStr (lit "Error: " ++ filename ++ lit " - " ++ message),
               lit "error")])
  /\ (has_status "success" r = false -> has_status "error" r = false ->
      result_toasts r = []).
Proof.
  intros Hpass. unfold passes in Hpass.
  destruct (nullish r); [discriminate|].
  unfold result_toasts, Api.text, printable in *.
  refine (conj _ (conj _ _)).
  - intros Hs. rewrite Hs in *.
    destruct (ToString (prop r (lit "filename"))) as [filename|]; [|discriminate].
    destruct (ToString (prop r (lit "chunks"))) as [chunks|]; [|discriminate].
    exists filename, chunks. repeat split.
  - intros He.
    rewrite (@has_status_exclusive "error" "success" r) in * by (discriminate || exact He).
    rewrite (@has_status_exclusive "error" "duplicate" r) in * by (discriminate || exact He).
    rewrite He in *.
    destruct (ToString (prop r (lit "filename"))) as [filename|]; [|discriminate].
    destruct (ToString (prop r (lit "message"))) as [message|]; [|discriminate].
    exists filename, message. repeat split.
  - intros Hs He. now rewrite Hs, He.
Qed.

(** The whole loop over results it gets past. *)
Lemma loop_pass files (items : list value) :
  Forall (fun r => passes r = true) items ->
  forall (sc dc : nat) (m : Machine),
  exists m',
    for_of (handleUpload_result files) items (sc, dc) m =
      (Returned (sc + count_status "success" items,
                 dc + count_status "duplicate" items), m')
    /\ map toast_view (toasts (app m')) =
         map toast_view (toasts (app m)) ++ flat_map result_toasts items
    /\ same_network (world m) (world m')
    /\ isUploading (app m') = isUploading (app m).
Proof.
  intros Hitems sc dc m.
  destruct (loop_run files items sc dc m) as [m' H].
  rewrite (stopped_all Hitems), (AppFacts.visited_all Hitems) in H.
  now exists m'.
Qed.

(** The loop never touches the network, whatever the results. *)
Lemma loop_same_network files (items : list value) (counts : nat * nat) (m : Machine) :
  same_network (world m) (world (snd (for_of (handleUpload_result files) items counts m))).
Proof.
  destruct counts as [sc dc].
  destruct (loop_run files items sc dc m) as [m' [Hrun [_ [Hn _]]]].
  now rewrite Hrun.
Qed.

Lemma appends_handleUpload_result files (result : value) (counts : nat * nat) :
  appends (handleUpload_result files result counts).
Proof.
  destruct counts as [sc dc]. unfold handleUpload_result.
  apply Runs.appends_bind; [apply Runs.appends_get_prop|].
  intros status.
  destruct (is_str status (lit "success")).
  { apply Runs.appends_bind; [apply Runs.appends_to_string|intros].
    apply Runs.appends_bind; [apply Runs.appends_to_string|intros].
    apply Runs.appends_bind; [apply Runs.appends_addToast|intros; apply Runs.appends_ret]. }
  destruct (is_str status (lit "duplicate")).
  { apply Runs.appends_bind; [apply Runs.appends_update|intros].
    apply Runs.appends_bind; [apply Runs.appends_update|intros; apply Runs.appends_ret]. }
  destruct (is_str status (lit "error")).
  { apply Runs.appends_bind; [apply Runs.appends_to_string|intros].
    apply Runs.appends_bind; [apply Runs.appends_to_string|intros].
    apply Runs.appends_bind; [apply Runs.appends_addToast|intros; apply Runs.appends_ret]. }
  apply Runs.appends_ret.
Qed.

Lemma appends_handleUpload_results files (results : value) :
  appends (handleUpload_results files results).
Proof.
  unfold handleUpload_results.
  apply Runs.appends_bind; [|intros items].
  { unfold iterate. destruct results;
      first [apply Runs.appends_ret|apply Runs.appends_throw]. }
  apply Runs.appends_bind; [|intros [sc dc]].
  { apply Runs.appends_for_of. intros. apply appends_handleUpload_result. }
  apply Runs.appends_bind; [|intros _].
  { destruct (0 <? sc); [apply Runs.appends_refreshData|apply Runs.appends_ret]. }
  destruct (dc =? 0); [apply Runs.appends_addToast|apply Runs.appends_ret].
Qed.

(** [handleUpload] is the upload request followed by the rest of the
    [try] block, its [catch] and its [finally]. *)
Lemma handleUpload_shape files (m : Machine) :
  handleUpload files m =
  try_finally
    (try_catch
       (fun s => match Api.next (Api.UploadPDFs files) (world m) with
                 | Returned results => handleUpload_results files results s
                 | Thrown e => (Thrown e, s)
                 end)
       (fun error =>
          addToast (VStr (lit "Upload failed: " ++ err_message error)) (lit "error")))
    (setIsUploading false) (uploading files m).
Proof.
  unfold handleUpload. unfold bind at 1. unfold setIsUploading at 1.
  unfold update, modify. unfold try_finally, try_catch.
  unfold bind at 1.
  change (Api.uploadPDFs files) with (Api.run (Api.UploadPDFs files)).
  rewrite Runs.in_world_run by reflexivity. cbn [app world]. fold (uploading files m).
  destruct (Api.next (Api.UploadPDFs files) (world m)); reflexivity.
Qed.

Lemma handleUpload_returns (files : list File) (m : Machine) :
  fst (handleUpload files m) = Returned tt
  /\ isUploading (app (snd (handleUpload files m))) = false
  /\ exists later,
       sent (world (snd (handleUpload files m))) =
         sent (world m)
         ++ mkRequest (lit "http://localhost:8000/upload-pdfs") (lit "POST") []
                      (FormBody (map (fun file => (lit "files", FormFile file)) files))
         :: later.
Proof.
  rewrite handleUpload_shape.
  set (tried := try_catch _ _).
  assert (Htried : appends tried).
  { apply Runs.appends_try_catch.
    - intros s. destruct (Api.next (Api.UploadPDFs files) (world m)).
      + apply appends_handleUpload_results.
      + exists []. now rewrite app_nil_r.
    - intros e. apply Runs.appends_addToast. }
  assert (Hret : fst (tried (uploading files m)) = Returned tt).
  { subst tried.
    apply (AppFacts.catch_toast_returns
             (fun s => match Api.next (Api.UploadPDFs files) (world m) with
                       | Returned results => handleUpload_results files results s
                       | Thrown e => (Thrown e, s)
                       end)
             (fun error => VStr (lit "Upload failed: " ++ err_message error))). }
  destruct (Htried (uploading files m)) as [later [Hsent _]].
  unfold try_finally. destruct (tried (uploading files m)) as [r m2]. cbn in *.
  split; [exact Hret|split; [reflexivity|]].
  exists later. rewrite Hsent. now rewrite <- app_assoc.
Qed.

(** X3: whatever the server does, [handleUpload] returns normally, leaves
    [isUploading] false, and has issued the upload request, with exactly
    the given files in its form, before any other request. *)
Theorem handleUpload_always_settles (files : list File) (m : Machine) :
  fst (handleUpload files m) = Returned tt
  /\ isUploading (app (snd (handleUpload files m))) = false
  /\ exists later,
       sent (world (snd (handleUpload files m))) =
         sent (world m)
         ++ mkRequest (lit "http://localhost:8000/upload-pdfs") (lit "POST") []
                      (FormBody (map (fun file => (lit "files", FormFile file)) files))
         :: later.
Proof. apply handleUpload_returns. Qed.

(** X4: when the upload request fails (fetch rejects, the response is
    not ok, or its body is not JSON), [handleUpload] adds exactly one
    toast, of type ['error'], showing ['Upload failed: '] followed by the
    error's message; it has sent the one request, and leaves the documents,
    the statistics and the pending duplicate as they were. After a
    response that is not ok the message therefore carries the prefix twice:
    ['Upload failed: Upload failed: '] and the status text. *)
Theorem handleUpload_failure_toast (files : list File) (m : Machine) (e : JsError) :
  Api.next (Api.UploadPDFs files) (world m) = Thrown e ->
  let m' := snd (handleUpload files m) in
  map toast_view (toasts (app m')) =
    map toast_view (toasts (app m))
    ++ [(VStr (lit "Upload failed: " ++ err_message e), lit "error")]
  /\ sent (world m') = sent (world m) ++ [Api.request_of (Api.UploadPDFs files)]
  /\ isUploading (app m') = false
  /\ documents (app m') = documents (app m)
  /\ stats (app m') = stats (app m)
  /\ slot m' = slot m
  /\ (forall resp,
        network (world m) (length (sent (world m))) (Api.request_of (Api.UploadPDFs files))
          = Responded resp ->
        ok resp = false ->
        err_message e = lit "Upload failed: " ++ statusText resp).
Proof.
  intros Hfail m'. subst m'.
  assert (Hprefix : forall resp,
             network (world m) (length (sent (world m)))
                     (Api.request_of (Api.UploadPDFs files)) = Responded resp ->
             ok resp = false ->
             err_message e = lit "Upload failed: " ++ statusText resp).
  { intros resp Hresp Hok. unfold Api.next, Api.settle in Hfail.
    rewrite Hresp, Hok in Hfail. injection Hfail as <-. reflexivity. }
  rewrite handleUpload_shape.
  unfold try_finally, try_catch. rewrite Hfail.
  cbn -[lit Api.request_of List.app]. rewrite map_app.
  repeat split. exact Hprefix.
Qed.

(** A 500 response to the upload of [a.pdf]: one error toast, with the
    prefix twice. *)
Lemma handleUpload_failure_toast_witness :
  map toast_view
      (toasts (app (snd (handleUpload [Examples.a_pdf]
         (mkMachine initial
            (Examples.world_of
               (Responded (mkResponse false (lit "Internal Server Error")
                                      (Parsed VNull)))))))))
  = [(VStr (lit "Upload failed: Upload failed: Internal Server Error"), lit "error")].
Proof.
  exact (proj1 (@handleUpload_failure_toast [Examples.a_pdf]
                  (mkMachine initial
                     (Examples.world_of
                        (Responded (mkResponse false (lit "Internal Server Error")
                                               (Parsed VNull)))))
                  (Error (lit "Upload failed: Internal Server Error"))
                  eq_refl)).
Defined.

(** The run of [handleUpload] over the elements [items] of what the
    upload answered: the toasts of the results the loop gets past, then
    the ['Upload failed: '] toast if it stopped, the summary otherwise. *)
Lemma handleUpload_items
    (files : list File) (results : value) (items : list value) (m : Machine) :
  Api.next (Api.UploadPDFs files) (world m) = Returned results ->
  (forall s : Machine, iterate (lit "results") results s = (Returned items, s)) ->
  let m' := snd (handleUpload files m) in
  let n := count_status "success" items in
  map toast_view (toasts (app m')) =
    map toast_view (toasts (app m))
    ++ flat_map result_toasts (visited items)
    ++ match stopped items with
       | Some r => [(VStr (lit "Upload failed: " ++ err_message (stop_error r)),
                     lit "error")]
       | None =>
           if count_status "duplicate" items =? 0
           then [(VStr (lit "Upload complete: " ++ count_text n
                        ++ lit " files processed"), lit "success")]
           else []
       end
  /\ sent (world m') =
       sent (world m)
       ++ Api.request_of (Api.UploadPDFs files)
       :: match stopped items with
          | Some _ => []
          | None =>
              if 0 <? n
              then [Api.request_of Api.GetDocuments; Api.request_of Api.GetStats]
              else []
          end.
Proof.
  intros Hnext Hiter m' n.
  destruct (loop_run files items 0 0 (uploading files m))
    as [m1 [Hloop [Htoasts [[Hnet [Hsent Hclock]] _]]]].
  cbn [Nat.add] in Hloop. fold n in Hloop.
  destruct (stopped items) as [r|].
  { assert (Hrun : handleUpload files m =
                   (Returned tt,
                    snd (setIsUploading false
                           (toasted (VStr (lit "Upload failed: "
                                           ++ err_message (stop_error r)))
                                    (lit "error") m1)))).
    { rewrite handleUpload_shape.
      unfold try_finally, try_catch. rewrite Hnext.
      unfold handleUpload_results. unfold bind at 1. rewrite Hiter.
      unfold bind at 1. rewrite Hloop. rewrite AppFacts.addToast_run. reflexivity. }
    subst m'. rewrite Hrun.
    cbn [snd setIsUploading update modify app world toasted pushToast toasts tick sent].
    rewrite map_app, Htoasts, Hsent, <- app_assoc. split; reflexivity. }
  assert (Hrefresh :
            exists m2,
              (if 0 <? n then refreshData else ret tt) m1 = (Returned tt, m2)
              /\ toasts (app m2) = toasts (app m1)
              /\ sent (world m2) =
                   sent (world m1)
                   ++ (if 0 <? n
                       then [Api.request_of Api.GetDocuments; Api.request_of Api.GetStats]
                       else [])).
  { destruct (0 <? n).
    - rewrite Runs.refreshData_run. eexists. split; [reflexivity|].
      cbn [app world]. split.
      + destruct (Api.next Api.GetDocuments (world m1)); [|reflexivity].
        destruct (Api.next Api.GetStats _); reflexivity.
      + unfold log_request. cbn [sent]. now rewrite <- app_assoc.
    - exists m1. rewrite app_nil_r. repeat split. }
  destruct Hrefresh as [m2 [Hrun2 [Htoasts2 Hsent2]]].
  assert (Hrun : handleUpload files m =
                 (Returned tt,
                  snd (setIsUploading false
                         (snd ((if count_status "duplicate" items =? 0
                                then addToast
                                       (VStr (lit "Upload complete: "
                                              ++ count_text n
                                              ++ lit " files processed"))
                                       (lit "success")
                                else ret tt) m2))))).
  { rewrite handleUpload_shape.
    unfold try_finally, try_catch. rewrite Hnext.
    unfold handleUpload_results. unfold bind at 1. rewrite Hiter.
    unfold bind at 1. rewrite Hloop.
    unfold bind at 1. rewrite Hrun2.
    destruct (count_status "duplicate" items =? 0); reflexivity. }
  subst m'. rewrite Hrun. cbn [snd].
  assert (Hsent' : sent (world m2) =
                   sent (world m)
                   ++ Api.request_of (Api.UploadPDFs files)
                   :: (if 0 <? n
                       then [Api.request_of Api.GetDocuments; Api.request_of Api.GetStats]
                       else [])).
  { rewrite Hsent2, Hsent. cbn [uploading world log_request sent].
    now rewrite <- app_assoc. }
  assert (Htoasts' : map toast_view (toasts (app m2)) =
                     map toast_view (toasts (app m))
                     ++ flat_map result_toasts (visited items)).
  { rewrite Htoasts2, Htoasts. reflexivity. }
  destruct (count_status "duplicate" items =? 0).
  - rewrite AppFacts.addToast_run.
    cbn [snd setIsUploading update modify app world toasted pushToast toasts tick sent].
    rewrite map_app, Htoasts', <- app_assoc.
    split; [reflexivity|exact Hsent'].
  - cbn [snd ret setIsUploading update modify app world toasts sent].
    rewrite app_nil_r. split; [exact Htoasts'|exact Hsent'].
Qed.

(** X5: when the upload answers with an array of results each of which
    the loop gets past (none is [null], and the file name, chunk count and
    message that go into a toast have a text), [handleUpload] adds one
    toast per ['success'] result and one per ['error'] result, in the order
    of the results, and then the toast ['Upload complete: n files
    processed'] exactly when no result is a duplicate, [n] being the number
    of ['success'] results. It refreshes the documents and statistics (two
    more requests) exactly when [n] is positive. *)
Theorem handleUpload_batch_toasts
    (files : list File) (items : list value) (m : Machine) :
  Api.next (Api.UploadPDFs files) (world m) = Returned (VArr items) ->
  Forall (fun r => passes r = true) items ->
  let m' := snd (handleUpload files m) in
  let n := count_status "success" items in
  map toast_view (toasts (app m')) =
    map toast_view (toasts (app m))
    ++ flat_map result_toasts items
    ++ (if count_status "duplicate" items =? 0
        then [(VStr (lit "Upload complete: " ++ count_text n
                     ++ lit " files processed"), lit "success")]
        else [])
  /\ sent (world m') =
       sent (world m)
       ++ Api.request_of (Api.UploadPDFs files)
       :: (if 0 <? n
           then [Api.request_of Api.GetDocuments; Api.request_of Api.GetStats]
           else [])
  /\ (forall r, In r items ->
        (has_status "success" r = true ->
         exists filename chunks,
           ToString (prop r (lit "filename")) = Returned filename
           /\ ToString (prop r (lit "chunks")) = Returned chunks
           /\ result_toasts r =
                [(VStr (lit "Uploaded: " ++ filename ++ lit " (" ++ chunks
                        ++ lit " chunks)"), lit "success")])
        /\ (has_status "error" r = true ->
            exists filename message,
              ToString (prop r (lit "filename")) = Returned filename
              /\ ToString (prop r (lit "message")) = Returned message
              /\ result_toasts r =
                   [(VStr (lit "Error: " ++ filename ++ lit " - " ++ message),
                     lit "error")])
        /\ (has_status "success" r = false -> has_status "error" r = false ->
            result_toasts r = [])).
Proof.
  intros Hnext Hitems m' n.
  destruct (@handleUpload_items files (VArr items) items m Hnext (fun s => eq_refl))
    as [Htoasts Hsent].
  fold m' in Htoasts, Hsent. fold n in Htoasts, Hsent.
  rewrite (stopped_all Hitems), (AppFacts.visited_all Hitems) in Htoasts.
  rewrite (stopped_all Hitems) in Hsent.
  refine (conj Htoasts (conj Hsent _)).
  intros r Hr. apply result_toasts_texts.
  rewrite Forall_forall in Hitems. now apply Hitems.
Qed.

(** One file ingested, one rejected: two toasts for the results, then
    the summary, and a refresh. *)
Lemma handleUpload_batch_toasts_witness :
  let m' := snd (handleUpload [Examples.a_pdf; Examples.b_pdf]
                   (mkMachine initial (Examples.replying (VArr Examples.mixed_batch)))) in
  map toast_view (toasts (app m')) =
    [(VStr (lit "Uploaded: a.pdf (3 chunks)"), lit "success");
     (VStr (lit "Error: b.pdf - No text"), lit "error");
     (VStr (lit "Upload complete: 1 files processed"), lit "success")]
  /\ length (sent (world m')) = 3.
Proof.
  pose proof (@handleUpload_batch_toasts [Examples.a_pdf; Examples.b_pdf]
                Examples.mixed_batch
                (mkMachine initial (Examples.replying (VArr Examples.mixed_batch)))
                eq_refl ltac:(repeat constructor)) as [Htoasts [Hsent _]].
  split.
  - exact Htoasts.
  - cbv zeta. rewrite Hsent. reflexivity.
Defined.

Lemma stopped_none_iff (items : list value) :
  stopped items = None <-> visited items = items.
Proof.
  induction items as [|r rest IH]; simpl; [tauto|].
  destruct (passes r).
  - rewrite IH. split; [now intros ->|intros H; now injection H].
  - split; discriminate.
Qed.

Lemma visited_pass (items : list value) :
  Forall (fun r => passes r = true) (visited items).
Proof.
  induction items as [|r rest IH]; simpl; [constructor|].
  destruct (passes r) eqn:Hr; now constructor.
Qed.

Lemma next_returned (c : Api.Call) (w : World) (v : value) :
  Api.next c w = Returned v ->
  exists statusText,
    network w (length (sent w)) (Api.request_of c)
    = Responded (mkResponse true statusText (Parsed v)).
Proof.
  unfold Api.next, Api.settle.
  destruct (network w (length (sent w)) (Api.request_of c)) as [[o st j]|e];
    [|discriminate].
  cbn [ok json statusText]. destruct o; [|discriminate].
  destruct j; [|discriminate].
  intros H. injection H as ->. now exists st.
Qed.

(** C1, as amended: when the upload answers with an array of results,
    [handleUpload] goes through them in order and classifies each result it
    gets past by its [status]. A ['success'] result adds the success toast
    ['Uploaded: <filename> (<chunks> chunks)'] and counts as a success, an
    ['error'] result adds the error toast ['Error: <filename> - <message>'],
    a result with any other status, or none, adds no toast and changes
    nothing, and a ['duplicate'] result stores itself as [duplicateInfo] and
    as [pendingFile] the first of the uploaded files whose name is the
    result's [filename], or [undefined] when there is none; of several
    duplicates the last one stays. The loop does not get past a [null]
    result, nor past a ['success'] or ['error'] result one of whose toast
    values has no text: it stops there, the results from there on are not
    classified, and the only further toast is ['Upload failed: '] with the
    TypeError's message. When the loop gets past every result, the toast
    ['Upload complete: n files processed'] follows exactly when no result
    is a duplicate, [n] being the number of ['success'] results, and the
    documents and statistics are requested again exactly when [n] is
    positive. *)
Theorem handleUpload_classifies_results
    (files : list File) (items : list value) (m : Machine) :
  Api.next (Api.UploadPDFs files) (world m) = Returned (VArr items) ->
  let m' := snd (handleUpload files m) in
  let seen := visited items in
  let n := count_status "success" items in
  map toast_view (toasts (app m')) =
    map toast_view (toasts (app m))
    ++ flat_map result_toasts seen
    ++ match stopped items with
       | Some r => [(VStr (lit "Upload failed: " ++ err_message (stop_error r)),
                     lit "error")]
       | None =>
           if count_status "duplicate" items =? 0
           then [(VStr (lit "Upload complete: " ++ count_text n
                        ++ lit " files processed"), lit "success")]
           else []
       end
  /\ sent (world m') =
       sent (world m)
       ++ Api.request_of (Api.UploadPDFs files)
       :: match stopped items with
          | Some _ => []
          | None =>
              if 0 <? n
              then [Api.request_of Api.GetDocuments; Api.request_of Api.GetStats]
              else []
          end
  /\ (forall r, In r seen ->
        (has_status "success" r = true ->
         exists filename chunks,
           ToString (prop r (lit "filename")) = Returned filename
           /\ ToString (prop r (lit "chunks")) = Returned chunks
           /\ result_toasts r =
                [(VStr (lit "Uploaded: " ++ filename ++ lit " (" ++ chunks
                        ++ lit " chunks)"), lit "success")])
        /\ (has_status "error" r = true ->
            exists filename message,
              ToString (prop r (lit "filename")) = Returned filename
              /\ ToString (prop r (lit "message")) = Returned message
              /\ result_toasts r =
                   [(VStr (lit "Error: " ++ filename ++ lit " - " ++ message),
                     lit "error")])
        /\ (has_status "success" r = false -> has_status "error" r = false ->
            result_toasts r = []))
  /\ match last_duplicate seen with
     | Some d =>
         duplicateInfo (app m') = d
         /\ match pendingFile (app m') with
            | FSome f =>
                exists earlier later,
                  files = earlier ++ f :: later
                  /\ prop d (lit "filename") = VStr (name f)
                  /\ Forall (fun g => prop d (lit "filename") <> VStr (name g)) earlier
            | FUndefined =>
                Forall (fun g => prop d (lit "filename") <> VStr (name g)) files
            | FNull => False
            end
     | None => slot m' = slot m
     end
  /\ (forall r counts s,
        nullish r = false ->
        has_status "success" r = false ->
        has_status "duplicate" r = false ->
        has_status "error" r = false ->
        handleUpload_result files r counts s = (Returned counts, s))
  /\ (forall r, In r items ->
        passes r = false <->
        nullish r = true
        \/ (has_status "success" r = true
            /\ (printable (prop r (lit "filename")) = false
                \/ printable (prop r (lit "chunks")) = false))
        \/ (has_status "error" r = true
            /\ (printable (prop r (lit "filename")) = false
                \/ printable (prop r (lit "message")) = false)))
  /\ (stopped items = None <-> seen = items).
Proof.
  intros Hnext m' seen n.
  destruct (@handleUpload_items files (VArr items) items m Hnext (fun s => eq_refl))
    as [Htoasts Hsent].
  refine (conj Htoasts (conj Hsent (conj _ (conj _ (conj _ (conj _ _)))))).
  - intros r Hr. apply result_toasts_texts.
    pose proof (visited_pass items) as Hall. rewrite Forall_forall in Hall.
    now apply Hall.
  - destruct (next_returned _ _ Hnext) as [statusText Hnet].
    pose proof (AppFacts.handleUpload_slot files m Hnet) as Hslot.
    fold m' in Hslot. fold seen in Hslot.
    destruct (last_duplicate seen) as [d|]; [|exact Hslot].
    unfold slot in Hslot. injection Hslot as Hinfo Hfile.
    split; [exact Hinfo|]. rewrite Hfile. apply AppFacts.find_file_spec.
  - intros r [sc dc] s Hnull Hs Hd He.
    rewrite AppFacts.handleUpload_result_run.
    + now rewrite Hs, Hd, He.
    + unfold passes. now rewrite Hnull, Hs, Hd, He.
  - intros r _. unfold passes.
    destruct (nullish r); [split; [now left|reflexivity]|].
    destruct (has_status "success" r) eqn:Hs.
    { rewrite (@has_status_exclusive "success" "error" r) by (discriminate || exact Hs).
      rewrite andb_false_iff. split.
      - intros H. right. left. now split.
      - intros [H|[[_ H]|[H _]]]; [discriminate|exact H|discriminate]. }
    destruct (has_status "duplicate" r) eqn:Hd.
    { rewrite (@has_status_exclusive "duplicate" "error" r) by (discriminate || exact Hd).
      split; [discriminate|].
      intros [H|[[H _]|[H _]]]; discriminate. }
    destruct (has_status "error" r).
    + rewrite andb_false_iff. split.
      * intros H. right. right. now split.
      * intros [H|[[H _]|[_ H]]]; [discriminate|discriminate|exact H].
    + split; [discriminate|].
      intros [H|[[H _]|[H _]]]; discriminate.
  - apply stopped_none_iff.
Qed.

(** A batch in which [a.pdf] was ingested and [b.pdf] is a duplicate: the
    success toast, no summary, and [b.pdf] pending. *)
Lemma handleUpload_classifies_results_witness :
  let m' := snd (handleUpload [Examples.a_pdf; Examples.b_pdf]
                   (mkMachine initial
                      (Examples.replying
                         (VArr [Examples.ingested_a;
                                Examples.duplicate_of (lit "b.pdf")])))) in
  map toast_view (toasts (app m')) =
    [(VStr (lit "Uploaded: a.pdf (3 chunks)"), lit "success")]
  /\ duplicateInfo (app m') = Examples.duplicate_of (lit "b.pdf")
  /\ pendingFile (app m') = FSome Examples.b_pdf.
Proof.
  pose proof (@handleUpload_classifies_results [Examples.a_pdf; Examples.b_pdf]
                [Examples.ingested_a; Examples.duplicate_of (lit "b.pdf")]
                (mkMachine initial
                   (Examples.replying
                      (VArr [Examples.ingested_a;
                             Examples.duplicate_of (lit "b.pdf")])))
                eq_refl) as [Htoasts [_ [_ [[Hinfo _] _]]]].
  refine (conj Htoasts (conj Hinfo _)).
  reflexivity.
Defined.

(** C1, as stated, fails: a ['success'] result need not add a success
    toast. When its [filename] is a JSON object with a property
    ['toString'], the template literal of the toast throws, and the one
    toast added is ['Upload failed: '] with the TypeError's message. *)
Lemma success_result_without_success_toast :
  ~ (forall (files : list File) (items : list value) (m : Machine),
        Api.next (Api.UploadPDFs files) (world m) = Returned (VArr items) ->
        forall r, In r items -> has_status "success" r = true ->
        exists message,
          In (VStr message, lit "success")
             (map toast_view (toasts (app (snd (handleUpload files m)))))).
Proof.
  intros H.
  destruct (H [Examples.a_pdf] [Examples.boxed_name]
              (mkMachine initial (Examples.replying (VArr [Examples.boxed_name])))
              eq_refl Examples.boxed_name (or_introl eq_refl) eq_refl)
    as [message Hin].
  cbn in Hin. destruct Hin as [Hin|[]]. discriminate Hin.
Qed.

End UploadFacts.

(* ================================================================== *)
(** * App: toasts, refresh, questions, deletion, start-up *)
(* ================================================================== *)

Module AppBehaviour.

Import App JsFacts.

Lemma next_after_log (c : Api.Call) (r : Request) (w : World) :
  Api.next c (log_request r w) =
  Api.settle c (network w (S (length (sent w))) (Api.request_of c)).
Proof.
  unfold Api.next, log_request. cbn [network sent].
  now rewrite length_app, Nat.add_1_r.
Qed.

(** X1: a toast's id is the reading of [Date.now()] when it was added, and
    [removeToast] removes every toast with the id given. So of two toasts
    added one after the other, closing the first leaves the second exactly
    when the clock moved between the two readings; otherwise both go. In
    either case no toast with the closed id is left, and the toasts with
    other ids keep their order. *)
Theorem removeToast_closes_all_with_same_id
    (message1 message2 : value) (type1 type2 : jsstring) (m : Machine) :
  let id1 := clock (world m) (clock_reads (world m)) in
  let id2 := clock (world m) (S (clock_reads (world m))) in
  let m' := snd ((addToast message1 type1 ;;;
                  addToast message2 type2 ;;;
                  removeToast id1) m) in
  toasts (app m') =
    filter (fun t => negb (toast_id t =? id1)%Z) (toasts (app m))
    ++ (if (id2 =? id1)%Z then [] else [mkToast id2 message2 type2])
  /\ Forall (fun t => toast_id t <> id1) (toasts (app m')).
Proof.
  intros id1 id2 m'.
  assert (Htoasts : toasts (app m') =
            filter (fun t => negb (toast_id t =? id1)%Z) (toasts (app m))
            ++ (if (id2 =? id1)%Z then [] else [mkToast id2 message2 type2])).
  { subst m'. unfold bind. rewrite !AppFacts.addToast_run.
    cbn [snd removeToast setToasts update modify app world toasted pushToast
         toasts tick clock clock_reads].
    fold id1. fold id2. rewrite <- app_assoc, filter_app. cbn [filter List.app toast_id].
    rewrite Z.eqb_refl. cbn [negb].
    destruct (id2 =? id1)%Z; reflexivity. }
  split; [exact Htoasts|].
  rewrite Htoasts. apply Forall_app. split.
  - apply Forall_forall. intros t Ht. apply filter_In in Ht as [_ Ht].
    apply negb_true_iff, Z.eqb_neq in Ht. exact Ht.
  - destruct (id2 =? id1)%Z eqn:E; [constructor|].
    apply Z.eqb_neq in E. repeat constructor. exact E.
Qed.

(** X2: [refreshData] never throws, issues the two requests for the
    documents and the statistics, in this order, and either writes both
    [documents] and [stats] (both requests succeeded) or neither; no other
    cell changes. *)
Theorem refreshData_all_or_nothing (m : Machine) :
  let n := length (sent (world m)) in
  let docs := Api.settle Api.GetDocuments
                (network (world m) n (Api.request_of Api.GetDocuments)) in
  let statsData := Api.settle Api.GetStats
                     (network (world m) (S n) (Api.request_of Api.GetStats)) in
  fst (refreshData m) = Returned tt
  /\ sent (world (snd (refreshData m))) =
       sent (world m) ++ [Api.request_of Api.GetDocuments; Api.request_of Api.GetStats]
  /\ app (snd (refreshData m)) =
       match docs, statsData with
       | Returned docs, Returned statsData => withData docs statsData (app m)
       | _, _ => app m
       end.
Proof.
  intros n docs statsData. rewrite Runs.refreshData_run.
  cbn [fst snd app world]. rewrite next_after_log.
  fold n. fold statsData. unfold Api.next. fold n. fold docs.
  split; [reflexivity|split; [|reflexivity]].
  unfold log_request. cbn [sent]. now rewrite <- app_assoc.
Qed.

(** X6: [handleAsk] issues one request, for the question with the
    default [top_k], never throws and leaves [isAsking] false. When the
    request yields a result, [answer] and [sources] are that result's
    properties of these names ([undefined] when missing) and no toast is
    added; when it fails, or yields [null], the previous answer and sources
    are gone ([answer] is the empty string, [sources] the empty array) and
    one toast of type ['error'] shows ['Error: '] and the message. *)
Theorem handleAsk_outcome (question : jsstring) (m : Machine) :
  let m' := snd (handleAsk question m) in
  let failed (e : JsError) :=
    answer (app m') = VStr []
    /\ sources (app m') = VArr []
    /\ map toast_view (toasts (app m')) =
         map toast_view (toasts (app m))
         ++ [(VStr (lit "Error: " ++ err_message e), lit "error")] in
  fst (handleAsk question m) = Returned tt
  /\ isAsking (app m') = false
  /\ sent (world m') =
       sent (world m) ++ [Api.request_of (Api.AskQuestion question None)]
  /\ match Api.next (Api.AskQuestion question None) (world m) with
     | Returned result =>
         if nullish result
         then failed (TypeError_null_property result (lit "answer"))
         else answer (app m') = prop result (lit "answer")
              /\ sources (app m') = prop result (lit "sources")
              /\ toasts (app m') = toasts (app m)
     | Thrown e => failed e
     end.
Proof.
  intros m' failed. subst failed m'.
  remember (handleAsk question m) as run eqn:Hrun.
  unfold handleAsk, try_finally, try_catch, bind in Hrun.
  cbn [setIsAsking setAnswer setSources update modify app world fst snd] in Hrun.
  change (Api.askQuestion question None)
    with (Api.run (Api.AskQuestion question None)) in Hrun.
  rewrite Runs.in_world_run in Hrun by reflexivity. cbn [app world] in Hrun.
  destruct (Api.next (Api.AskQuestion question None) (world m)) as [result|e].
  - unfold get_prop in Hrun. destruct (nullish result) eqn:Hnull;
      cbn -[lit Api.request_of List.app] in Hrun; subst run;
      cbn -[lit Api.request_of List.app]; rewrite ?map_app; repeat split.
  - cbn -[lit Api.request_of List.app] in Hrun. subst run.
    cbn -[lit Api.request_of List.app]. rewrite ?map_app. repeat split.
Qed.

(** X7: [handleDelete] first builds the question it asks the user, which
    names the file in double quotes. When the file name has no text, the
    handler throws at that point: nothing is asked, requested or changed.
    Otherwise the user is asked, and the handler returns normally. When
    the user declines, nothing is requested and nothing changes. When the
    user accepts, the URL of the request is built from the id; if the id
    has no text, no request is issued and one toast of type ['error'] shows
    ['Error deleting: '] and the TypeError's message. Otherwise one DELETE
    request goes to [/documents/] followed by the id; if it succeeds, one
    toast shows ['Deleted: '] and the file name and the documents and
    statistics are requested again; if it fails, one toast of type
    ['error'] shows ['Error deleting: '] and the message and nothing more is
    requested. Whenever the user accepted, [isDeleting] ends false. *)
Theorem handleDelete_outcome
    (confirm : jsstring -> bool) (docId filename : value) (m : Machine) :
  let run := handleDelete confirm docId filename m in
  let m' := snd run in
  let failed (e : JsError) (requests : list Request) :=
    sent (world m') = sent (world m) ++ requests
    /\ map toast_view (toasts (app m')) =
         map toast_view (toasts (app m))
         ++ [(VStr (lit "Error deleting: " ++ err_message e), lit "error")]
    /\ documents (app m') = documents (app m)
    /\ stats (app m') = stats (app m) in
  match ToString filename with
  | Thrown e => run = (Thrown e, m)
  | Returned name =>
      let question := lit "Are you sure you want to delete " ++ dquote
                      ++ name ++ dquote ++ lit "?" in
      fst run = Returned tt
      /\ (confirm question = false -> m' = m)
      /\ (confirm question = true ->
          isDeleting (app m') = false
          /\ match ToString docId with
             | Thrown e => failed e []
             | Returned id =>
                 let delete := mkRequest (lit "http://localhost:8000/documents/" ++ id)
                                         (lit "DELETE") [] NoBody in
                 match Api.settle (Api.DeleteDocument docId)
                                  (network (world m) (length (sent (world m))) delete) with
                 | Returned _ =>
                     sent (world m') =
                       sent (world m)
                       ++ [delete; Api.request_of Api.GetDocuments;
                           Api.request_of Api.GetStats]
                     /\ map toast_view (toasts (app m')) =
                          map toast_view (toasts (app m))
                          ++ [(VStr (lit "Deleted: " ++ name), lit "success")]
                 | Thrown e => failed e [delete]
                 end
             end)
  end.
Proof.
  intros run m' failed. subst failed m'.
  remember run as result eqn:Hrun. subst run.
  unfold handleDelete in Hrun. unfold bind at 1 in Hrun.
  unfold to_string at 1 in Hrun.
  destruct (ToString filename) as [name|e] eqn:Hname; [|exact Hrun].
  cbn [ret] in Hrun.
  destruct (confirm (lit "Are you sure you want to delete " ++ dquote
                     ++ name ++ dquote ++ lit "?")) eqn:Hconfirm;
    cbn [negb] in Hrun; cbv zeta; rewrite Hconfirm.
  - unfold try_finally, try_catch, bind, to_string in Hrun.
    rewrite Hname in Hrun.
    cbn [setIsDeleting update modify app world fst snd ret] in Hrun.
    change (Api.deleteDocument docId) with (Api.run (Api.DeleteDocument docId)) in Hrun.
    destruct (ToString docId) as [id|e] eqn:Hid.
    + assert (Hearly : Api.stops_early (Api.DeleteDocument docId) = None)
        by (cbn; now rewrite Hid).
      assert (Hrequest : Api.request_of (Api.DeleteDocument docId) =
                         mkRequest (lit "http://localhost:8000/documents/" ++ id)
                                   (lit "DELETE") [] NoBody)
        by (unfold Api.request_of, Api.text; now rewrite Hid).
      rewrite Runs.in_world_run in Hrun by exact Hearly. cbn [app world] in Hrun.
      unfold Api.next in Hrun. rewrite Hrequest in Hrun.
      destruct (Api.settle (Api.DeleteDocument docId) _) as [answer|e].
      * rewrite AppFacts.addToast_run, Runs.refreshData_run in Hrun.
        cbn [app world toasted] in Hrun. subst result. cbn [fst snd].
        split; [reflexivity|split; [discriminate|intros _]].
        cbn [setIsDeleting update modify app world fst snd isDeleting].
        split; [reflexivity|split].
        -- unfold log_request, tick. cbn [sent]. rewrite <- !app_assoc. reflexivity.
        -- cbn [toasts].
           match goal with
           | |- context [match ?a with Returned _ => _ | Thrown _ => _ end] =>
               destruct a as [docs|e1]
           end; [|cbn; now rewrite map_app].
           match goal with
           | |- context [match ?a with Returned _ => _ | Thrown _ => _ end] =>
               destruct a as [statsData|e2]
           end; cbn; now rewrite map_app.
      * rewrite AppFacts.addToast_run in Hrun. subst result.
        cbn -[lit Api.request_of List.app].
        split; [reflexivity|split; [discriminate|intros _]].
        rewrite map_app. repeat split.
    + assert (Hearly : Api.stops_early (Api.DeleteDocument docId) = Some e)
        by (cbn; now rewrite Hid).
      rewrite (Runs.in_world_stops_early _ _ Hearly) in Hrun.
      rewrite AppFacts.addToast_run in Hrun. subst result.
      cbn -[lit Api.request_of List.app].
      split; [reflexivity|split; [discriminate|intros _]].
      rewrite map_app, app_nil_r. repeat split.
  - unfold ret in Hrun. subst result. cbn [fst snd].
    split; [reflexivity|split; [reflexivity|discriminate]].
Qed.

(** Deleting [a.pdf] while the server is down: the user is asked, one
    request is issued, and the failure is shown. Deleting a document whose
    id is a JSON object with a property ['toString']: no request, and the
    TypeError is shown. *)
Lemma handleDelete_outcome_witness :
  (let m' := snd (handleDelete (fun _ => true) (VStr (lit "doc-1")) (VStr (lit "a.pdf"))
                    (mkMachine initial Examples.server_down)) in
   isDeleting (app m') = false
   /\ map url (sent (world m')) = [lit "http://localhost:8000/documents/doc-1"]
   /\ map toast_view (toasts (app m')) =
        [(VStr (lit "Error deleting: Failed to fetch"), lit "error")])
  /\ (let m' := snd (handleDelete (fun _ => true)
                       (VObj [(lit "toString", VNull)]) (VStr (lit "a.pdf"))
                       (mkMachine initial Examples.server_down)) in
      sent (world m') = []
      /\ map toast_view (toasts (app m')) =
           [(VStr (lit "Error deleting: Cannot convert object to primitive value"),
             lit "error")]).
Proof.
  split.
  - destruct (proj2 (proj2 (@handleDelete_outcome (fun _ => true)
                              (VStr (lit "doc-1")) (VStr (lit "a.pdf"))
                              (mkMachine initial Examples.server_down)))
                    eq_refl) as [Hdel [Hsent [Htoasts _]]].
    cbv zeta. rewrite Hdel, Hsent, Htoasts. repeat split.
  - destruct (proj2 (proj2 (@handleDelete_outcome (fun _ => true)
                              (VObj [(lit "toString", VNull)]) (VStr (lit "a.pdf"))
                              (mkMachine initial Examples.server_down)))
                    eq_refl) as [_ [Hsent [Htoasts _]]].
    cbv zeta. rewrite Hsent, Htoasts. split; reflexivity.
Defined.

(** X8: at start-up the health check goes first; if it fails nothing
    else is requested. Otherwise the documents and the statistics are
    requested. [backendConnected] ends true exactly when all three requests
    succeeded, in which case the documents and statistics are stored and
    the toast says ['Connected to RAG backend']; in every other case, also
    after a successful health check, it ends false, the documents and
    statistics stay as they were and the toast of type ['error'] says that
    the backend cannot be reached. The effect never throws. *)
Theorem initializeApp_outcome (m : Machine) :
  let n := length (sent (world m)) in
  let docs := Api.settle Api.GetDocuments
                (network (world m) (S n) (Api.request_of Api.GetDocuments)) in
  let statsData := Api.settle Api.GetStats
                     (network (world m) (S (S n)) (Api.request_of Api.GetStats)) in
  let m' := snd (initializeApp m) in
  let disconnected :=
    backendConnected (app m') = false
    /\ documents (app m') = documents (app m)
    /\ stats (app m') = stats (app m)
    /\ map toast_view (toasts (app m')) =
         map toast_view (toasts (app m))
         ++ [(VStr (lit "Cannot connect to backend. Make sure the server is running."),
              lit "error")] in
  fst (initializeApp m) = Returned tt
  /\ match Api.next Api.HealthCheck (world m) with
     | Thrown _ =>
         sent (world m') = sent (world m) ++ [Api.request_of Api.HealthCheck]
         /\ disconnected
     | Returned _ =>
         sent (world m') =
           sent (world m)
           ++ [Api.request_of Api.HealthCheck; Api.request_of Api.GetDocuments;
               Api.request_of Api.GetStats]
         /\ match docs, statsData with
            | Returned docs, Returned statsData =>
                backendConnected (app m') = true
                /\ documents (app m') = docs
                /\ stats (app m') = statsData
                /\ map toast_view (toasts (app m')) =
                     map toast_view (toasts (app m))
                     ++ [(VStr (lit "Connected to RAG backend"), lit "success")]
            | _, _ => disconnected
            end
     end.
Proof.
  intros n docs statsData m' disconnected. subst disconnected m'.
  remember (initializeApp m) as run eqn:Hrun.
  unfold initializeApp, getDocuments_and_getStats, try_catch, bind, attempt in Hrun.
  change Api.healthCheck with (Api.run Api.HealthCheck) in Hrun.
  change Api.getDocuments with (Api.run Api.GetDocuments) in Hrun.
  change Api.getStats with (Api.run Api.GetStats) in Hrun.
  rewrite !Runs.in_world_run in Hrun by reflexivity.
  cbn [setBackendConnected update modify app world fst snd] in Hrun.
  destruct (Api.next Api.HealthCheck (world m)) as [health|e].
  - rewrite !Runs.in_world_run in Hrun by reflexivity. cbn [app world] in Hrun.
    rewrite !next_after_log in Hrun.
    replace (network (log_request (Api.request_of Api.HealthCheck) (world m)))
      with (network (world m)) in Hrun by reflexivity.
    replace (length (sent (log_request (Api.request_of Api.HealthCheck) (world m))))
      with (S n) in Hrun
      by (unfold log_request; cbn [sent]; now rewrite length_app, Nat.add_1_r).
    fold n in Hrun. fold docs in Hrun. fold statsData in Hrun.
    destruct docs as [d|e1]; destruct statsData as [st|e2];
      cbn -[lit Api.request_of List.app] in Hrun; subst run;
      cbn -[lit Api.request_of List.app]; rewrite ?map_app, <- ?app_assoc;
      repeat split.
  - cbn -[lit Api.request_of List.app] in Hrun. subst run.
    cbn -[lit Api.request_of List.app]. rewrite ?map_app. repeat split.
Qed.

End AppBehaviour.

(* ================================================================== *)
(** * The components inside the application *)
(* ================================================================== *)

Module Wiring.

Import App.

Lemma appends_handleDuplicateAction_result (result : value) :
  appends (handleDuplicateAction_result result).
Proof.
  unfold handleDuplicateAction_result.
  apply Runs.appends_bind; [apply Runs.appends_get_prop|intros status].
  destruct (is_str status (lit "success")).
  { apply Runs.appends_bind; [apply Runs.appends_addToast|intros].
    apply Runs.appends_refreshData. }
  destruct (is_str status (lit "cancelled")); apply Runs.appends_addToast.
Qed.

(** With a file pending, [handleDuplicateAction] sends the resolution
    request first. *)
Lemma handleDuplicateAction_sends (action : jsstring) (file : File) (m : Machine) :
  pendingFile (app m) = FSome file ->
  exists later,
    sent (world (snd (handleDuplicateAction action m))) =
      sent (world m) ++ Api.request_of (Api.HandleDuplicate file action) :: later.
Proof.
  intros Hfile.
  unfold handleDuplicateAction. unfold bind at 1. unfold gets. rewrite Hfile.
  unfold bind at 1. unfold setIsUploading at 1. unfold update, modify.
  set (m0 := mkMachine _ (world m)).
  set (m1 := mkMachine (app m0)
                       (log_request (Api.request_of (Api.HandleDuplicate file action))
                                    (world m))).
  set (handler := fun error : JsError =>
                    addToast (VStr (lit "Error: " ++ err_message error)) (lit "error")).
  set (cleanup := setDuplicateInfo VNull ;;; setPendingFile FNull ;;; setIsUploading false).
  set (rest := fun s : Machine =>
                 match Api.next (Api.HandleDuplicate file action) (world m) with
                 | Returned result => handleDuplicateAction_result result s
                 | Thrown e => (Thrown e, s)
                 end).
  assert (Heq : try_finally (try_catch (handleDuplicateAction_try file action) handler)
                            cleanup m0
                = try_finally (try_catch rest handler) cleanup m1).
  { unfold try_finally, try_catch, handleDuplicateAction_try. unfold bind at 1.
    change (Api.handleDuplicate file action)
      with (Api.run (Api.HandleDuplicate file action)).
    rewrite Runs.in_world_run by reflexivity. subst rest. cbn beta.
    change (world m0) with (world m). fold m1.
    destruct (Api.next (Api.HandleDuplicate file action) (world m)); reflexivity. }
  rewrite Heq.
  assert (Happ : appends (try_finally (try_catch rest handler) cleanup)).
  { apply Runs.appends_try_finally.
    - apply Runs.appends_try_catch.
      + intros s. subst rest. cbn beta.
        destruct (Api.next (Api.HandleDuplicate file action) (world m)).
        * apply appends_handleDuplicateAction_result.
        * exists []. now rewrite app_nil_r.
      + intros e. apply Runs.appends_addToast.
    - subst cleanup.
      apply Runs.appends_bind; [apply Runs.appends_update|intros].
      apply Runs.appends_bind; [apply Runs.appends_update|intros].
      apply Runs.appends_update. }
  destruct (Happ m1) as [later [Hsent _]].
  exists later. rewrite Hsent. subst m1. cbn [world log_request sent].
  now rewrite <- app_assoc.
Qed.

(** X9: the duplicate modal of the application. A click on one of its
    buttons, when a file is pending and no upload is running, sends the
    resolution request for that file with the button's action first, and
    afterwards the modal is no longer rendered. When no file is pending
    (the duplicate result named none of the uploaded files), or while the
    buttons are disabled, a click changes nothing: the same modal is
    rendered again, and with no file pending no button can ever close
    it. *)
Theorem modal_click_resolves_or_changes_nothing
    (m : Machine) (modal : DuplicateModal.Modal) (b : DuplicateModal.Button) :
  DuplicateModal.DuplicateModal (duplicateInfo (app m)) (isUploading (app m)) = Some modal ->
  In b (DuplicateModal.modal_actions modal) ->
  let m' := snd (DuplicateModal.click handleDuplicateAction b m) in
  (forall file,
      pendingFile (app m) = FSome file ->
      isUploading (app m) = false ->
      DuplicateModal.DuplicateModal (duplicateInfo (app m')) (isUploading (app m')) = None
      /\ exists later,
           sent (world m') =
             sent (world m)
             ++ Api.request_of (Api.HandleDuplicate file (DuplicateModal.onClick b))
             :: later)
  /\ (no_file (pendingFile (app m)) = true \/ isUploading (app m) = true ->
      m' = m
      /\ DuplicateModal.DuplicateModal (duplicateInfo (app m')) (isUploading (app m'))
           = Some modal).
Proof.
  intros Hmodal Hb m'.
  assert (Hdisabled : DuplicateModal.disabled b = isUploading (app m)).
  { unfold DuplicateModal.DuplicateModal in Hmodal.
    destruct (truthy (duplicateInfo (app m))); [|discriminate].
    cbn [negb] in Hmodal. injection Hmodal as <-. cbn in Hb.
    destruct Hb as [<-|[<-|[<-|[]]]]; reflexivity. }
  split.
  - intros file Hfile Hidle. subst m'.
    unfold DuplicateModal.click. rewrite Hdisabled, Hidle. unfold detached.
    destruct (AppFacts.handleDuplicateAction_pending_resets
                (DuplicateModal.onClick b) m Hfile) as [Hinfo Hup].
    destruct (handleDuplicateAction_sends (DuplicateModal.onClick b) m Hfile)
      as [later Hsent].
    destruct (handleDuplicateAction (DuplicateModal.onClick b) m) as [r m1].
    cbn [snd] in *. split.
    + unfold DuplicateModal.DuplicateModal. rewrite Hinfo. reflexivity.
    + exists later. exact Hsent.
  - intros Hstuck.
    assert (Hsame : m' = m).
    { subst m'. unfold DuplicateModal.click. rewrite Hdisabled.
      destruct (isUploading (app m)) eqn:Hup; [reflexivity|].
      destruct Hstuck as [Hnone|Hup']; [|discriminate].
      unfold detached, handleDuplicateAction, bind, gets.
      destruct (pendingFile (app m)); try discriminate; reflexivity. }
    split; [exact Hsame|]. rewrite Hsame. exact Hmodal.
Qed.

(** Cancelling a pending duplicate of [a.pdf] closes the modal; with
    the unmatched duplicate the same click changes nothing. *)
Lemma modal_click_resolves_or_changes_nothing_witness :
  let cancel := DuplicateModal.mkButton (lit "btn btn-danger") (lit "cancel") false
                                        (lit "Cancel") in
  (let m' := snd (DuplicateModal.click handleDuplicateAction cancel
                    (Examples.pending
                       (Responded (mkResponse true (lit "OK")
                                     (Parsed (Examples.resolution "cancelled")))))) in
   DuplicateModal.DuplicateModal (duplicateInfo (app m')) (isUploading (app m')) = None)
  /\ snd (DuplicateModal.click handleDuplicateAction cancel Examples.unmatched_duplicate)
     = Examples.unmatched_duplicate.
Proof.
  intros cancel. split.
  - exact (proj1 (proj1 (@modal_click_resolves_or_changes_nothing
                           (Examples.pending
                              (Responded (mkResponse true (lit "OK")
                                            (Parsed (Examples.resolution "cancelled")))))
                           _ cancel eq_refl
                           (or_intror (or_intror (or_introl eq_refl))))
                        Examples.a_pdf eq_refl eq_refl)).
  - exact (proj1 (proj2 (@modal_click_resolves_or_changes_nothing
                           Examples.unmatched_duplicate
                           _ cancel eq_refl
                           (or_intror (or_intror (or_introl eq_refl))))
                        (or_introl eq_refl))).
Defined.

(** X10: the upload button of the application. With an empty selection
    nothing is requested and nothing changes. Otherwise the upload request
    goes out first, carrying exactly the selected files in their order, and
    when the handler is done the selection is empty and [isUploading] is
    false, whatever the server answered: a failed upload also clears the
    selection. The handler never throws. *)
Theorem upload_button_end_to_end (st : PDFUpload.State) (m : Machine) :
  let run := PDFUpload.handleUpload handleUpload (st, m) in
  fst run = Returned tt
  /\ (PDFUpload.selectedFiles st = [] -> snd run = (st, m))
  /\ (PDFUpload.selectedFiles st <> [] ->
      PDFUpload.selectedFiles (fst (snd run)) = []
      /\ isUploading (app (snd (snd run))) = false
      /\ exists later,
           sent (world (snd (snd run))) =
             sent (world m)
             ++ mkRequest (lit "http://localhost:8000/upload-pdfs") (lit "POST") []
                          (FormBody (map (fun file => (lit "files", FormFile file))
                                         (PDFUpload.selectedFiles st)))
             :: later).
Proof.
  intros run. subst run. rewrite PDFUploadFacts.handleUpload_run.
  destruct (PDFUpload.selectedFiles st) as [|f fs] eqn:Hsel.
  - cbn [fst snd]. split; [reflexivity|split; [reflexivity|]].
    intros H. now destruct H.
  - destruct (UploadFacts.handleUpload_returns (f :: fs) m) as [Hret [Hup Hsent]].
    destruct (handleUpload (f :: fs) m) as [r m1]. cbn [fst snd] in *.
    subst r. cbn [fst snd].
    split; [reflexivity|split; [discriminate|intros _]].
    split; [|split; assumption].
    unfold PDFUpload.clearFiles. cbn.
    destruct (PDFUpload.fileInputRef st); reflexivity.
Qed.

(** The server is down: the upload of the selected [a.pdf] fails, and the
    selection is empty afterwards. *)
Lemma upload_button_end_to_end_witness :
  let run := PDFUpload.handleUpload handleUpload
               (PDFUpload.mkState false [Examples.a_pdf] None,
                mkMachine initial Examples.server_down) in
  PDFUpload.selectedFiles (fst (snd run)) = []
  /\ isUploading (app (snd (snd run))) = false.
Proof.
  destruct (proj2 (proj2 (upload_button_end_to_end
                            (PDFUpload.mkState false [Examples.a_pdf] None)
                            (mkMachine initial Examples.server_down)))
                  ltac:(discriminate)) as [Hsel [Hup _]].
  split; assumption.
Defined.

End Wiring.

(* ================================================================== *)
(** * QuestionAnswer and PDFUpload: more of the components *)
(* ================================================================== *)

Module ComponentFacts.

Import JsFacts.

Lemma trimStart_fixed (s : jsstring) :
  (forall c rest, s = c :: rest -> is_space c = false) -> trimStart s = s.
Proof.
  destruct s as [|c rest]; intros H; simpl; [reflexivity|].
  now rewrite (H c rest eq_refl).
Qed.

Lemma trimEnd_fixed (s : jsstring) :
  (forall init c, s = init ++ [c] -> is_space c = false) -> trimEnd s = s.
Proof.
  intros H. unfold trimEnd. rewrite trimStart_fixed.
  - apply rev_involutive.
  - intros c rest Hrev. apply (H (rev rest) c).
    rewrite <- (rev_involutive s), Hrev. reflexivity.
Qed.

Lemma trim_idempotent (s : jsstring) : trim (trim s) = trim s.
Proof.
  unfold trim at 1. rewrite trimStart_fixed.
  - apply trimEnd_fixed. intros init c. apply trim_last.
  - intros c rest. apply trim_first.
Qed.

(** X11: the Ask button is disabled exactly when a submit would not call
    [onAsk]: both look at the trimmed question and at [isLoading]. What a
    submit passes to [onAsk] is a fixed point of [trim], so typing it back
    and submitting again passes the same string. *)
Theorem ask_button_agrees_with_submit
    (S : Type) (onAsk : jsstring -> M S unit) (isLoading : bool) (e : Event)
    (st : QuestionAnswer.State) (s : S) :
  let q := QuestionAnswer.question st in
  (QuestionAnswer.ask_disabled st isLoading = true ->
     snd (QuestionAnswer.handleSubmit onAsk isLoading e (st, s)) = (st, s))
  /\ (QuestionAnswer.ask_disabled st isLoading = false ->
     snd (QuestionAnswer.handleSubmit onAsk isLoading e (st, s))
       = (st, snd (onAsk (trim q) s))
     /\ snd (QuestionAnswer.handleSubmit onAsk isLoading e
               (QuestionAnswer.mkState (trim q), s))
       = (QuestionAnswer.mkState (trim q), snd (onAsk (trim q) s))).
Proof.
  intros q.
  assert (Hguard : QuestionAnswer.ask_disabled st isLoading
                   = negb (QuestionAnswer.may_ask q isLoading)).
  { unfold QuestionAnswer.ask_disabled, QuestionAnswer.may_ask. subst q.
    destruct (truthy (VStr (trim (QuestionAnswer.question st)))), isLoading;
      reflexivity. }
  rewrite Hguard. split.
  - intros H. apply negb_true_iff in H.
    rewrite QuestionAnswerFacts.handleSubmit_run. fold q. now rewrite H.
  - intros H. apply negb_false_iff in H. split.
    + rewrite QuestionAnswerFacts.handleSubmit_run. fold q. now rewrite H.
    + rewrite QuestionAnswerFacts.handleSubmit_run. cbn [QuestionAnswer.question].
      unfold QuestionAnswer.may_ask in *. rewrite !trim_idempotent. now rewrite H.
Qed.

(** With a padded question the button is enabled and a submit asks the
    trimmed one; so does a submit of the trimmed question itself. *)
Lemma ask_button_agrees_with_submit_witness :
  snd (snd (QuestionAnswer.handleSubmit (@recorder jsstring) false
              (mkEvent (lit "submit") [] false [] [] false false)
              (QuestionAnswer.mkState (lit " why? "), [])))
    = [lit "why?"]
  /\ snd (snd (QuestionAnswer.handleSubmit (@recorder jsstring) false
              (mkEvent (lit "submit") [] false [] [] false false)
              (QuestionAnswer.mkState (lit "why?"), [])))
    = [lit "why?"].
Proof.
  destruct (proj2 (ask_button_agrees_with_submit (@recorder jsstring) false
                     (mkEvent (lit "submit") [] false [] [] false false)
                     (QuestionAnswer.mkState (lit " why? ")) [])
                  eq_refl) as [H1 H2].
  split.
  - rewrite H1. reflexivity.
  - change (lit "why?") with (trim (QuestionAnswer.question
                                     (QuestionAnswer.mkState (lit " why? ")))) at 1.
    rewrite H2. reflexivity.
Defined.

Lemma split_lines_not_nil (s : jsstring) : QuestionAnswer.split_lines s <> [].
Proof.
  induction s as [|c rest IH]; simpl; [discriminate|].
  destruct (N.eqb c 10); [discriminate|].
  destruct (QuestionAnswer.split_lines rest); discriminate.
Qed.

Lemma join_cons_cons (sep p q : jsstring) (rest : list jsstring) :
  join sep (p :: q :: rest) = p ++ sep ++ join sep (q :: rest).
Proof. reflexivity. Qed.

(** Joining the pieces with line feeds gives the string back. *)
Lemma join_split_lines (s : jsstring) :
  join [10%N] (QuestionAnswer.split_lines s) = s.
Proof.
  induction s as [|c rest IH]; [reflexivity|].
  simpl QuestionAnswer.split_lines. destruct (N.eqb c 10) eqn:Hc.
  - apply N.eqb_eq in Hc. subst c.
    destruct (QuestionAnswer.split_lines rest) as [|q lines] eqn:Hsplit.
    + now destruct (split_lines_not_nil rest).
    + rewrite join_cons_cons, IH. reflexivity.
  - destruct (QuestionAnswer.split_lines rest) as [|line lines] eqn:Hsplit.
    + now destruct (split_lines_not_nil rest).
    + destruct lines as [|q lines].
      * simpl in *. now rewrite IH.
      * rewrite join_cons_cons, <- IH. reflexivity.
Qed.

Lemma split_lines_no_line_feed (s : jsstring) :
  Forall (fun piece => ~ In 10%N piece) (QuestionAnswer.split_lines s).
Proof.
  induction s as [|c rest IH]; simpl.
  - repeat constructor. intros [].
  - destruct (N.eqb c 10) eqn:Hc.
    + constructor; [intros []|exact IH].
    + destruct (QuestionAnswer.split_lines rest) as [|line lines].
      * repeat constructor. intros [H|[]]. subst c. discriminate Hc.
      * inversion IH as [|? ? Hline Hlines]; subst. constructor; [|exact Hlines].
        intros [H|H]; [subst c; discriminate Hc|now apply Hline].
Qed.

Lemma split_lines_blank (s : jsstring) :
  blank s -> Forall blank (QuestionAnswer.split_lines s).
Proof.
  induction 1 as [|c rest Hc Hrest IH]; simpl.
  - repeat constructor.
  - destruct (N.eqb c 10).
    + constructor; [constructor|exact IH].
    + destruct (QuestionAnswer.split_lines rest) as [|line lines].
      * repeat constructor. exact Hc.
      * inversion IH as [|? ? Hline Hlines]; subst.
        constructor; [now constructor|exact Hlines].
Qed.

Lemma not_blank_trim (p : jsstring) :
  truthy (VStr (trim p)) = negb (forallb is_space p).
Proof.
  destruct (forallb is_space p) eqn:Hp; simpl.
  - assert (Hblank : blank p).
    { apply Forall_forall. now apply forallb_forall. }
    now rewrite (trim_blank Hblank).
  - destruct (trim p) as [|c rest] eqn:Htrim; [|reflexivity].
    apply trim_empty_blank in Htrim.
    assert (Hall : forallb is_space p = true).
    { apply forallb_forall. now apply Forall_forall. }
    congruence.
Qed.

(** X12: the paragraphs of the answer section. The section is guarded by
    [answer && !isLoading]. For a string answer, the pieces that
    [split] yields are the answer cut at its line feeds: there is at least
    one, none contains a line feed, and joined by line feeds they are the
    answer. The paragraphs are exactly the pieces that are not white space
    only, each as often and in the order in which it occurs, and untrimmed;
    an answer of white space only yields no paragraph. A truthy answer that
    is not a string has no [split]: evaluating the expression throws. *)
Theorem answer_section_paragraphs (answer : jsstring) :
  let pieces := QuestionAnswer.split_lines answer in
  pieces <> []
  /\ join [10%N] pieces = answer
  /\ Forall (fun piece => ~ In 10%N piece) pieces
  /\ QuestionAnswer.answer_paragraphs (VStr answer) =
       Returned (filter (fun piece => negb (forallb is_space piece)) pieces)
  /\ (blank answer -> QuestionAnswer.answer_paragraphs (VStr answer) = Returned [])
  /\ (forall v isLoading,
        QuestionAnswer.answer_shown v isLoading = true <->
        truthy v = true /\ isLoading = false)
  /\ (forall isLoading, QuestionAnswer.answer_shown (VStr []) isLoading = false)
  /\ (forall v, truthy v = true -> (forall s, v <> VStr s) ->
        QuestionAnswer.answer_paragraphs v =
          Thrown (QuestionAnswer.TypeError_not_a_function (lit "answer.split"))).
Proof.
  intros pieces.
  assert (Hparagraphs :
            QuestionAnswer.answer_paragraphs (VStr answer) =
              Returned (filter (fun piece => negb (forallb is_space piece)) pieces)).
  { unfold QuestionAnswer.answer_paragraphs. f_equal.
    apply filter_ext. intros piece. apply not_blank_trim. }
  refine (conj _ (conj _ (conj _ (conj Hparagraphs (conj _ (conj _ (conj _ _))))))).
  - apply split_lines_not_nil.
  - apply join_split_lines.
  - apply split_lines_no_line_feed.
  - intros Hblank. rewrite Hparagraphs. f_equal.
    pose proof (split_lines_blank Hblank) as Hall.
    fold pieces in Hall. clear -Hall.
    induction Hall as [|p rest Hp _ IH]; simpl; [reflexivity|].
    assert (Hspace : forallb is_space p = true).
    { apply forallb_forall. now apply Forall_forall. }
    now rewrite Hspace.
  - intros v isLoading. unfold QuestionAnswer.answer_shown.
    rewrite andb_true_iff, negb_true_iff. reflexivity.
  - reflexivity.
  - intros v Hv Hnot.
    destruct v as [| |b|n|s|items|fields]; try discriminate Hv; try reflexivity.
    now destruct (Hnot s).
Qed.

(** An answer of two paragraphs separated by an empty line; an answer of
    blank lines only; an answer that is a number. *)
Lemma answer_section_paragraphs_witness :
  QuestionAnswer.answer_paragraphs (VStr [82; 65; 71; 10; 10; 32; 105; 115]%N)
  = Returned [[82; 65; 71]%N; [32; 105; 115]%N]
  /\ QuestionAnswer.answer_paragraphs (VStr [32; 10; 9]%N) = Returned []
  /\ QuestionAnswer.answer_paragraphs (VNum (Finite (lit "42")))
     = Thrown (QuestionAnswer.TypeError_not_a_function (lit "answer.split")).
Proof.
  refine (conj _ (conj _ _)).
  - exact (proj1 (proj2 (proj2 (proj2
             (answer_section_paragraphs [82; 65; 71; 10; 10; 32; 105; 115]%N))))).
  - apply (proj1 (proj2 (proj2 (proj2 (proj2
             (answer_section_paragraphs [32; 10; 9]%N)))))).
    repeat constructor.
  - apply (proj2 (proj2 (proj2 (proj2 (proj2 (proj2 (proj2
             (answer_section_paragraphs []))))))) (VNum (Finite (lit "42")))).
    + reflexivity.
    + discriminate.
Defined.

Lemma remove_at_spec {A} (index : nat) (l : list A) :
  PDFUpload.remove_at index l = firstn index l ++ skipn (S index) l.
Proof.
  revert index. induction l as [|x l IH]; intros [|i]; simpl; try reflexivity.
  now rewrite IH.
Qed.

(** X13: [removeFile] removes the file at the index given and nothing
    else: within bounds the selection is the files before the index
    followed by the files after it, one shorter than before; at an index
    past the end nothing changes. Removing the file a one-file change of the
    input has just appended restores the selection. The other cells are
    never touched. *)
Theorem removeFile_removes_one (index : nat) (st : PDFUpload.State) :
  let files := PDFUpload.selectedFiles st in
  PDFUpload.selectedFiles (PDFUpload.removeFile index st)
    = firstn index files ++ skipn (S index) files
  /\ (index < length files ->
      S (length (PDFUpload.selectedFiles (PDFUpload.removeFile index st)))
        = length files)
  /\ (length files <= index -> PDFUpload.removeFile index st = st)
  /\ (forall e file,
        target_files e = [file] ->
        PDFUpload.removeFile (length files) (snd (PDFUpload.handleFileChange e st)) = st)
  /\ PDFUpload.dragActive (PDFUpload.removeFile index st) = PDFUpload.dragActive st
  /\ PDFUpload.fileInputRef (PDFUpload.removeFile index st) = PDFUpload.fileInputRef st.
Proof.
  intros files. subst files. destruct st as [drag files ref].
  unfold PDFUpload.removeFile, PDFUpload.setSelectedFiles.
  cbn [PDFUpload.selectedFiles PDFUpload.dragActive PDFUpload.fileInputRef].
  rewrite remove_at_spec.
  refine (conj eq_refl (conj _ (conj _ (conj _ (conj eq_refl eq_refl))))).
  - intros Hlt. rewrite length_app, length_firstn, length_skipn. lia.
  - intros Hle. rewrite firstn_all2 by exact Hle.
    rewrite skipn_all2 by lia. now rewrite app_nil_r.
  - intros e file He. unfold PDFUpload.handleFileChange, PDFUpload.setSelectedFiles.
    cbn [snd PDFUpload.selectedFiles PDFUpload.dragActive PDFUpload.fileInputRef].
    rewrite He, remove_at_spec.
    rewrite firstn_app, Nat.sub_diag, firstn_all, app_nil_r.
    rewrite skipn_all2 by (rewrite length_app; simpl; lia).
    now rewrite app_nil_r.
Qed.

(** Removing the second of three files; removing past the end. *)
Lemma removeFile_removes_one_witness :
  PDFUpload.selectedFiles
    (PDFUpload.removeFile 1
       (PDFUpload.mkState false [Examples.a_pdf; Examples.notes_txt; Examples.b_pdf] None))
  = [Examples.a_pdf; Examples.b_pdf]
  /\ PDFUpload.removeFile 3
       (PDFUpload.mkState false [Examples.a_pdf; Examples.notes_txt; Examples.b_pdf] None)
     = PDFUpload.mkState false [Examples.a_pdf; Examples.notes_txt; Examples.b_pdf] None.
Proof.
  split.
  - exact (proj1 (removeFile_removes_one 1
                    (PDFUpload.mkState false
                       [Examples.a_pdf; Examples.notes_txt; Examples.b_pdf] None))).
  - apply (proj1 (proj2 (proj2 (removeFile_removes_one 3
                    (PDFUpload.mkState false
                       [Examples.a_pdf; Examples.notes_txt; Examples.b_pdf] None))))).
    simpl. lia.
Defined.

End ComponentFacts.

(* ================================================================== *)
(** * App: answers the handlers do not expect *)
(* ================================================================== *)

Module EdgeFacts.

Import App JsFacts.

Lemma for_of_app {S A B} (body : A -> B -> M S B) (l1 l2 : list A) (acc : B) (s : S) :
  for_of body (l1 ++ l2) acc s = bind (for_of body l1 acc) (for_of body l2) s.
Proof.
  revert acc s. induction l1 as [|x l1 IH]; intros acc s.
  - reflexivity.
  - cbn [List.app for_of]. unfold bind in *.
    destruct (body x acc s) as [[acc'|e] s']; [|reflexivity].
    apply IH.
Qed.

Lemma strings_have_no_status (status : string) (pieces : list jsstring) :
  filter (has_status status) (map VStr pieces) = [].
Proof. induction pieces as [|p pieces IH]; [reflexivity|exact IH]. Qed.

Lemma strings_give_no_toast (pieces : list jsstring) :
  flat_map result_toasts (map VStr pieces) = [].
Proof. induction pieces as [|p pieces IH]; [reflexivity|exact IH]. Qed.

Lemma strings_pass (pieces : list jsstring) :
  Forall (fun r => passes r = true) (map VStr pieces).
Proof. induction pieces as [|p pieces IH]; constructor; [reflexivity|exact IH]. Qed.

(** X14: what [handleUpload] does with a successful response whose body
    is not an array of well-formed result objects. A body that cannot be
    iterated (an object, a number, a boolean, [null]) gives one
    ['Upload failed: '] toast carrying the TypeError. A string is iterated
    character by character and counts as an empty batch: the toast says
    that 0 files were processed. An array with an element the loop does
    not get past (a [null], whose [status] cannot be read, or a result
    whose toast text cannot be built) gives the toasts of the results
    before it and then the ['Upload failed: '] toast with the TypeError
    thrown there; the results after it are not looked at, and the
    documents are not refreshed even when a result before it was a
    success. In all three cases the upload is the only request. *)
Theorem handleUpload_malformed_answer
    (files : list File) (results : value) (m : Machine) :
  Api.next (Api.UploadPDFs files) (world m) = Returned results ->
  let m' := snd (handleUpload files m) in
  let failure (e : JsError) (seen : list value) :=
    map toast_view (toasts (app m')) =
      map toast_view (toasts (app m))
      ++ flat_map result_toasts seen
      ++ [(VStr (lit "Upload failed: " ++ err_message e), lit "error")]
    /\ sent (world m') = sent (world m) ++ [Api.request_of (Api.UploadPDFs files)] in
  ((forall items, results <> VArr items) -> (forall s, results <> VStr s) ->
     failure (TypeError_not_iterable (lit "results")) [])
  /\ (forall s, results = VStr s ->
        map toast_view (toasts (app m')) =
          map toast_view (toasts (app m))
          ++ [(VStr (lit "Upload complete: 0 files processed"), lit "success")]
        /\ sent (world m') = sent (world m) ++ [Api.request_of (Api.UploadPDFs files)])
  /\ (forall before r after,
        results = VArr (before ++ r :: after) ->
        Forall (fun x => passes x = true) before ->
        passes r = false ->
        failure (if nullish r
                 then TypeError_null_property r (lit "status")
                 else TypeError_not_primitive) before).
Proof.
  intros Hnext m' failure. subst failure. refine (conj _ (conj _ _)).
  - intros Harr Hstr. subst m'.
    remember (handleUpload files m) as run eqn:Hrun.
    rewrite UploadFacts.handleUpload_shape in Hrun.
    unfold try_finally, try_catch in Hrun. rewrite Hnext in Hrun.
    unfold handleUpload_results in Hrun. unfold bind at 1 in Hrun.
    assert (Hiter : iterate (lit "results") results (uploading files m)
                    = (Thrown (TypeError_not_iterable (lit "results")), uploading files m)).
    { destruct results; try reflexivity.
      - now destruct (Hstr s).
      - now destruct (Harr items). }
    rewrite Hiter, AppFacts.addToast_run in Hrun. subst run.
    cbn -[lit Api.request_of List.app]. rewrite map_app. split; reflexivity.
  - intros s ->.
    destruct (@UploadFacts.handleUpload_items files (VStr s)
                (map VStr (code_points s)) m Hnext (fun s0 => eq_refl))
      as [Htoasts Hsent].
    fold m' in Htoasts, Hsent.
    rewrite (UploadFacts.stopped_all (strings_pass _)) in Htoasts, Hsent.
    rewrite (AppFacts.visited_all (strings_pass _)) in Htoasts.
    unfold count_status in Htoasts, Hsent.
    rewrite !strings_have_no_status, strings_give_no_toast in Htoasts.
    rewrite strings_have_no_status in Hsent.
    split; [exact Htoasts|exact Hsent].
  - intros before r after -> Hbefore Hr.
    destruct (@UploadFacts.handleUpload_items files (VArr (before ++ r :: after))
                (before ++ r :: after) m Hnext (fun s0 => eq_refl))
      as [Htoasts Hsent].
    fold m' in Htoasts, Hsent.
    destruct (@UploadFacts.stopped_at before after r Hbefore Hr) as [Hstopped Hvisited].
    rewrite Hstopped in Htoasts, Hsent. rewrite Hvisited in Htoasts.
    split; [exact Htoasts|exact Hsent].
Qed.

(** A body that is a JSON object; a batch whose second element is
    [null]; a batch whose second result has a file name without a text. *)
Lemma handleUpload_malformed_answer_witness :
  map toast_view
      (toasts (app (snd (handleUpload [Examples.a_pdf]
                           (mkMachine initial (Examples.replying (VObj [])))))))
  = [(VStr (lit "Upload failed: results is not iterable"), lit "error")]
  /\ length (sent (world (snd (handleUpload [Examples.a_pdf; Examples.b_pdf]
                (mkMachine initial
                   (Examples.replying
                      (VArr ([Examples.ingested_a] ++ VNull :: []))))))))
     = 1
  /\ map toast_view
        (toasts (app (snd (handleUpload [Examples.a_pdf; Examples.b_pdf]
           (mkMachine initial
              (Examples.replying
                 (VArr ([Examples.rejected_b] ++ Examples.boxed_name :: []))))))))
     = [(VStr (lit "Error: b.pdf - No text"), lit "error");
        (VStr (lit "Upload failed: Cannot convert object to primitive value"),
         lit "error")].
Proof.
  refine (conj _ (conj _ _)).
  - apply (proj1 (@handleUpload_malformed_answer [Examples.a_pdf] (VObj [])
                    (mkMachine initial (Examples.replying (VObj []))) eq_refl));
      discriminate.
  - destruct (proj2 (proj2 (@handleUpload_malformed_answer
                              [Examples.a_pdf; Examples.b_pdf]
                              (VArr ([Examples.ingested_a] ++ VNull :: []))
                              (mkMachine initial (Examples.replying
                                 (VArr ([Examples.ingested_a] ++ VNull :: []))))
                              eq_refl))
                    [Examples.ingested_a] VNull [] eq_refl
                    ltac:(repeat constructor) eq_refl) as [_ Hsent].
    rewrite Hsent. reflexivity.
  - exact (proj1 (proj2 (proj2 (@handleUpload_malformed_answer
                              [Examples.a_pdf; Examples.b_pdf]
                              (VArr ([Examples.rejected_b] ++ Examples.boxed_name :: []))
                              (mkMachine initial (Examples.replying
                                 (VArr ([Examples.rejected_b] ++ Examples.boxed_name :: []))))
                              eq_refl))
                    [Examples.rejected_b] Examples.boxed_name [] eq_refl
                    ltac:(repeat constructor) eq_refl)).
Defined.

(** X15: with a file pending, [handleDuplicateAction] adds exactly one
    toast, whatever the resolution request settles to: the result's message
    as ['success'] when its status is ['success'], after which the
    documents and statistics are requested again; ['Upload cancelled'] as
    ['info'] when it is ['cancelled']; the result's message as ['error'] for
    every other status; and ['Error: '] with the error's message as
    ['error'] when the request fails or yields [null]. Only the success case
    requests anything beyond the resolution itself. *)
Theorem handleDuplicateAction_outcome (action : jsstring) (file : File) (m : Machine) :
  pendingFile (app m) = FSome file ->
  let m' := snd (handleDuplicateAction action m) in
  let resolution := Api.request_of (Api.HandleDuplicate file action) in
  let shows (message : value) (type : string) (requests : list Request) :=
    map toast_view (toasts (app m')) =
      map toast_view (toasts (app m)) ++ [(message, lit type)]
    /\ sent (world m') = sent (world m) ++ requests in
  match Api.next (Api.HandleDuplicate file action) (world m) with
  | Thrown e =>
      shows (VStr (lit "Error: " ++ err_message e)) "error"%string [resolution]
  | Returned result =>
      if nullish result then
        shows (VStr (lit "Error: "
                     ++ err_message (TypeError_null_property result (lit "status"))))
              "error"%string [resolution]
      else if has_status "success" result then
        shows (prop result (lit "message")) "success"%string
              [resolution; Api.request_of Api.GetDocuments; Api.request_of Api.GetStats]
      else if has_status "cancelled" result then
        shows (VStr (lit "Upload cancelled")) "info"%string [resolution]
      else
        shows (prop result (lit "message")) "error"%string [resolution]
  end.
Proof.
  intros Hfile m' resolution shows. subst shows m'.
  remember (handleDuplicateAction action m) as run eqn:Hrun.
  unfold handleDuplicateAction in Hrun. unfold bind at 1 in Hrun. unfold gets in Hrun.
  rewrite Hfile in Hrun.
  unfold try_finally, try_catch, handleDuplicateAction_try in Hrun.
  unfold bind at 1 2 in Hrun.
  cbn [setIsUploading update modify app world fst snd] in Hrun.
  unfold bind at 1 in Hrun.
  change (Api.handleDuplicate file action)
    with (Api.run (Api.HandleDuplicate file action)) in Hrun.
  rewrite Runs.in_world_run in Hrun by reflexivity. cbn [app world] in Hrun.
  destruct (Api.next (Api.HandleDuplicate file action) (world m)) as [result|e].
  - unfold bind at 1 in Hrun. unfold get_prop in Hrun.
    destruct (nullish result) eqn:Hnull.
    + cbn -[lit Api.request_of List.app] in Hrun. subst run.
      cbn -[lit Api.request_of List.app]. rewrite map_app. split; reflexivity.
    + cbn [ret] in Hrun.
      change (is_str (prop result (lit "status")) (lit "success"))
        with (has_status "success" result) in Hrun.
      change (is_str (prop result (lit "status")) (lit "cancelled"))
        with (has_status "cancelled" result) in Hrun.
      destruct (has_status "success" result).
      * unfold bind at 1 in Hrun.
        rewrite AppFacts.addToast_run, Runs.refreshData_run in Hrun.
        cbn [app world toasted] in Hrun. subst run.
        cbn -[lit Api.request_of List.app Api.next withData].
        split.
        -- match goal with
           | |- context [match ?a with Returned _ => _ | Thrown _ => _ end] =>
               destruct a as [docs|e1]
           end; [|cbn; now rewrite map_app].
           match goal with
           | |- context [match ?a with Returned _ => _ | Thrown _ => _ end] =>
               destruct a as [statsData|e2]
           end; cbn; now rewrite map_app.
        -- rewrite <- !app_assoc. reflexivity.
      * destruct (has_status "cancelled" result);
          cbn -[lit Api.request_of List.app] in Hrun; subst run;
          cbn -[lit Api.request_of List.app]; rewrite map_app; split; reflexivity.
  - cbn -[lit Api.request_of List.app] in Hrun. subst run.
    cbn -[lit Api.request_of List.app]. rewrite map_app. split; reflexivity.
Qed.

(** Replacing [a.pdf]: the server's message is shown and the lists are
    refreshed; a status the handler does not know is shown as an error. *)
Lemma handleDuplicateAction_outcome_witness :
  (let m' := snd (handleDuplicateAction (lit "replace")
                    (Examples.pending
                       (Responded (mkResponse true (lit "OK")
                                     (Parsed (Examples.resolution "success")))))) in
   map toast_view (toasts (app m')) = [(VStr (lit "done"), lit "success")]
   /\ length (sent (world m')) = 3)
  /\ (let m' := snd (handleDuplicateAction (lit "replace")
                       (Examples.pending
                          (Responded (mkResponse true (lit "OK")
                                        (Parsed (Examples.resolution "queued")))))) in
      map toast_view (toasts (app m')) = [(VStr (lit "done"), lit "error")]
      /\ length (sent (world m')) = 1).
Proof.
  split.
  - destruct (@handleDuplicateAction_outcome (lit "replace") Examples.a_pdf
                (Examples.pending
                   (Responded (mkResponse true (lit "OK")
                                 (Parsed (Examples.resolution "success")))))
                eq_refl) as [Htoasts Hsent].
    cbv zeta. rewrite Hsent. split; [exact Htoasts|reflexivity].
  - destruct (@handleDuplicateAction_outcome (lit "replace") Examples.a_pdf
                (Examples.pending
                   (Responded (mkResponse true (lit "OK")
                                 (Parsed (Examples.resolution "queued")))))
                eq_refl) as [Htoasts Hsent].
    cbv zeta. rewrite Hsent. split; [exact Htoasts|reflexivity].
Defined.

End EdgeFacts.
